(** * DHT22 single-wire driver (dht_sensor.c): model and properties

    The driver bit-bangs the DHT22 protocol over one GPIO line.  Its only
    inputs are what the ESP-IDF primitives hand back: the error code of
    every [gpio_set_direction] / [gpio_set_level] call, the level returned
    by every [gpio_get_level] call and the uptime returned by every
    [esp_timer_get_time] call.  The environment is therefore modelled as
    three answer sequences indexed by call number, and the driver as a
    state-passing program that consumes them and logs every primitive call.

    The [float] fields of [dht_reading] are IEEE-754 binary32 values; they
    are modelled with the Standard Library's [SpecFloat] at precision 24. *)

From Stdlib Require Import ZArith Lia Bool List.
From Stdlib Require Import Floats.SpecFloat.
From stdpp Require Import base list.

Open Scope Z_scope.

(* ------------------------------------------------------------------ *)
(** ** binary32 arithmetic *)

Module F32.
Definition prec : Z := 24.
Definition emax : Z := 128.

Definition float := spec_float.

(** all-bits-zero, what [memset] leaves in a float *)
Definition zero : float := S754_zero false.

(** conversion of a C integer to [float] *)
Definition of_int (n : Z) : float := binary_normalize prec emax n 0 false.

Definition add : float -> float -> float := SFadd prec emax.
Definition mul : float -> float -> float := SFmul prec emax.
Definition div : float -> float -> float := SFdiv prec emax.

Definition opp : float -> float := SFopp.

(** the C comparison [x < y] *)
Definition ltb : float -> float -> bool := SFltb.

(** sign bit of a value *)
Definition signbit (x : float) : bool :=
  match x with
  | S754_zero s | S754_infinity s | S754_finite s _ _ => s
  | S754_nan => false
  end.

Definition eqb (x y : float) : bool :=
  match x, y with
  | S754_zero a, S754_zero b | S754_infinity a, S754_infinity b => Bool.eqb a b
  | S754_nan, S754_nan => true
  | S754_finite a m e, S754_finite b m' e' =>
      Bool.eqb a b && (m =? m')%positive && (e =? e')
  | _, _ => false
  end.

(** [x] is a binary32 value within half a unit in the last place of the
    rational [num / den] ([0 < den]): for [x = v * 2^e] with [e <= 0]
    this reads [2 * |v * den - num * 2^-e| <= den]. *)
Definition nearest_to (x : float) (num den : Z) : bool :=
  valid_binary prec emax x &&
  match x with
  | S754_zero _ => num =? 0
  | S754_finite s m e =>
      let v := if s then - Z.pos m else Z.pos m in
      (e <=? 0) && (2 * Z.abs (v * den - num * 2 ^ (- e)) <=? den)
  | _ => false
  end.

(** 0x42826666, 0x41CE6666 and 0xC1CE6666: the binary32 values that
    the decimals 65.2, 25.8 and -25.8 denote. *)
Definition lit_65_2 : float := S754_finite false 8545894 (-17).
Definition lit_25_8 : float := S754_finite false 13526630 (-19).
Definition lit_m25_8 : float := S754_finite true 13526630 (-19).
End F32.

(* ------------------------------------------------------------------ *)
(** ** dht_sensor.h *)

Definition dht_sensor := Z.

Record dht_reading := Reading {
  temperature : F32.float;
  humidity    : F32.float;
  checksum    : Z            (* uint8_t *)
}.

Inductive dht_retval :=
| DHT_OK
| DHT_ERR_GPIO
| DHT_ERR_BADCHECKSUM
| DHT_ERR_TIMEOUT.

Definition retval_eqb (a b : dht_retval) : bool :=
  match a, b with
  | DHT_OK, DHT_OK | DHT_ERR_GPIO, DHT_ERR_GPIO
  | DHT_ERR_BADCHECKSUM, DHT_ERR_BADCHECKSUM
  | DHT_ERR_TIMEOUT, DHT_ERR_TIMEOUT => true
  | _, _ => false
  end.

(* ------------------------------------------------------------------ *)
(** ** The ESP-IDF collaborators *)

Inductive gpio_mode := GPIO_MODE_INPUT | GPIO_MODE_OUTPUT.

(** [esp_err_t] is an [int]; [ESP_OK] is 0. *)
Definition ESP_OK : Z := 0.

(** One entry per primitive call, most recent first. *)
Inductive event :=
| EvSetDirection (pin : Z) (mode : gpio_mode) (err : Z)
| EvSetLevel (pin : Z) (level : Z) (err : Z)
| EvGetLevel (pin : Z) (level : Z)
| EvGetTime (t : Z)
| EvDelay (us : Z).

(** What the primitives answer: the [k]-th fallible GPIO call returns
    [gpio_result k], the [k]-th [gpio_get_level] returns [line_level k],
    the [k]-th [esp_timer_get_time] returns [uptime k].  The uptime is an
    [int64_t] count of microseconds since boot; differences of two readings
    are taken in [Z] (signed overflow is undefined in C and out of reach for
    an uptime). *)
Record env := Env {
  gpio_result : nat -> Z;
  line_level  : nat -> Z;
  uptime      : nat -> Z
}.

(** Calls made so far, and their log. *)
Record hw := Hw {
  n_gpio  : nat;
  n_level : nat;
  n_time  : nat;
  trace   : list event
}.

Definition hw0 : hw := Hw 0 0 0 [].

(** State passing with possible divergence: [None] is a busy-wait loop
    that ran out of fuel. *)
Definition M (A : Type) : Type := hw -> option (A * hw).

Definition ret {A} (a : A) : M A := fun s => Some (a, s).

Definition bind {A B} (m : M A) (k : A -> M B) : M B :=
  fun s => match m s with
           | Some (a, s') => k a s'
           | None => None
           end.

Declare Scope dht_scope.
Delimit Scope dht_scope with dht.
Notation "'let*' x := m 'in' k" := (bind m (fun x => k))
  (at level 10, x name, m at level 100, k at level 200) : dht_scope.
Notation "'let*' ' p := m 'in' k" := (bind m (fun x => let p := x in k))
  (at level 10, p pattern, m at level 100, k at level 200) : dht_scope.
Open Scope dht_scope.

(* ------------------------------------------------------------------ *)
(** ** dht_sensor.c *)

Definition DHT_BYTES_PER_READ : nat := 5.

Definition spec_us_out_request_low      : Z := 3000.
Definition spec_us_out_request_high     : Z := 20.
Definition spec_us_in_ready_signal_half : Z := 80.
Definition spec_us_in_data_bit_low      : Z := 50.
Definition spec_us_in_data_bit_high     : Z := 70.
Definition spec_us_bit_length_threshold : Z := 40.
Definition measured_us_max_transition_t : Z := 10.

(** truncation to [uint8_t] *)
Definition u8 (x : Z) : Z := Z.land x 255.

Definition reading_zero : dht_reading := Reading F32.zero F32.zero 0.

Section Driver.
Variable E : env.

Definition gpio_set_direction (pin : Z) (mode : gpio_mode) : M Z :=
  fun s =>
    let r := gpio_result E (n_gpio s) in
    Some (r, Hw (S (n_gpio s)) (n_level s) (n_time s)
                (EvSetDirection pin mode r :: trace s)).

Definition gpio_set_level (pin : Z) (level : Z) : M Z :=
  fun s =>
    let r := gpio_result E (n_gpio s) in
    Some (r, Hw (S (n_gpio s)) (n_level s) (n_time s)
                (EvSetLevel pin level r :: trace s)).

Definition gpio_get_level (pin : Z) : M Z :=
  fun s =>
    let v := line_level E (n_level s) in
    Some (v, Hw (n_gpio s) (S (n_level s)) (n_time s)
                (EvGetLevel pin v :: trace s)).

Definition esp_timer_get_time : M Z :=
  fun s =>
    let t := uptime E (n_time s) in
    Some (t, Hw (n_gpio s) (n_level s) (S (n_time s))
                (EvGetTime t :: trace s)).

Definition ets_delay_us (us : Z) : M unit :=
  fun s => Some (tt, Hw (n_gpio s) (n_level s) (n_time s)
                        (EvDelay us :: trace s)).

(** lines 40-65 *)
Definition dht_request_readings (dht : dht_sensor) : M dht_retval :=
  let* r := gpio_set_direction dht GPIO_MODE_OUTPUT in
  if negb (r =? ESP_OK) then ret DHT_ERR_GPIO else
  let* r := gpio_set_level dht 0 in
  if negb (r =? ESP_OK) then ret DHT_ERR_GPIO else
  let* _ := ets_delay_us spec_us_out_request_low in
  let* r := gpio_set_level dht 1 in
  if negb (r =? ESP_OK) then ret DHT_ERR_GPIO else
  let* _ := ets_delay_us spec_us_out_request_high in
  let* r := gpio_set_direction dht GPIO_MODE_INPUT in
  if negb (r =? ESP_OK) then ret DHT_ERR_GPIO else
  ret DHT_OK.

(** The four polling loops of the file (lines 73-79, 82-88, 102-108 and
    111-117) are the same loop up to the level polled and the bound:
<<
    while(gpio_get_level(dht) == level)
        if((esp_timer_get_time() - uptime_entry) >= timeout_usec)
            return DHT_ERR_TIMEOUT;
>>
    [busy_wait] is that loop; it yields [DHT_ERR_TIMEOUT] when the
    enclosing function returns from inside it and [DHT_OK] when control
    falls out of the loop.  One unit of fuel is one evaluation of the
    loop condition. *)
Fixpoint busy_wait (fuel : nat) (dht : dht_sensor) (level : Z)
         (uptime_entry timeout_usec : Z) : M dht_retval :=
  match fuel with
  | O => fun _ => None
  | S fuel' =>
      let* v := gpio_get_level dht in
      if v =? level then
        let* t := esp_timer_get_time in
        if t - uptime_entry >=? timeout_usec then ret DHT_ERR_TIMEOUT
        else busy_wait fuel' dht level uptime_entry timeout_usec
      else ret DHT_OK
  end.

(** lines 69-90 *)
Definition dht_await_data (fuel : nat) (dht : dht_sensor) : M dht_retval :=
  let timeout_usec := spec_us_in_ready_signal_half + 10 in
  let* uptime_entry := esp_timer_get_time in
  let* r := busy_wait fuel dht 0 uptime_entry timeout_usec in
  if negb (retval_eqb r DHT_OK) then ret DHT_ERR_TIMEOUT else
  let* uptime_entry := esp_timer_get_time in
  let* r := busy_wait fuel dht 1 uptime_entry timeout_usec in
  if negb (retval_eqb r DHT_OK) then ret DHT_ERR_TIMEOUT else
  ret DHT_OK.

(** lines 93-123; [read_bit] is the value behind the out-pointer on
    entry, the second component of the result its value on return. *)
Definition dht_read_bit (fuel : nat) (dht : dht_sensor) (read_bit : bool)
  : M (dht_retval * bool) :=
  let timeout_low_usec  := spec_us_in_data_bit_low + 20 in
  let timeout_high_usec := spec_us_in_data_bit_high + 20 in
  let* uptime_entry := esp_timer_get_time in
  let* r := busy_wait fuel dht 0 uptime_entry timeout_low_usec in
  if negb (retval_eqb r DHT_OK) then ret (DHT_ERR_TIMEOUT, read_bit) else
  let* uptime_entry := esp_timer_get_time in
  let* r := busy_wait fuel dht 1 uptime_entry timeout_high_usec in
  if negb (retval_eqb r DHT_OK) then ret (DHT_ERR_TIMEOUT, read_bit) else
  let* t := esp_timer_get_time in
  let usec_spent_high := t - uptime_entry in
  let read_bit :=
    if usec_spent_high <? spec_us_bit_length_threshold then false else true in
  ret (DHT_OK, read_bit).

(** lines 125-136 *)
Definition dht_init (dht : dht_sensor) : M dht_retval :=
  let* r := gpio_set_direction dht GPIO_MODE_OUTPUT in
  if negb (r =? ESP_OK) then ret DHT_ERR_GPIO else
  let* r := gpio_set_level dht 1 in
  if negb (r =? ESP_OK) then ret DHT_ERR_GPIO else
  ret DHT_OK.

(** Inner loop of [dht_read], lines 164-176: [n] iterations are left and
    [bit_idx = n - 1], so a call with [n = 8] runs [bit_idx] from 7 down
    to 0.  A status other than [DHT_OK] is the [return] at line 168. *)
Fixpoint read_byte_loop (fuel : nat) (dht : dht_sensor) (n : nat)
         (byte_in : Z) (bit_in : bool) : M (dht_retval * Z * bool) :=
  match n with
  | O => ret (DHT_OK, byte_in, bit_in)
  | S bit_idx =>
      let* '(r, bit_in) := dht_read_bit fuel dht bit_in in
      if negb (retval_eqb r DHT_OK) then ret (DHT_ERR_TIMEOUT, byte_in, bit_in)
      else
        let byte_in :=
          if bit_in then u8 (Z.lor byte_in (Z.shiftl 1 (Z.of_nat bit_idx)))
          else byte_in in
        let* _ := ets_delay_us measured_us_max_transition_t in
        read_byte_loop fuel dht bit_idx byte_in bit_in
  end.

(** Outer loop of [dht_read], lines 161-178: [n] iterations are left,
    starting at index [byte_idx]. *)
Fixpoint read_frame_loop (fuel : nat) (dht : dht_sensor) (n : nat)
         (byte_idx : nat) (buf : list Z) (bit_in : bool)
  : M (dht_retval * list Z * bool) :=
  match n with
  | O => ret (DHT_OK, buf, bit_in)
  | S n' =>
      let* '(r, byte_in, bit_in) := read_byte_loop fuel dht 8 0 bit_in in
      if negb (retval_eqb r DHT_OK) then ret (DHT_ERR_TIMEOUT, buf, bit_in)
      else
        let buf := <[byte_idx := byte_in]> buf in
        read_frame_loop fuel dht n' (S byte_idx) buf bit_in
  end.

(** Lines 141-145 and 161-178: the zeroed buffer and the two loops. *)
Definition dht_read_frame (fuel : nat) (dht : dht_sensor)
  : M (dht_retval * list Z * bool) :=
  read_frame_loop fuel dht DHT_BYTES_PER_READ 0
                  (replicate DHT_BYTES_PER_READ 0) false.

(** line 181 *)
Definition checksum_ok (buf : list Z) : bool :=
  buf !!! 4%nat =?
    Z.land (buf !!! 0%nat + buf !!! 1%nat + buf !!! 2%nat + buf !!! 3%nat) 255.

(** lines 186-201, applied to the zeroed [*reading] *)
Definition parse_buffer (buf : list Z) (reading : dht_reading) : dht_reading :=
  let h := F32.of_int (buf !!! 0%nat) in
  let h := F32.mul h (F32.of_int 256) in
  let h := F32.add h (F32.of_int (buf !!! 1%nat)) in
  let h := F32.div h (F32.of_int 10) in
  let t := F32.of_int (Z.land (buf !!! 2%nat) 127) in
  let t := F32.mul t (F32.of_int 256) in
  let t := F32.add t (F32.of_int (buf !!! 3%nat)) in
  let t := F32.div t (F32.of_int 10) in
  let t := if negb (Z.land (buf !!! 2%nat) 128 =? 0)
           then F32.mul t (F32.of_int (-1)) else t in
  Reading t h (buf !!! 4%nat).

(** lines 139-204; [reading] is what the caller's struct held on entry,
    the second component of the result what it holds on return. *)
Definition dht_read (fuel : nat) (dht : dht_sensor) (reading : dht_reading)
  : M (dht_retval * dht_reading) :=
  let reading := reading_zero in
  let* r := dht_request_readings dht in
  if negb (retval_eqb r DHT_OK) then ret (DHT_ERR_GPIO, reading) else
  let* r := dht_await_data fuel dht in
  if negb (retval_eqb r DHT_OK) then ret (DHT_ERR_TIMEOUT, reading) else
  let* '(r, buf, _) := dht_read_frame fuel dht in
  if negb (retval_eqb r DHT_OK) then ret (DHT_ERR_TIMEOUT, reading) else
  if negb (checksum_ok buf) then ret (DHT_ERR_BADCHECKSUM, reading) else
  ret (DHT_OK, parse_buffer buf reading).
End Driver.

(* ------------------------------------------------------------------ *)
(** ** A scripted sensor

    Concrete environments for running the driver: every GPIO call
    succeeds unless scripted otherwise, the clock advances by a fixed step
    per reading, and the line answers from a list of levels. *)

Definition steady_clock (step : Z) : nat -> Z := fun k => step * Z.of_nat k.

Definition scripted (gpio levels : list Z) (idle : Z) (clock : nat -> Z) : env :=
  Env (fun k => nth k gpio ESP_OK) (fun k => nth k levels idle) clock.

(** The eight bits of a byte, most significant first. *)
Definition byte_bits (b : Z) : list bool :=
  map (fun i => Z.testbit b (Z.of_nat i)) [7; 6; 5; 4; 3; 2; 1; 0]%nat.

(** Levels seen by the polls of one transmission when the clock steps by
    30us per reading: the handshake is over in one poll per half, a 0 bit
    stays high for one reading (30us) and a 1 bit for two (60us). *)
Definition bit_levels (b : bool) : list Z := if b then [1; 1; 0] else [1; 0].

Definition frame_levels (frame : list Z) : list Z :=
  [1; 0] ++ flat_map bit_levels (flat_map byte_bits frame).

Definition sensor (frame : list Z) : env :=
  scripted [] (frame_levels frame) 0 (steady_clock 30).

(** A line that never moves. *)
Definition stuck (level : Z) : env := scripted [] [] level (steady_clock 1).

(* ------------------------------------------------------------------ *)
(** ** Vocabulary of the statements *)

(** The state after one more [gpio_get_level] / [esp_timer_get_time]. *)
Definition after_level (E : env) (dht : dht_sensor) (s : hw) : hw :=
  Hw (n_gpio s) (S (n_level s)) (n_time s)
     (EvGetLevel dht (line_level E (n_level s)) :: trace s).

Definition after_time (E : env) (s : hw) : hw :=
  Hw (n_gpio s) (n_level s) (S (n_time s))
     (EvGetTime (uptime E (n_time s)) :: trace s).

(** A polling loop entered with level poll [l] and time poll [k] next goes
    round [j] times: each of its first [j] level samples keeps the loop
    condition true, and each of the [j] time checks is below the bound. *)
Definition spinning (E : env) (level uptime_entry timeout_usec : Z)
           (l k j : nat) : Prop :=
  forall i, (i < j)%nat ->
    line_level E (l + i) = level /\
    uptime E (k + i) - uptime_entry < timeout_usec.

(** The clock gives a larger value at every reading. *)
Definition clock_increasing (E : env) : Prop :=
  forall k, uptime E k < uptime E (S k).

(** The delays requested so far, most recent first. *)
Definition delays (tr : list event) : list Z :=
  flat_map (fun e => match e with EvDelay us => [us] | _ => [] end) tr.

(** What one call of [dht_read_bit] entered at level poll [l] and time
    poll [k] can do.  [bit_run E l k st t_high nl nt]: the call returns
    [st] after [nl] level polls and [nt] time polls, and [t_high] is the
    measured length of the high phase when there is one. *)
Inductive bit_run (E : env) (l k : nat)
  : dht_retval -> option Z -> nat -> nat -> Prop :=
| low_phase_timeout j1 :
    spinning E 0 (uptime E k) (spec_us_in_data_bit_low + 20) l (S k) j1 ->
    line_level E (l + j1) = 0 ->
    spec_us_in_data_bit_low + 20 <= uptime E (S k + j1) - uptime E k ->
    bit_run E l k DHT_ERR_TIMEOUT None (S j1) (S (S j1))
| high_phase_timeout j1 j2 :
    spinning E 0 (uptime E k) (spec_us_in_data_bit_low + 20) l (S k) j1 ->
    line_level E (l + j1) <> 0 ->
    spinning E 1 (uptime E (S k + j1)) (spec_us_in_data_bit_high + 20)
             (S l + j1) (S (S k + j1)) j2 ->
    line_level E (S l + j1 + j2) = 1 ->
    spec_us_in_data_bit_high + 20
      <= uptime E (S (S k + j1) + j2) - uptime E (S k + j1) ->
    bit_run E l k DHT_ERR_TIMEOUT None (j1 + j2 + 2) (j1 + j2 + 3)
| high_phase_measured j1 j2 :
    spinning E 0 (uptime E k) (spec_us_in_data_bit_low + 20) l (S k) j1 ->
    line_level E (l + j1) <> 0 ->
    spinning E 1 (uptime E (S k + j1)) (spec_us_in_data_bit_high + 20)
             (S l + j1) (S (S k + j1)) j2 ->
    line_level E (S l + j1 + j2) <> 1 ->
    bit_run E l k DHT_OK
            (Some (uptime E (S (S k + j1) + j2) - uptime E (S k + j1)))
            (j1 + j2 + 2) (j1 + j2 + 3).

(** The bit a run of [dht_read_bit] leaves behind the out-pointer. *)
Definition bit_after (b0 : bool) (t_high : option Z) : bool :=
  match t_high with
  | None => b0
  | Some t => negb (t <? spec_us_bit_length_threshold)
  end.

(** The frame assembler in the words of its description: [n] bit reads in
    order, a settle delay after every bit that was read, and a stop at the
    first read that times out.  The result lists the bits read. *)
Fixpoint read_bits (E : env) (fuel : nat) (dht : dht_sensor) (n : nat)
         (bit_in : bool) : M (dht_retval * list bool) :=
  match n with
  | O => ret (DHT_OK, [])
  | S n' =>
      let* '(r, b) := dht_read_bit E fuel dht bit_in in
      if negb (retval_eqb r DHT_OK) then ret (DHT_ERR_TIMEOUT, [])
      else
        let* _ := ets_delay_us measured_us_max_transition_t in
        let* '(r', bits) := read_bits E fuel dht n' b in
        ret (r', b :: bits)
  end.

(** Bit number [i] of a byte, counted in reading order, is ORed in at
    position [7 - i]. *)
Fixpoint or_bits (i : nat) (bits : list bool) (byte : Z) : Z :=
  match bits with
  | [] => byte
  | b :: bits' =>
      or_bits (S i) bits'
              (if b then Z.lor byte (Z.shiftl 1 (7 - Z.of_nat i)) else byte)
  end.

Definition byte_of_bits (bits : list bool) : Z := or_bits 0 bits 0.

(** The bytes completed by a run of bits, at most [n] of them: a group of
    fewer than eight bits completes nothing. *)
Fixpoint bytes_of_bits (n : nat) (bits : list bool) : list Z :=
  match n with
  | O => []
  | S n' =>
      if (8 <=? length bits)%nat
      then byte_of_bits (take 8 bits) :: bytes_of_bits n' (drop 8 bits)
      else []
  end.

(** The frame buffer after a run of bits: the completed bytes in order,
    the rest as [memset] left it. *)
Definition frame_of_bits (bits : list bool) : list Z :=
  let done := bytes_of_bits DHT_BYTES_PER_READ bits in
  done ++ replicate (DHT_BYTES_PER_READ - length done) 0.

(** [dht_read] gets as far as a complete frame [buf], reaching state [s']. *)
Definition assembles (E : env) (fuel : nat) (dht : dht_sensor)
           (s : hw) (buf : list Z) (s' : hw) : Prop :=
  exists s1 s2 bit_in,
    dht_request_readings E dht s = Some (DHT_OK, s1) /\
    dht_await_data E fuel dht s1 = Some (DHT_OK, s2) /\
    dht_read_frame E fuel dht s2 = Some (DHT_OK, buf, bit_in, s').

(** The stages of [dht_read] that can fail, each reached only when the
    ones before it succeeded; [s'] is the state the failure leaves. *)
Definition request_fails (E : env) (dht : dht_sensor) (s s' : hw) : Prop :=
  exists r, dht_request_readings E dht s = Some (r, s') /\ r <> DHT_OK.

Definition handshake_fails (E : env) (fuel : nat) (dht : dht_sensor)
           (s s' : hw) : Prop :=
  exists s1 r,
    dht_request_readings E dht s = Some (DHT_OK, s1) /\
    dht_await_data E fuel dht s1 = Some (r, s') /\ r <> DHT_OK.

Definition frame_fails (E : env) (fuel : nat) (dht : dht_sensor)
           (s s' : hw) : Prop :=
  exists s1 s2 r buf bit_in,
    dht_request_readings E dht s = Some (DHT_OK, s1) /\
    dht_await_data E fuel dht s1 = Some (DHT_OK, s2) /\
    dht_read_frame E fuel dht s2 = Some (r, buf, bit_in, s') /\ r <> DHT_OK.

(** A logged GPIO call that did not return [ESP_OK]. *)
Definition failed_gpio_call (ev : event) : Prop :=
  match ev with
  | EvSetDirection _ _ err | EvSetLevel _ _ err => err <> ESP_OK
  | _ => False
  end.

(** [n / 10.0] in binary32: the integer converts exactly, the quotient is
    rounded once. *)
Definition tenths (n : Z) : F32.float := F32.div (F32.of_int n) (F32.of_int 10).

(** What the decoder has to get right for the 16-bit value [b0 * 256 + b1]:
    the multiply and add of [parse_buffer] are exact, the quotient is the
    nearest binary32 to the tenths, it is not negative, and multiplying it
    by -1 only flips its sign.  [c256], [c10], [cm1] and [hi] stand for the
    three constants and for the product of the high byte. *)
Definition value_ok_with (c256 c10 cm1 hi : F32.float) (b0 b1 : Z) : bool :=
  let n := b0 * 256 + b1 in
  let x := F32.of_int n in
  let h := F32.div x c10 in
  F32.eqb (F32.add hi (F32.of_int b1)) x
  && F32.nearest_to h n 10
  && negb (F32.signbit h)
  && F32.eqb (F32.mul h cm1) (F32.opp h).

Definition value_ok (b0 b1 : Z) : bool :=
  value_ok_with (F32.of_int 256) (F32.of_int 10) (F32.of_int (-1))
                (F32.mul (F32.of_int b0) (F32.of_int 256)) b0 b1.

Definition all_bytes (P : Z -> bool) : bool :=
  forallb P (map Z.of_nat (seq 0 256)).

(** [value_ok_with] over all pairs of bytes, the product of the high byte
    being computed once per high byte. *)
Definition values_ok_with (c256 c10 cm1 : F32.float) : bool :=
  all_bytes (fun b0 =>
    (fun hi => all_bytes (value_ok_with c256 c10 cm1 hi b0))
      (F32.mul (F32.of_int b0) c256)).

(** Frames for the scripted sensor: 65.2 % at 25.8 C, the same at -25.8 C,
    and the first with its checksum byte off by one. *)
Definition frame_ok  : list Z := [2; 140; 1; 2; 145].
Definition frame_neg : list Z := [2; 140; 129; 2; 17].
Definition frame_bad : list Z := [2; 140; 1; 2; 146].

(** Where a computation started in the initial state leaves the hardware. *)
Definition state_after {A} (m : M A) : hw :=
  match m hw0 with
  | Some (_, s) => s
  | None => hw0
  end.

(** The line as the bit reads alone see it, and two one-bit lines whose
    high phase measures 30us and 70us. *)
Definition bits_only (frame : list Z) : env :=
  scripted [] (flat_map bit_levels (flat_map byte_bits frame)) 0 (steady_clock 30).

Definition one_bit (t_high : Z) : env := scripted [] [1; 0] 0 (steady_clock t_high).

(** A line that is low for two polls and then rises. *)
Definition rising : env := scripted [] [0; 0; 1] 0 (steady_clock 30).

(** Every clock reading of a log, most recent first, and the time from
    its first clock reading to its last. *)
Definition clock_readings (tr : list event) : list Z :=
  flat_map (fun e => match e with EvGetTime t => [t] | _ => [] end) tr.

Definition elapsed (tr : list event) : Z :=
  match clock_readings tr with
  | [] => 0
  | t :: ts => t - List.last ts t
  end.

(** The timeout bounds of all the waits of one read: the two halves of
    the handshake and, forty times, the two phases of a bit. *)
Definition sum_of_timeout_bounds : Z :=
  2 * (spec_us_in_ready_signal_half + 10)
  + 40 * ((spec_us_in_data_bit_low + 20) + (spec_us_in_data_bit_high + 20)).

(** A clock that shows every value twice, and a line that never moves
    under it. *)
Definition slow_clock : nat -> Z := fun k => Z.of_nat (k / 2).

Definition stuck_slow (level : Z) : env := scripted [] [] level slow_clock.

(** A line stuck low under a clock that advances a second per reading. *)
Definition stuck_jumping : env := scripted [] [] 0 (steady_clock 1000000).

(** A sensor that falls silent after three bits. *)
Definition cut_short : env :=
  scripted [] (flat_map bit_levels [true; false; true]) 0 (steady_clock 30).

(** A pin whose second GPIO call fails. *)
Definition failing_gpio : env := scripted [ESP_OK; -1] [] 0 (steady_clock 1).

(* ------------------------------------------------------------------ *)
(** ** Vocabulary of the further properties *)

(** The GPIO configuration calls of a log, most recent first. *)
Definition gpio_calls (tr : list event) : list event :=
  flat_map (fun e => match e with
                     | EvSetDirection _ _ _ | EvSetLevel _ _ _ => [e]
                     | _ => []
                     end) tr.

(** The primitive calls of [dht_init] and of [dht_request_readings] in
    call order, the GPIO calls answered from number [g] on. *)
Definition init_steps (E : env) (dht : dht_sensor) (g : nat) : list event :=
  [ EvSetDirection dht GPIO_MODE_OUTPUT (gpio_result E g);
    EvSetLevel dht 1 (gpio_result E (S g)) ].

Definition request_steps (E : env) (dht : dht_sensor) (g : nat) : list event :=
  [ EvSetDirection dht GPIO_MODE_OUTPUT (gpio_result E g);
    EvSetLevel dht 0 (gpio_result E (S g));
    EvDelay spec_us_out_request_low;
    EvSetLevel dht 1 (gpio_result E (S (S g)));
    EvDelay spec_us_out_request_high;
    EvSetDirection dht GPIO_MODE_INPUT (gpio_result E (S (S (S g)))) ].

(** A log grows by the calls [steps], made in that order, up to and
    including the first GPIO call that fails: [done] is what was run. *)
Definition runs_until_failure (steps done : list event) : Prop :=
  exists rest,
    steps = done ++ rest /\
    ((rest = [] /\ Forall (fun ev => ~ failed_gpio_call ev) done) \/
     (exists pre ev, done = pre ++ [ev] /\ failed_gpio_call ev /\
                     Forall (fun ev => ~ failed_gpio_call ev) pre)).

(** What one call of [dht_await_data] entered at level poll [l] and time
    poll [k] can do: [handshake_run E l k st nl nt] is a return of [st]
    after [nl] level polls and [nt] time polls. *)
Inductive handshake_run (E : env) (l k : nat) : dht_retval -> nat -> nat -> Prop :=
| ready_low_timeout j1 :
    spinning E 0 (uptime E k) (spec_us_in_ready_signal_half + 10) l (S k) j1 ->
    line_level E (l + j1) = 0 ->
    spec_us_in_ready_signal_half + 10 <= uptime E (S k + j1) - uptime E k ->
    handshake_run E l k DHT_ERR_TIMEOUT (S j1) (S (S j1))
| ready_high_timeout j1 j2 :
    spinning E 0 (uptime E k) (spec_us_in_ready_signal_half + 10) l (S k) j1 ->
    line_level E (l + j1) <> 0 ->
    spinning E 1 (uptime E (S k + j1)) (spec_us_in_ready_signal_half + 10)
             (S l + j1) (S (S k + j1)) j2 ->
    line_level E (S l + j1 + j2) = 1 ->
    spec_us_in_ready_signal_half + 10
      <= uptime E (S (S k + j1) + j2) - uptime E (S k + j1) ->
    handshake_run E l k DHT_ERR_TIMEOUT (j1 + j2 + 2) (j1 + j2 + 3)
| ready_seen j1 j2 :
    spinning E 0 (uptime E k) (spec_us_in_ready_signal_half + 10) l (S k) j1 ->
    line_level E (l + j1) <> 0 ->
    spinning E 1 (uptime E (S k + j1)) (spec_us_in_ready_signal_half + 10)
             (S l + j1) (S (S k + j1)) j2 ->
    line_level E (S l + j1 + j2) <> 1 ->
    handshake_run E l k DHT_OK (j1 + j2 + 2) (j1 + j2 + 2).

(** The integer nearest to ten times a binary32 value, halves rounding
    up: the tenths a reading stands for.  [None] for infinities and NaN. *)
Definition to_tenths (x : F32.float) : option Z :=
  match x with
  | S754_zero _ => Some 0
  | S754_finite s m e =>
      let v := if s then - Z.pos m else Z.pos m in
      Some (if e <=? 0
            then (20 * v + 2 ^ (- e)) / (2 * 2 ^ (- e))
            else 10 * v * 2 ^ e)
  | _ => None
  end.

(** The environment [E] with every clock reading moved by [c]. *)
Definition shifted (E : env) (c : Z) : env :=
  Env (gpio_result E) (line_level E) (fun k => uptime E k + c).

(** Two hardware states reached by the same numbers of calls. *)
Definition same_calls (s1 s2 : hw) : Prop :=
  n_gpio s1 = n_gpio s2 /\ n_level s1 = n_level s2 /\ n_time s1 = n_time s2.

(** [frame_ok] with its two humidity bytes exchanged. *)
Definition frame_swapped : list Z := [140; 2; 1; 2; 145].

(* ------------------------------------------------------------------ *)
(** ** The polling loop *)

Lemma retval_eqb_eq a b : retval_eqb a b = true <-> a = b.
Proof. destruct a, b; simpl; split; congruence. Qed.

Lemma retval_eqb_OK r : negb (retval_eqb r DHT_OK) = false <-> r = DHT_OK.
Proof. destruct r; cbn; split; congruence. Qed.

Lemma retval_neqb_OK r : negb (retval_eqb r DHT_OK) = true <-> r <> DHT_OK.
Proof. destruct r; cbn; split; congruence. Qed.

Lemma busy_wait_unfold E fuel dht level entry timeout s :
  busy_wait E (S fuel) dht level entry timeout s =
  if line_level E (n_level s) =? level then
    if uptime E (n_time s) - entry >=? timeout
    then Some (DHT_ERR_TIMEOUT, after_time E (after_level E dht s))
    else busy_wait E fuel dht level entry timeout (after_time E (after_level E dht s))
  else Some (DHT_OK, after_level E dht s).
Proof.
  cbn [busy_wait]. unfold bind, gpio_get_level, esp_timer_get_time, ret.
  fold (after_level E dht s).
  destruct (line_level E (n_level s) =? level); [|reflexivity].
  change (n_time s) with (n_time (after_level E dht s)).
  fold (after_time E (after_level E dht s)).
  destruct (_ >=? _); reflexivity.
Qed.

Lemma spinning_tail E level entry timeout l k j :
  spinning E level entry timeout l k (S j) ->
  spinning E level entry timeout (S l) (S k) j.
Proof.
  intros H i Hi. specialize (H (S i) ltac:(lia)).
  replace (S l + i)%nat with (l + S i)%nat by lia.
  replace (S k + i)%nat with (k + S i)%nat by lia. exact H.
Qed.

Lemma busy_wait_falls_out E dht level entry timeout j :
  forall fuel s,
    spinning E level entry timeout (n_level s) (n_time s) j ->
    line_level E (n_level s + j) <> level ->
    (j < fuel)%nat ->
    exists s', busy_wait E fuel dht level entry timeout s = Some (DHT_OK, s') /\
               n_gpio s' = n_gpio s /\
               n_level s' = (n_level s + S j)%nat /\
               n_time s' = (n_time s + j)%nat.
Proof.
  induction j as [|j IH]; intros fuel s Hspin Hlvl Hfuel;
    (destruct fuel as [|fuel]; [lia|]); rewrite busy_wait_unfold.
  - rewrite Nat.add_0_r in Hlvl. apply Z.eqb_neq in Hlvl. rewrite Hlvl.
    eexists; split; [reflexivity|]. simpl. lia.
  - destruct (Hspin 0%nat ltac:(lia)) as [H0 H1]. rewrite !Nat.add_0_r in *.
    rewrite H0, Z.eqb_refl.
    destruct (Z.geb_spec (uptime E (n_time s) - entry) timeout); [lia|].
    destruct (IH fuel (after_time E (after_level E dht s))) as (s' & -> & ? & ? & ?).
    + apply spinning_tail, Hspin.
    + unfold after_time, after_level; cbn [n_level n_time]. rewrite Nat.add_succ_comm. exact Hlvl.
    + lia.
    + eexists; split; [reflexivity|]. simpl in *. lia.
Qed.

Lemma busy_wait_times_out E dht level entry timeout j :
  forall fuel s,
    spinning E level entry timeout (n_level s) (n_time s) j ->
    line_level E (n_level s + j) = level ->
    timeout <= uptime E (n_time s + j) - entry ->
    (j < fuel)%nat ->
    exists s', busy_wait E fuel dht level entry timeout s = Some (DHT_ERR_TIMEOUT, s') /\
               n_gpio s' = n_gpio s /\
               n_level s' = (n_level s + S j)%nat /\
               n_time s' = (n_time s + S j)%nat.
Proof.
  induction j as [|j IH]; intros fuel s Hspin Hlvl Hto Hfuel;
    (destruct fuel as [|fuel]; [lia|]); rewrite busy_wait_unfold.
  - rewrite Nat.add_0_r in Hlvl, Hto. rewrite Hlvl, Z.eqb_refl.
    destruct (Z.geb_spec (uptime E (n_time s) - entry) timeout); [|lia].
    eexists; split; [reflexivity|]. simpl. lia.
  - destruct (Hspin 0%nat ltac:(lia)) as [H0 H1]. rewrite !Nat.add_0_r in *.
    rewrite H0, Z.eqb_refl.
    destruct (Z.geb_spec (uptime E (n_time s) - entry) timeout); [lia|].
    destruct (IH fuel (after_time E (after_level E dht s))) as (s' & -> & ? & ? & ?).
    + apply spinning_tail, Hspin.
    + unfold after_time, after_level; cbn [n_level n_time]. rewrite Nat.add_succ_comm. exact Hlvl.
    + unfold after_time, after_level; cbn [n_level n_time]. rewrite Nat.add_succ_comm. exact Hto.
    + lia.
    + eexists; split; [reflexivity|]. simpl in *. lia.
Qed.

Lemma busy_wait_inv E dht level entry timeout :
  forall fuel s r s',
    busy_wait E fuel dht level entry timeout s = Some (r, s') ->
    exists j,
      (j < fuel)%nat /\
      spinning E level entry timeout (n_level s) (n_time s) j /\
      n_gpio s' = n_gpio s /\
      n_level s' = (n_level s + S j)%nat /\
      delays (trace s') = delays (trace s) /\
      ((r = DHT_OK /\ line_level E (n_level s + j) <> level /\
        n_time s' = (n_time s + j)%nat) \/
       (r = DHT_ERR_TIMEOUT /\ line_level E (n_level s + j) = level /\
        timeout <= uptime E (n_time s + j) - entry /\
        n_time s' = (n_time s + S j)%nat)).
Proof.
  induction fuel as [|fuel IH]; intros s r s' H; [discriminate|].
  rewrite busy_wait_unfold in H.
  destruct (Z.eqb_spec (line_level E (n_level s)) level) as [Hl|Hl].
  - destruct (Z.geb_spec (uptime E (n_time s) - entry) timeout) as [Ht|Ht].
    + inversion H; subst r s'; clear H. exists 0%nat.
      rewrite !Nat.add_0_r.
      split; [lia|]. split; [intros i Hi; lia|]. split; [reflexivity|].
      split; [simpl; lia|]. split; [reflexivity|].
      right. split; [reflexivity|]. split; [assumption|]. split; [assumption|]. simpl; lia.
    + apply IH in H as (j & Hj & Hspin & Hg & Hn & Hd & Hcase).
      exists (S j). unfold after_time, after_level in *; cbn [n_level n_time n_gpio trace] in *.
      rewrite <- !Nat.add_succ_comm.
      split; [lia|]. split.
      { intros [|i] Hi.
        - rewrite !Nat.add_0_r. split; [exact Hl|lia].
        - rewrite <- !Nat.add_succ_comm. apply Hspin. lia. }
      split; [exact Hg|]. split; [lia|]. split; [exact Hd|].
      destruct Hcase as [(-> & ? & ?)|(-> & ? & ? & ?)]; [left|right].
      * split; [reflexivity|]. split; [assumption|lia].
      * split; [reflexivity|]. split; [assumption|]. split; [assumption|lia].
  - inversion H; subst r s'; clear H. exists 0%nat.
    rewrite !Nat.add_0_r.
    split; [lia|]. split; [intros i Hi; lia|]. split; [reflexivity|].
    split; [simpl; lia|]. split; [reflexivity|].
    left. split; [reflexivity|]. split; [assumption|]. simpl; lia.
Qed.

Lemma busy_wait_status E fuel dht level entry timeout s r s' :
  busy_wait E fuel dht level entry timeout s = Some (r, s') ->
  r = DHT_OK \/ r = DHT_ERR_TIMEOUT.
Proof. intros H. apply busy_wait_inv in H as (j & _ & _ & _ & _ & _ & [[-> _]|[-> _]]); auto. Qed.

Lemma clock_increasing_add E k i :
  clock_increasing E -> uptime E k + Z.of_nat i <= uptime E (k + i).
Proof.
  intros Hc. induction i as [|i IH].
  - rewrite Nat.add_0_r. lia.
  - rewrite Nat.add_succ_r. specialize (Hc (k + i)%nat). lia.
Qed.

(** With a clock that advances, a loop entered after its entry reading
    goes round fewer than [timeout] times. *)
Lemma spinning_bounded E level entry timeout l k j :
  clock_increasing E -> entry < uptime E k -> 0 < timeout ->
  spinning E level entry timeout l k j ->
  Z.of_nat j < timeout.
Proof.
  intros Hc He Ht Hspin. destruct j as [|j]; [lia|].
  destruct (Hspin j ltac:(lia)) as [_ H].
  pose proof (clock_increasing_add E k j Hc). lia.
Qed.

Lemma busy_wait_terminates E dht level entry timeout :
  clock_increasing E ->
  forall fuel s,
    Z.max (timeout - (uptime E (n_time s) - entry)) 0 < Z.of_nat fuel ->
    exists r s', busy_wait E fuel dht level entry timeout s = Some (r, s').
Proof.
  intros Hc. induction fuel as [|fuel IH]; intros s Hf; [lia|].
  rewrite busy_wait_unfold.
  destruct (_ =? level); [|eauto].
  destruct (Z.geb_spec (uptime E (n_time s) - entry) timeout) as [Ht|Ht]; [eauto|].
  apply IH. unfold after_time, after_level; cbn [n_time].
  specialize (Hc (n_time s)). lia.
Qed.

Lemma busy_wait_polls E fuel dht level entry timeout s r s' :
  clock_increasing E -> entry < uptime E (n_time s) -> 0 < timeout ->
  busy_wait E fuel dht level entry timeout s = Some (r, s') ->
  Z.of_nat (n_time s') <= Z.of_nat (n_time s) + timeout.
Proof.
  intros Hc He Ht H.
  apply busy_wait_inv in H as (j & _ & Hspin & _ & _ & _ & Hcase).
  pose proof (spinning_bounded _ _ _ _ _ _ _ Hc He Ht Hspin).
  destruct Hcase as [(_ & _ & ->)|(_ & _ & _ & ->)]; lia.
Qed.

(** A line that stays at the polled level until a check finds the bound
    reached makes the loop return [DHT_ERR_TIMEOUT], whatever the clock
    did before. *)
Lemma busy_wait_stuck_until E dht level entry timeout j :
  forall fuel s,
    (forall i, (i <= j)%nat -> line_level E (n_level s + i) = level) ->
    timeout <= uptime E (n_time s + j) - entry ->
    (j < fuel)%nat ->
    exists s', busy_wait E fuel dht level entry timeout s = Some (DHT_ERR_TIMEOUT, s').
Proof.
  induction j as [|j IH]; intros fuel s Hlvl Hto Hfuel;
    (destruct fuel as [|fuel]; [lia|]); rewrite busy_wait_unfold;
    pose proof (Hlvl 0%nat ltac:(lia)) as H0; rewrite Nat.add_0_r in H0;
    rewrite H0, Z.eqb_refl.
  - rewrite Nat.add_0_r in Hto.
    destruct (Z.geb_spec (uptime E (n_time s) - entry) timeout); [eauto|lia].
  - destruct (Z.geb_spec (uptime E (n_time s) - entry) timeout); [eauto|].
    apply IH; unfold after_time, after_level; cbn [n_level n_time].
    + intros i Hi. rewrite Nat.add_succ_comm. apply Hlvl. lia.
    + rewrite Nat.add_succ_comm. exact Hto.
    + lia.
Qed.

Lemma busy_wait_fuel E dht level entry timeout :
  forall fuel fuel' s x,
    busy_wait E fuel dht level entry timeout s = Some x ->
    (fuel <= fuel')%nat ->
    busy_wait E fuel' dht level entry timeout s = Some x.
Proof.
  induction fuel as [|fuel IH]; intros fuel' s x H Hle; [discriminate|].
  destruct fuel' as [|fuel']; [lia|].
  rewrite busy_wait_unfold in *.
  destruct (_ =? level); [|exact H].
  destruct (_ >=? timeout); [exact H|].
  apply IH; [exact H|lia].
Qed.

(* ------------------------------------------------------------------ *)
(** ** Handshake and bit decoder *)

Lemma dht_await_data_unfold E fuel dht s :
  dht_await_data E fuel dht s =
  match busy_wait E fuel dht 0 (uptime E (n_time s))
                  (spec_us_in_ready_signal_half + 10) (after_time E s) with
  | None => None
  | Some (r1, s1) =>
      if negb (retval_eqb r1 DHT_OK) then Some (DHT_ERR_TIMEOUT, s1) else
      match busy_wait E fuel dht 1 (uptime E (n_time s1))
                      (spec_us_in_ready_signal_half + 10) (after_time E s1) with
      | None => None
      | Some (r2, s2) =>
          if negb (retval_eqb r2 DHT_OK) then Some (DHT_ERR_TIMEOUT, s2)
          else Some (DHT_OK, s2)
      end
  end.
Proof.
  unfold dht_await_data, bind, esp_timer_get_time, ret. fold (after_time E s).
  destruct (busy_wait _ _ _ _ _ _ _) as [[r1 s1]|]; [|reflexivity].
  destruct (negb _); [reflexivity|]. fold (after_time E s1).
  destruct (busy_wait _ _ _ _ _ _ _) as [[r2 s2]|]; [|reflexivity].
  destruct (negb _); reflexivity.
Qed.

Lemma dht_read_bit_unfold E fuel dht b0 s :
  dht_read_bit E fuel dht b0 s =
  match busy_wait E fuel dht 0 (uptime E (n_time s))
                  (spec_us_in_data_bit_low + 20) (after_time E s) with
  | None => None
  | Some (r1, s1) =>
      if negb (retval_eqb r1 DHT_OK) then Some (DHT_ERR_TIMEOUT, b0, s1) else
      match busy_wait E fuel dht 1 (uptime E (n_time s1))
                      (spec_us_in_data_bit_high + 20) (after_time E s1) with
      | None => None
      | Some (r2, s2) =>
          if negb (retval_eqb r2 DHT_OK) then Some (DHT_ERR_TIMEOUT, b0, s2)
          else Some (DHT_OK,
                     if uptime E (n_time s2) - uptime E (n_time s1)
                          <? spec_us_bit_length_threshold
                     then false else true,
                     after_time E s2)
      end
  end.
Proof.
  unfold dht_read_bit, bind, esp_timer_get_time, ret. fold (after_time E s).
  destruct (busy_wait _ _ _ _ _ _ _) as [[r1 s1]|]; [|reflexivity].
  destruct (negb _); [reflexivity|]. fold (after_time E s1).
  destruct (busy_wait _ _ _ _ _ _ _) as [[r2 s2]|]; [|reflexivity].
  destruct (negb _); reflexivity.
Qed.

Lemma delays_time t tr : delays (EvGetTime t :: tr) = delays tr.
Proof. reflexivity. Qed.

(** Soundness of [bit_run], with the bookkeeping the later stages need. *)
Lemma dht_read_bit_inv E fuel dht b0 s st b s' :
  dht_read_bit E fuel dht b0 s = Some (st, b, s') ->
  exists t_high nl nt,
    bit_run E (n_level s) (n_time s) st t_high nl nt /\
    n_gpio s' = n_gpio s /\
    n_level s' = (n_level s + nl)%nat /\
    n_time s' = (n_time s + nt)%nat /\
    delays (trace s') = delays (trace s) /\
    b = match t_high with
        | None => b0
        | Some t => if t <? spec_us_bit_length_threshold then false else true
        end.
Proof.
  rewrite dht_read_bit_unfold. intros H.
  destruct (busy_wait _ _ _ _ _ _ _) as [[r1 s1]|] eqn:H1; [|discriminate].
  apply busy_wait_inv in H1 as (j1 & _ & Hs1 & Hg1 & Hl1 & Hd1 & Hc1).
  unfold after_time in Hs1, Hg1, Hl1, Hd1, Hc1; cbn [n_gpio n_level n_time trace] in *.
  rewrite delays_time in Hd1.
  destruct Hc1 as [(-> & Hv1 & Ht1)|(-> & Hv1 & Hb1 & Ht1)]; cbn [retval_eqb negb] in H.
  - destruct (busy_wait _ _ _ _ _ _ _) as [[r2 s2]|] eqn:H2; [|discriminate].
    apply busy_wait_inv in H2 as (j2 & _ & Hs2 & Hg2 & Hl2 & Hd2 & Hc2).
    unfold after_time in Hs2, Hg2, Hl2, Hd2, Hc2; cbn [n_gpio n_level n_time trace] in *.
    rewrite delays_time in Hd2.
    rewrite Hl1, Ht1 in Hs2, Hc2.
    replace (n_level s + S j1)%nat with (S (n_level s) + j1)%nat in Hs2, Hc2 by lia.
    destruct Hc2 as [(-> & Hv2 & Ht2)|(-> & Hv2 & Hb2 & Ht2)]; cbn [retval_eqb negb] in H;
      inversion H; subst st b s'; clear H.
    + eexists (Some _), (j1 + j2 + 2)%nat, (j1 + j2 + 3)%nat.
      split; [|split; [|split; [|split; [|split]]]].
      * apply high_phase_measured; assumption.
      * cbn [after_time n_gpio]. congruence.
      * cbn [after_time n_level]. lia.
      * cbn [after_time n_time]. lia.
      * unfold after_time; cbn [trace]. rewrite delays_time. congruence.
      * rewrite Ht2, Ht1. reflexivity.
    + exists None, (j1 + j2 + 2)%nat, (j1 + j2 + 3)%nat.
      split; [|split; [|split; [|split; [|split]]]];
        [apply high_phase_timeout; assumption|congruence|lia|lia
      |congruence|reflexivity].
  - inversion H; subst st b s'; clear H.
    exists None, (S j1), (S (S j1)).
    split; [|split; [|split; [|split; [|split]]]];
      [apply low_phase_timeout; assumption|congruence|lia|lia
      |congruence|reflexivity].
Qed.

Lemma dht_await_data_inv E fuel dht s r s' :
  dht_await_data E fuel dht s = Some (r, s') ->
  (r = DHT_OK \/ r = DHT_ERR_TIMEOUT) /\
  n_gpio s' = n_gpio s /\
  delays (trace s') = delays (trace s) /\
  (clock_increasing E -> (n_time s' <= n_time s + 182)%nat).
Proof.
  rewrite dht_await_data_unfold. intros H.
  destruct (busy_wait _ _ _ _ _ _ _) as [[r1 s1]|] eqn:H1; [|discriminate].
  pose proof (busy_wait_inv _ _ _ _ _ _ _ _ _ H1) as (j1 & _ & _ & Hg1 & _ & Hd1 & _).
  assert (Hp1 : clock_increasing E -> (n_time s1 <= n_time s + 91)%nat).
  { intros Hc.
    eapply busy_wait_polls in H1; [| exact Hc | apply Hc | reflexivity].
    unfold spec_us_in_ready_signal_half in H1. unfold after_time in H1; cbn [n_time] in H1. lia. }
  unfold after_time in Hg1, Hd1; cbn [n_gpio trace] in Hg1, Hd1. rewrite delays_time in Hd1.
  destruct (retval_eqb r1 DHT_OK); cbn [negb] in H.
  - revert H.
    destruct (busy_wait E fuel dht 1 _ _ _) as [[r2 s2]|] eqn:H2; [|discriminate].
    intros H.
    pose proof (busy_wait_inv _ _ _ _ _ _ _ _ _ H2) as (j2 & _ & _ & Hg2 & _ & Hd2 & _).
    assert (Hp2 : clock_increasing E -> (n_time s2 <= n_time s1 + 91)%nat).
    { intros Hc.
      eapply busy_wait_polls in H2; [| exact Hc | apply Hc | reflexivity].
      unfold spec_us_in_ready_signal_half in H2. unfold after_time in H2; cbn [n_time] in H2. lia. }
    unfold after_time in Hg2, Hd2; cbn [n_gpio trace] in Hg2, Hd2. rewrite delays_time in Hd2.
    assert (s' = s2 /\ (r = DHT_OK \/ r = DHT_ERR_TIMEOUT)) as [-> Hr].
    { destruct (negb _); inversion H; auto. }
    split; [exact Hr|]. split; [congruence|]. split; [congruence|].
    intros Hc. specialize (Hp1 Hc). specialize (Hp2 Hc). lia.
  - inversion H; subst r s'; clear H.
    split; [auto|]. split; [congruence|]. split; [congruence|].
    intros Hc. specialize (Hp1 Hc). lia.
Qed.

Lemma dht_await_data_terminates E fuel dht s :
  clock_increasing E -> (90 <= fuel)%nat ->
  exists r s', dht_await_data E fuel dht s = Some (r, s').
Proof.
  intros Hc Hf. rewrite dht_await_data_unfold.
  destruct (busy_wait_terminates E dht 0 (uptime E (n_time s))
              (spec_us_in_ready_signal_half + 10) Hc fuel (after_time E s))
    as (r1 & s1 & ->).
  { unfold after_time; cbn [n_time]. specialize (Hc (n_time s)).
    unfold spec_us_in_ready_signal_half. lia. }
  destruct (negb _); [eauto|].
  destruct (busy_wait_terminates E dht 1 (uptime E (n_time s1))
              (spec_us_in_ready_signal_half + 10) Hc fuel (after_time E s1))
    as (r2 & s2 & ->).
  { unfold after_time; cbn [n_time]. specialize (Hc (n_time s1)).
    unfold spec_us_in_ready_signal_half. lia. }
  destruct (negb _); eauto.
Qed.

Lemma dht_read_bit_terminates E fuel dht b0 s :
  clock_increasing E -> (90 <= fuel)%nat ->
  exists st b s', dht_read_bit E fuel dht b0 s = Some (st, b, s').
Proof.
  intros Hc Hf. rewrite dht_read_bit_unfold.
  destruct (busy_wait_terminates E dht 0 (uptime E (n_time s))
              (spec_us_in_data_bit_low + 20) Hc fuel (after_time E s))
    as (r1 & s1 & ->).
  { unfold after_time; cbn [n_time]. specialize (Hc (n_time s)).
    unfold spec_us_in_data_bit_low. lia. }
  destruct (negb _); [eauto|].
  destruct (busy_wait_terminates E dht 1 (uptime E (n_time s1))
              (spec_us_in_data_bit_high + 20) Hc fuel (after_time E s1))
    as (r2 & s2 & ->).
  { unfold after_time; cbn [n_time]. specialize (Hc (n_time s1)).
    unfold spec_us_in_data_bit_high. lia. }
  destruct (negb _); eauto.
Qed.

Lemma bit_run_polls E l k st t_high nl nt :
  clock_increasing E -> bit_run E l k st t_high nl nt -> (nt <= 163)%nat.
Proof.
  intros Hc H. destruct H as [j1 Hs1 _ _|j1 j2 Hs1 _ Hs2 _ _|j1 j2 Hs1 _ Hs2 _].
  all: apply spinning_bounded in Hs1; [|exact Hc|apply Hc|reflexivity].
  2,3: apply spinning_bounded in Hs2; [|exact Hc|apply Hc|reflexivity].
  all: unfold spec_us_in_data_bit_low, spec_us_in_data_bit_high in *; lia.
Qed.

Lemma bit_run_status E l k st t_high nl nt :
  bit_run E l k st t_high nl nt ->
  (st = DHT_OK /\ t_high <> None) \/ (st = DHT_ERR_TIMEOUT /\ t_high = None).
Proof. intros []; [right|right|left]; split; congruence. Qed.

Lemma dht_read_bit_keeps E fuel dht b0 s st b s' :
  dht_read_bit E fuel dht b0 s = Some (st, b, s') ->
  (st = DHT_OK \/ st = DHT_ERR_TIMEOUT) /\ (st <> DHT_OK -> b = b0).
Proof.
  intros H. apply dht_read_bit_inv in H as (th & nl & nt & Hrun & _ & _ & _ & _ & ->).
  apply bit_run_status in Hrun as [[-> _]|[-> ->]]; split; auto; congruence.
Qed.

(** The run decides the bit as well as the status. *)
Lemma dht_read_bit_run E fuel dht b0 s st t_high nl nt :
  bit_run E (n_level s) (n_time s) st t_high nl nt ->
  (nl < fuel)%nat ->
  exists s',
    dht_read_bit E fuel dht b0 s = Some (st, bit_after b0 t_high, s') /\
    n_gpio s' = n_gpio s /\
    n_level s' = (n_level s + nl)%nat /\ n_time s' = (n_time s + nt)%nat.
Proof.
  intros Hrun Hf. rewrite dht_read_bit_unfold.
  destruct Hrun as [j1 Hs1 Hl1 Ht1|j1 j2 Hs1 Hl1 Hs2 Hl2 Ht2|j1 j2 Hs1 Hl1 Hs2 Hl2].
  - destruct (busy_wait_times_out E dht 0 (uptime E (n_time s))
                (spec_us_in_data_bit_low + 20) j1 fuel (after_time E s))
      as (s1 & -> & Hg1 & Hnl1 & Hnt1); try assumption; [lia|].
    cbn [retval_eqb negb bit_after]. eexists. split; [reflexivity|].
    unfold after_time in *; cbn [n_gpio n_level n_time] in *. lia.
  - destruct (busy_wait_falls_out E dht 0 (uptime E (n_time s))
                (spec_us_in_data_bit_low + 20) j1 fuel (after_time E s))
      as (s1 & -> & Hg1 & Hnl1 & Hnt1); try assumption; [lia|].
    cbn [retval_eqb negb].
    unfold after_time in Hg1, Hnl1, Hnt1; cbn [n_gpio n_level n_time] in Hg1, Hnl1, Hnt1.
    destruct (busy_wait_times_out E dht 1 (uptime E (n_time s1))
                (spec_us_in_data_bit_high + 20) j2 fuel (after_time E s1))
      as (s2 & -> & Hg2 & Hnl2 & Hnt2).
    + unfold after_time; cbn [n_level n_time]. rewrite Hnl1, Hnt1.
      replace (n_level s + S j1)%nat with (S (n_level s) + j1)%nat by lia. exact Hs2.
    + unfold after_time; cbn [n_level n_time]. rewrite Hnl1.
      replace (n_level s + S j1 + j2)%nat with (S (n_level s) + j1 + j2)%nat by lia.
      exact Hl2.
    + unfold after_time; cbn [n_level n_time]. rewrite Hnt1. exact Ht2.
    + lia.
    + cbn [retval_eqb negb bit_after]. eexists. split; [reflexivity|].
      unfold after_time in *; cbn [n_gpio n_level n_time] in *. lia.
  - destruct (busy_wait_falls_out E dht 0 (uptime E (n_time s))
                (spec_us_in_data_bit_low + 20) j1 fuel (after_time E s))
      as (s1 & -> & Hg1 & Hnl1 & Hnt1); try assumption; [lia|].
    cbn [retval_eqb negb].
    unfold after_time in Hg1, Hnl1, Hnt1; cbn [n_gpio n_level n_time] in Hg1, Hnl1, Hnt1.
    destruct (busy_wait_falls_out E dht 1 (uptime E (n_time s1))
                (spec_us_in_data_bit_high + 20) j2 fuel (after_time E s1))
      as (s2 & -> & Hg2 & Hnl2 & Hnt2).
    + unfold after_time; cbn [n_level n_time]. rewrite Hnl1, Hnt1.
      replace (n_level s + S j1)%nat with (S (n_level s) + j1)%nat by lia. exact Hs2.
    + unfold after_time; cbn [n_level n_time]. rewrite Hnl1.
      replace (n_level s + S j1 + j2)%nat with (S (n_level s) + j1 + j2)%nat by lia.
      exact Hl2.
    + lia.
    + cbn [retval_eqb negb bit_after].
      unfold after_time in Hg2, Hnl2, Hnt2; cbn [n_gpio n_level n_time] in Hg2, Hnl2, Hnt2.
      eexists. split.
      * rewrite Hnt2, Hnt1.
        replace (S (S (n_time s) + j1) + j2)%nat
          with (S (S (n_time s) + j1 + j2)) by lia.
        destruct (_ <? spec_us_bit_length_threshold); reflexivity.
      * unfold after_time; cbn [n_gpio n_level n_time]. lia.
Qed.

Lemma dht_await_data_fuel E dht fuel fuel' s x :
  dht_await_data E fuel dht s = Some x -> (fuel <= fuel')%nat ->
  dht_await_data E fuel' dht s = Some x.
Proof.
  rewrite !dht_await_data_unfold. intros H Hle.
  destruct (busy_wait E fuel dht 0 _ _ _) as [[r1 s1]|] eqn:H1; [|discriminate].
  rewrite (busy_wait_fuel _ _ _ _ _ _ _ _ _ H1 Hle).
  destruct (negb _); [exact H|].
  destruct (busy_wait E fuel dht 1 _ _ _) as [[r2 s2]|] eqn:H2; [|discriminate].
  rewrite (busy_wait_fuel _ _ _ _ _ _ _ _ _ H2 Hle). exact H.
Qed.

Lemma dht_read_bit_fuel E dht fuel fuel' b0 s x :
  dht_read_bit E fuel dht b0 s = Some x -> (fuel <= fuel')%nat ->
  dht_read_bit E fuel' dht b0 s = Some x.
Proof.
  rewrite !dht_read_bit_unfold. intros H Hle.
  destruct (busy_wait E fuel dht 0 _ _ _) as [[r1 s1]|] eqn:H1; [|discriminate].
  rewrite (busy_wait_fuel _ _ _ _ _ _ _ _ _ H1 Hle).
  destruct (negb _); [exact H|].
  destruct (busy_wait E fuel dht 1 _ _ _) as [[r2 s2]|] eqn:H2; [|discriminate].
  rewrite (busy_wait_fuel _ _ _ _ _ _ _ _ _ H2 Hle). exact H.
Qed.

(* ------------------------------------------------------------------ *)
(** ** Frame assembly *)

Lemma u8_range x : 0 <= u8 x < 256.
Proof.
  unfold u8. change 255 with (Z.ones 8). rewrite Z.land_ones by lia.
  apply Z.mod_pos_bound. lia.
Qed.

Lemma u8_or_bit byte i :
  0 <= byte < 256 -> 0 <= i <= 7 ->
  u8 (Z.lor byte (Z.shiftl 1 i)) = Z.lor byte (Z.shiftl 1 i).
Proof.
  intros Hb Hi. unfold u8. apply Z.bits_inj'. intros n Hn.
  rewrite Z.land_spec. change 255 with (Z.ones 8).
  destruct (Z.ltb_spec n 8) as [Hlt|Hge].
  - rewrite Z.ones_spec_low by lia. apply andb_true_r.
  - rewrite Z.ones_spec_high by lia. rewrite andb_false_r.
    rewrite Z.lor_spec, Z.shiftl_spec by lia.
    replace (Z.testbit byte n) with false.
    + symmetry. apply Z.bits_above_log2; [lia|]. simpl. lia.
    + symmetry. destruct (Z.eq_dec byte 0) as [->|Hnz]; [apply Z.bits_0|].
      apply Z.bits_above_log2; [lia|].
      assert (Z.log2 byte < 8) by (apply Z.log2_lt_pow2; lia). lia.
Qed.

Lemma or_bit_range byte i :
  0 <= byte < 256 -> 0 <= i <= 7 -> 0 <= Z.lor byte (Z.shiftl 1 i) < 256.
Proof. intros Hb Hi. rewrite <- u8_or_bit by assumption. apply u8_range. Qed.

Lemma or_bits_range bits :
  forall i byte,
    0 <= byte < 256 -> (i + length bits <= 8)%nat ->
    0 <= or_bits i bits byte < 256.
Proof.
  induction bits as [|b bits IH]; intros i byte Hb Hi; cbn [or_bits]; [exact Hb|].
  cbn [length] in Hi. apply IH; [|lia].
  destruct b; [|exact Hb]. apply or_bit_range; lia.
Qed.

Lemma read_bits_inv E fuel dht :
  forall n b0 s r bits s',
    read_bits E fuel dht n b0 s = Some (r, bits, s') ->
    ((r = DHT_OK /\ length bits = n) \/
     (r = DHT_ERR_TIMEOUT /\ (length bits < n)%nat)) /\
    n_gpio s' = n_gpio s /\
    delays (trace s') =
      replicate (length bits) measured_us_max_transition_t ++ delays (trace s) /\
    (clock_increasing E -> (n_time s' <= n_time s + 163 * n)%nat).
Proof.
  induction n as [|n IH]; intros b0 s r bits s' H; cbn [read_bits] in H.
  - inversion H; subst. split; [left; auto|]. split; [reflexivity|].
    split; [reflexivity|]. intros _; lia.
  - unfold bind in H.
    destruct (dht_read_bit E fuel dht b0 s) as [[[st b] s1]|] eqn:Hbit; [|discriminate].
    pose proof (dht_read_bit_keeps _ _ _ _ _ _ _ _ Hbit) as [Hst _].
    apply dht_read_bit_inv in Hbit
      as (th & nl & nt & Hrun & Hg1 & _ & Ht1 & Hd1 & _).
    assert (Hp1 : clock_increasing E -> (n_time s1 <= n_time s + 163)%nat).
    { intros Hc. pose proof (bit_run_polls _ _ _ _ _ _ _ Hc Hrun). lia. }
    destruct Hst as [-> | ->]; cbn [retval_eqb negb] in H.
    + unfold ets_delay_us in H.
      destruct (read_bits E fuel dht n b _) as [[[r' bs] s2]|] eqn:Hrec; [|discriminate].
      apply IH in Hrec as (Hcase & Hg2 & Hd2 & Hp2).
      cbn [n_gpio n_time trace] in *.
      change (delays (EvDelay measured_us_max_transition_t :: trace s1))
        with (measured_us_max_transition_t :: delays (trace s1)) in Hd2.
      inversion H; subst r bits s'; clear H. cbn [length].
      split; [destruct Hcase as [[-> ?]|[-> ?]]; [left|right]; split; auto; lia|].
      split; [congruence|]. split.
      * rewrite Hd2, Hd1. rewrite replicate_S_end, <- app_assoc. reflexivity.
      * intros Hc. specialize (Hp1 Hc). specialize (Hp2 Hc). lia.
    + inversion H; subst r bits s'; clear H. cbn [length].
      split; [right; split; auto; lia|]. split; [exact Hg1|]. split; [exact Hd1|].
      intros Hc. specialize (Hp1 Hc). lia.
Qed.

Lemma read_bits_terminates E fuel dht :
  clock_increasing E -> (90 <= fuel)%nat ->
  forall n b0 s, exists r bits s', read_bits E fuel dht n b0 s = Some (r, bits, s').
Proof.
  intros Hc Hf. induction n as [|n IH]; intros b0 s; cbn [read_bits].
  - unfold ret. eauto.
  - unfold bind.
    destruct (dht_read_bit_terminates E fuel dht b0 s Hc Hf) as (st & b & s1 & ->).
    destruct (negb _); [unfold ret; eauto|].
    unfold ets_delay_us.
    destruct (IH b (Hw (n_gpio s1) (n_level s1) (n_time s1)
                       (EvDelay measured_us_max_transition_t :: trace s1)))
      as (r & bits & s2 & ->).
    unfold ret. eauto.
Qed.

Lemma read_bits_fuel E dht fuel fuel' :
  (fuel <= fuel')%nat ->
  forall n b0 s x,
    read_bits E fuel dht n b0 s = Some x ->
    read_bits E fuel' dht n b0 s = Some x.
Proof.
  intros Hle. induction n as [|n IH]; intros b0 s x H; [exact H|].
  cbn [read_bits] in *. unfold bind in *.
  destruct (dht_read_bit E fuel dht b0 s) as [[[st b] s1]|] eqn:Hbit; [|discriminate].
  rewrite (dht_read_bit_fuel _ _ _ _ _ _ _ Hbit Hle).
  destruct (negb _); [exact H|].
  destruct (ets_delay_us _ s1) as [[[] s1']|]; [|discriminate].
  destruct (read_bits E fuel dht n b s1') as [y|] eqn:Hrec; [|discriminate].
  rewrite (IH _ _ _ Hrec). exact H.
Qed.

Lemma last_default {A} (x : A) l d d' :
  List.last (x :: l) d = List.last (x :: l) d'.
Proof.
  revert x. induction l as [|y l IH]; intros x; [reflexivity|].
  change (List.last (y :: l) d = List.last (y :: l) d'). apply IH.
Qed.

Lemma last_cons {A} (x : A) l d : List.last (x :: l) d = List.last l x.
Proof.
  destruct l as [|y l]; [reflexivity|].
  change (List.last (y :: l) d = List.last (y :: l) x). apply last_default.
Qed.

Lemma last_app_cons {A} (l : list A) y l' d :
  List.last (l ++ y :: l') d = List.last (y :: l') d.
Proof.
  induction l as [|x l IH]; [reflexivity|]. rewrite <- IH. cbn [app].
  destruct (l ++ y :: l') eqn:Heq; [destruct l; discriminate|]. reflexivity.
Qed.

Lemma read_bits_app E fuel dht m :
  forall n b0 s,
    read_bits E fuel dht (n + m) b0 s =
    match read_bits E fuel dht n b0 s with
    | None => None
    | Some (r, bits, s1) =>
        if retval_eqb r DHT_OK then
          match read_bits E fuel dht m (List.last bits b0) s1 with
          | None => None
          | Some (r', bits', s2) => Some (r', bits ++ bits', s2)
          end
        else Some (r, bits, s1)
    end.
Proof.
  induction n as [|n IH]; intros b0 s.
  - cbn. destruct (read_bits E fuel dht m b0 s) as [[[r bits] s1]|]; reflexivity.
  - cbn [Nat.add read_bits]. unfold bind.
    destruct (dht_read_bit E fuel dht b0 s) as [[[st b] s1]|]; [|reflexivity].
    destruct (negb _); [reflexivity|].
    destruct (ets_delay_us _ s1) as [[[] s1']|]; [|reflexivity].
    rewrite IH.
    destruct (read_bits E fuel dht n b s1') as [[[r bits] s2]|]; [|reflexivity].
    cbn [ret]. unfold ret.
    destruct (retval_eqb r DHT_OK); [|reflexivity].
    replace (List.last (b :: bits) b0) with (List.last bits b).
    + destruct (read_bits E fuel dht m _ s2) as [[[r' bits'] s3]|]; reflexivity.
    + symmetry. apply last_cons.
Qed.

(** A bit read that fails after [n] good ones ends the run of reads
    there. *)
Lemma read_bits_stops E fuel dht n m :
  forall b0 s bits s1 r b s',
    read_bits E fuel dht n b0 s = Some (DHT_OK, bits, s1) ->
    dht_read_bit E fuel dht (List.last bits b0) s1 = Some (r, b, s') ->
    r <> DHT_OK ->
    read_bits E fuel dht (n + S m) b0 s = Some (DHT_ERR_TIMEOUT, bits, s').
Proof.
  intros b0 s bits s1 r b s' Hn Hbit Hr.
  rewrite read_bits_app, Hn. cbn [retval_eqb read_bits]. unfold bind.
  rewrite Hbit. apply retval_neqb_OK in Hr. rewrite Hr. unfold ret.
  rewrite app_nil_r. reflexivity.
Qed.

(** And a run of reads that fails is one that stopped so. *)
Lemma read_bits_stopped E fuel dht :
  forall n b0 s r bits s',
    read_bits E fuel dht n b0 s = Some (r, bits, s') -> r <> DHT_OK ->
    (length bits < n)%nat /\
    exists s1 r' b,
      read_bits E fuel dht (length bits) b0 s = Some (DHT_OK, bits, s1) /\
      dht_read_bit E fuel dht (List.last bits b0) s1 = Some (r', b, s') /\
      r' <> DHT_OK.
Proof.
  induction n as [|n IH]; intros b0 s r bits s' H Hr; cbn [read_bits] in H.
  - inversion H; subst. congruence.
  - unfold bind in H.
    destruct (dht_read_bit E fuel dht b0 s) as [[[st b] s1]|] eqn:Hbit; [|discriminate].
    destruct (negb (retval_eqb st DHT_OK)) eqn:Hst.
    + inversion H; subst r bits s'; clear H. cbn [length].
      split; [lia|]. exists s, st, b. split; [reflexivity|].
      split; [exact Hbit|]. apply retval_neqb_OK, Hst.
    + apply retval_eqb_OK in Hst; subst st. unfold ets_delay_us in H.
      destruct (read_bits E fuel dht n b _) as [[[r0 bs] s2]|] eqn:Hrec; [|discriminate].
      inversion H; subst r0 bits s2; clear H.
      destruct (IH _ _ _ _ _ Hrec Hr) as (Hlen & s1' & r' & b' & Hgood & Hbad & Hr').
      cbn [length]. split; [lia|]. exists s1', r', b'.
      split; [|split; [|exact Hr']].
      * cbn [read_bits]. unfold bind. rewrite Hbit. cbn [retval_eqb negb].
        unfold ets_delay_us. rewrite Hgood. reflexivity.
      * rewrite last_cons. exact Hbad.
Qed.

(** The inner loop is eight bit reads, most significant bit first. *)
Lemma read_byte_loop_bits E fuel dht :
  forall n byte_in bit_in s,
    (n <= 8)%nat -> 0 <= byte_in < 256 ->
    read_byte_loop E fuel dht n byte_in bit_in s =
    match read_bits E fuel dht n bit_in s with
    | None => None
    | Some (r, bits, s') =>
        Some (r, or_bits (8 - n) bits byte_in, List.last bits bit_in, s')
    end.
Proof.
  induction n as [|n IH]; intros byte_in bit_in s Hn Hb; [reflexivity|].
  cbn [read_byte_loop read_bits]. unfold bind.
  destruct (dht_read_bit E fuel dht bit_in s) as [[[st b] s1]|] eqn:Hbit; [|reflexivity].
  apply dht_read_bit_keeps in Hbit as [[-> | ->] Hkeep]; cbn [retval_eqb negb].
  - unfold ets_delay_us. rewrite IH; [|lia|].
    + destruct (read_bits E fuel dht n b _) as [[[r bits] s2]|]; [|reflexivity].
      unfold ret. rewrite last_cons. cbn [or_bits].
      replace (S (8 - S n)) with (8 - n)%nat by lia.
      replace (7 - Z.of_nat (8 - S n)) with (Z.of_nat n) by lia.
      destruct b; [|reflexivity].
      rewrite u8_or_bit by lia. reflexivity.
    + destruct b; [apply u8_range|exact Hb].
  - unfold ret. rewrite Hkeep by discriminate. reflexivity.
Qed.

Lemma bytes_of_bits_short n bits :
  (length bits < 8)%nat -> bytes_of_bits n bits = [].
Proof.
  intros H. destruct n as [|n]; [reflexivity|]. cbn [bytes_of_bits].
  destruct (Nat.leb_spec 8 (length bits)); [lia|reflexivity].
Qed.

Lemma bytes_of_bits_app n (bits bits' : list bool) :
  length bits = 8%nat ->
  bytes_of_bits (S n) (bits ++ bits') = byte_of_bits bits :: bytes_of_bits n bits'.
Proof.
  intros H. cbn [bytes_of_bits]. rewrite length_app, H. cbn [Nat.leb Nat.add].
  rewrite take_app_length' by (symmetry; exact H). rewrite drop_app_length' by (symmetry; exact H).
  reflexivity.
Qed.

Lemma bytes_of_bits_length n bits : (length (bytes_of_bits n bits) <= n)%nat.
Proof.
  revert bits. induction n as [|n IH]; intros bits; cbn [bytes_of_bits length]; [lia|].
  destruct (_ <=? _)%nat; cbn [length]; [|lia]. specialize (IH (drop 8 bits)). lia.
Qed.

(** The outer loop stores the completed bytes from [byte_idx] on and
    leaves the rest of the buffer alone. *)
Lemma read_frame_loop_bits E fuel dht :
  forall n byte_idx (buf : list Z) bit_in s,
    (byte_idx + n <= length buf)%nat ->
    read_frame_loop E fuel dht n byte_idx buf bit_in s =
    match read_bits E fuel dht (8 * n) bit_in s with
    | None => None
    | Some (r, bits, s') =>
        let done := bytes_of_bits n bits in
        Some (r, take byte_idx buf ++ done ++ drop (byte_idx + length done) buf,
              List.last bits bit_in, s')
    end.
Proof.
  induction n as [|n IH]; intros byte_idx buf bit_in s Hlen.
  - cbn. unfold ret. rewrite Nat.add_0_r, take_drop. reflexivity.
  - cbn [read_frame_loop]. unfold bind.
    rewrite read_byte_loop_bits by lia.
    replace (8 * S n)%nat with (8 + 8 * n)%nat by lia. rewrite read_bits_app.
    destruct (read_bits E fuel dht 8 bit_in s) as [[[r bits] s1]|] eqn:H8; [|reflexivity].
    apply read_bits_inv in H8 as ([[-> Hl] | [-> Hl]] & _); cbn [retval_eqb negb].
    + rewrite IH by (rewrite length_insert; lia).
      destruct (read_bits E fuel dht (8 * n) _ s1) as [[[r' bits'] s2]|]; [|reflexivity].
      cbv zeta. rewrite bytes_of_bits_app by exact Hl. cbn [length].
      pose proof (bytes_of_bits_length n bits') as Hdone.
      assert (Hbuf :
        take (S byte_idx) (<[byte_idx:=or_bits (8 - 8) bits 0]> buf) ++
        bytes_of_bits n bits' ++
        drop (S byte_idx + length (bytes_of_bits n bits'))
             (<[byte_idx:=or_bits (8 - 8) bits 0]> buf) =
        take byte_idx buf ++
        (byte_of_bits bits :: bytes_of_bits n bits') ++
        drop (byte_idx + S (length (bytes_of_bits n bits'))) buf).
      { rewrite (take_S_r _ _ (or_bits (8 - 8) bits 0))
          by (apply list_lookup_insert_eq; lia).
        rewrite take_insert_ge by lia. rewrite <- app_assoc. cbn [app].
        rewrite drop_insert_lt by lia.
        replace (byte_idx + S (length (bytes_of_bits n bits')))%nat
          with (S byte_idx + length (bytes_of_bits n bits'))%nat by lia.
        reflexivity. }
      assert (Hlast : List.last bits' (List.last bits bit_in)
                      = List.last (bits ++ bits') bit_in).
      { destruct bits' as [|y bits'].
        - rewrite app_nil_r. reflexivity.
        - rewrite last_app_cons. apply last_default. }
      rewrite Hbuf, Hlast. reflexivity.
    + unfold ret. cbv zeta. rewrite bytes_of_bits_short by exact Hl.
      cbn [length app]. rewrite Nat.add_0_r, take_drop. reflexivity.
Qed.

Lemma dht_read_frame_bits E fuel dht s :
  dht_read_frame E fuel dht s =
  match read_bits E fuel dht 40 false s with
  | None => None
  | Some (r, bits, s') =>
      Some (r, frame_of_bits bits, List.last bits false, s')
  end.
Proof.
  unfold dht_read_frame. rewrite read_frame_loop_bits by (rewrite length_replicate; lia).
  change (8 * DHT_BYTES_PER_READ)%nat with 40%nat.
  destruct (read_bits E fuel dht 40 false s) as [[[r bits] s']|]; [|reflexivity].
  cbv zeta. unfold frame_of_bits. rewrite take_0, drop_replicate. reflexivity.
Qed.

Lemma bytes_of_bits_range n :
  forall bits, Forall (fun b => 0 <= b < 256) (bytes_of_bits n bits).
Proof.
  induction n as [|n IH]; intros bits; cbn [bytes_of_bits]; [constructor|].
  destruct (Nat.leb_spec 8 (length bits)); constructor; [|apply IH].
  apply or_bits_range; [lia|]. rewrite length_take. lia.
Qed.

Lemma bytes_of_bits_full n :
  forall bits, (8 * n <= length bits)%nat -> length (bytes_of_bits n bits) = n.
Proof.
  induction n as [|n IH]; intros bits H; cbn [bytes_of_bits]; [reflexivity|].
  destruct (Nat.leb_spec 8 (length bits)); [|lia].
  cbn [length]. rewrite IH; [reflexivity|]. rewrite length_drop. lia.
Qed.

Lemma frame_of_bits_length bits : length (frame_of_bits bits) = DHT_BYTES_PER_READ.
Proof.
  unfold frame_of_bits. rewrite length_app, length_replicate.
  pose proof (bytes_of_bits_length DHT_BYTES_PER_READ bits). lia.
Qed.

Lemma frame_of_bits_range bits : Forall (fun b => 0 <= b < 256) (frame_of_bits bits).
Proof.
  unfold frame_of_bits. apply Forall_app. split; [apply bytes_of_bits_range|].
  apply Forall_replicate. lia.
Qed.

Lemma byte_of_bits_testbit bs k :
  length bs = 8%nat -> (k < 8)%nat ->
  Z.testbit (byte_of_bits bs) (7 - Z.of_nat k) = nth k bs false.
Proof.
  intros Hl Hk.
  destruct bs as [|b0 [|b1 [|b2 [|b3 [|b4 [|b5 [|b6 [|b7 [|]]]]]]]]]; try discriminate.
  destruct k as [|[|[|[|[|[|[|[|]]]]]]]]; try lia;
    destruct b0, b1, b2, b3, b4, b5, b6, b7; reflexivity.
Qed.

Lemma bytes_of_bits_lookup n :
  forall bits i,
    (i < n)%nat -> (8 * S i <= length bits)%nat ->
    bytes_of_bits n bits !! i = Some (byte_of_bits (take 8 (drop (8 * i) bits))).
Proof.
  induction n as [|n IH]; intros bits i Hi Hlen; [lia|].
  cbn [bytes_of_bits]. destruct (Nat.leb_spec 8 (length bits)); [|lia].
  destruct i as [|i]; [reflexivity|].
  change ((byte_of_bits (take 8 bits) :: bytes_of_bits n (drop 8 bits)) !! S i)
    with (bytes_of_bits n (drop 8 bits) !! i).
  rewrite (IH (drop 8 bits) i); [|lia|rewrite length_drop; lia].
  rewrite drop_drop. replace (8 + 8 * i)%nat with (8 * S i)%nat by lia. reflexivity.
Qed.

Lemma bytes_of_bits_complete n :
  forall bits, (8 * length (bytes_of_bits n bits) <= length bits)%nat.
Proof.
  induction n as [|n IH]; intros bits; cbn [bytes_of_bits]; [cbn; lia|].
  destruct (Nat.leb_spec 8 (length bits)); [|cbn; lia].
  cbn [length]. specialize (IH (drop 8 bits)). rewrite length_drop in IH. lia.
Qed.

Lemma frame_of_bits_byte bits i :
  (8 * S i <= length bits)%nat -> (length bits <= 40)%nat ->
  frame_of_bits bits !!! i = byte_of_bits (take 8 (drop (8 * i) bits)).
Proof.
  intros Hi Hlen. apply list_lookup_total_correct. unfold frame_of_bits.
  apply lookup_app_l_Some. apply bytes_of_bits_lookup; [unfold DHT_BYTES_PER_READ; lia|exact Hi].
Qed.

Lemma frame_of_bits_rest bits i :
  (i < 5)%nat -> (length bits < 8 * S i)%nat -> frame_of_bits bits !!! i = 0.
Proof.
  intros Hi5 Hi. apply list_lookup_total_correct. unfold frame_of_bits.
  pose proof (bytes_of_bits_complete DHT_BYTES_PER_READ bits) as Hc.
  pose proof (bytes_of_bits_length DHT_BYTES_PER_READ bits) as Hl.
  unfold DHT_BYTES_PER_READ in *.
  rewrite lookup_app_r by lia. apply lookup_replicate. split; [reflexivity|lia].
Qed.

(* ------------------------------------------------------------------ *)
(** ** The stages of a read *)

(** [dht_request_readings] fails at the first GPIO call that fails and
    makes no call after it. *)
Lemma dht_request_readings_inv E dht s :
  exists r s1,
    dht_request_readings E dht s = Some (r, s1) /\
    n_level s1 = n_level s /\ n_time s1 = n_time s /\
    ((r = DHT_OK /\
      (forall k, (k < 4)%nat -> gpio_result E (n_gpio s + k) = ESP_OK) /\
      n_gpio s1 = (n_gpio s + 4)%nat /\
      delays (trace s1) =
        spec_us_out_request_high :: spec_us_out_request_low :: delays (trace s)) \/
     (r = DHT_ERR_GPIO /\
      exists k, (k < 4)%nat /\
        (forall i, (i < k)%nat -> gpio_result E (n_gpio s + i) = ESP_OK) /\
        gpio_result E (n_gpio s + k) <> ESP_OK /\
        n_gpio s1 = (n_gpio s + S k)%nat /\
        exists ev tr, trace s1 = ev :: tr /\ failed_gpio_call ev)).
Proof.
  unfold dht_request_readings, bind, gpio_set_direction, gpio_set_level,
    ets_delay_us, ret; cbn [n_gpio n_level n_time trace].
  destruct (Z.eqb_spec (gpio_result E (n_gpio s)) ESP_OK) as [H0|H0]; cbn [negb n_gpio n_level n_time trace].
  2:{ do 2 eexists. split; [reflexivity|]. split; [reflexivity|]. split; [reflexivity|].
      right. split; [reflexivity|]. exists 0%nat. rewrite Nat.add_0_r.
      split; [lia|]. split; [intros; lia|]. split; [exact H0|].
      split; [cbn; lia|]. do 2 eexists. split; [reflexivity|exact H0]. }
  destruct (Z.eqb_spec (gpio_result E (S (n_gpio s))) ESP_OK) as [H1|H1]; cbn [negb n_gpio n_level n_time trace].
  2:{ do 2 eexists. split; [reflexivity|]. split; [reflexivity|]. split; [reflexivity|].
      right. split; [reflexivity|]. exists 1%nat. rewrite Nat.add_1_r.
      split; [lia|]. split.
      { intros i Hi. replace i with 0%nat by lia. rewrite Nat.add_0_r. exact H0. }
      split; [exact H1|].
      split; [cbn; lia|]. do 2 eexists. split; [reflexivity|exact H1]. }
  destruct (Z.eqb_spec (gpio_result E (S (S (n_gpio s)))) ESP_OK) as [H2|H2]; cbn [negb n_gpio n_level n_time trace].
  2:{ do 2 eexists. split; [reflexivity|]. split; [reflexivity|]. split; [reflexivity|].
      right. split; [reflexivity|]. exists 2%nat.
      replace (n_gpio s + 2)%nat with (S (S (n_gpio s))) by lia.
      split; [lia|]. split.
      { intros i Hi. assert (i = 0 \/ i = 1)%nat as [-> | ->] by lia.
        - rewrite Nat.add_0_r. exact H0.
        - rewrite Nat.add_1_r. exact H1. }
      split; [exact H2|].
      split; [cbn; lia|]. do 2 eexists. split; [reflexivity|exact H2]. }
  destruct (Z.eqb_spec (gpio_result E (S (S (S (n_gpio s))))) ESP_OK) as [H3|H3]; cbn [negb n_gpio n_level n_time trace].
  2:{ do 2 eexists. split; [reflexivity|]. split; [reflexivity|]. split; [reflexivity|].
      right. split; [reflexivity|]. exists 3%nat.
      replace (n_gpio s + 3)%nat with (S (S (S (n_gpio s)))) by lia.
      split; [lia|]. split.
      { intros i Hi. assert (i = 0 \/ i = 1 \/ i = 2)%nat as [-> | [-> | ->]] by lia.
        - rewrite Nat.add_0_r. exact H0.
        - rewrite Nat.add_1_r. exact H1.
        - replace (n_gpio s + 2)%nat with (S (S (n_gpio s))) by lia. exact H2. }
      split; [exact H3|].
      split; [cbn; lia|]. do 2 eexists. split; [reflexivity|exact H3]. }
  do 2 eexists. split; [reflexivity|]. split; [reflexivity|]. split; [reflexivity|].
  left. split; [reflexivity|]. split; [|split; [cbn; lia|reflexivity]].
  intros k Hk. assert (k = 0 \/ k = 1 \/ k = 2 \/ k = 3)%nat as [-> | [-> | [-> | ->]]] by lia.
  - rewrite Nat.add_0_r. exact H0.
  - rewrite Nat.add_1_r. exact H1.
  - replace (n_gpio s + 2)%nat with (S (S (n_gpio s))) by lia. exact H2.
  - replace (n_gpio s + 3)%nat with (S (S (S (n_gpio s)))) by lia. exact H3.
Qed.

Lemma dht_init_succeeds E dht s :
  gpio_result E (n_gpio s) = ESP_OK ->
  gpio_result E (S (n_gpio s)) = ESP_OK ->
  exists s1,
    dht_init E dht s = Some (DHT_OK, s1) /\
    n_gpio s1 = S (S (n_gpio s)) /\ n_level s1 = n_level s /\ n_time s1 = n_time s.
Proof.
  intros G0 G1. eexists.
  unfold dht_init, bind, gpio_set_direction, gpio_set_level, ret.
  cbn [n_gpio n_level n_time trace]. rewrite G0. cbn [negb Z.eqb ESP_OK].
  cbn [n_gpio n_level n_time trace]. rewrite G1.
  split; [reflexivity|]. cbn. auto.
Qed.

Lemma dht_read_unfold E fuel dht rd0 s :
  dht_read E fuel dht rd0 s =
  match dht_request_readings E dht s with
  | None => None
  | Some (r1, s1) =>
      if negb (retval_eqb r1 DHT_OK) then Some (DHT_ERR_GPIO, reading_zero, s1) else
      match dht_await_data E fuel dht s1 with
      | None => None
      | Some (r2, s2) =>
          if negb (retval_eqb r2 DHT_OK)
          then Some (DHT_ERR_TIMEOUT, reading_zero, s2) else
          match dht_read_frame E fuel dht s2 with
          | None => None
          | Some (r3, buf, _, s3) =>
              if negb (retval_eqb r3 DHT_OK)
              then Some (DHT_ERR_TIMEOUT, reading_zero, s3) else
              if negb (checksum_ok buf)
              then Some (DHT_ERR_BADCHECKSUM, reading_zero, s3)
              else Some (DHT_OK, parse_buffer buf reading_zero, s3)
          end
      end
  end.
Proof.
  unfold dht_read, bind, ret.
  destruct (dht_request_readings E dht s) as [[r1 s1]|]; [|reflexivity].
  destruct (negb (retval_eqb r1 DHT_OK)); [reflexivity|].
  destruct (dht_await_data E fuel dht s1) as [[r2 s2]|]; [|reflexivity].
  destruct (negb (retval_eqb r2 DHT_OK)); [reflexivity|].
  destruct (dht_read_frame E fuel dht s2) as [[[[r3 buf] b] s3]|]; [|reflexivity].
  destruct (negb (retval_eqb r3 DHT_OK)); [reflexivity|].
  destruct (negb (checksum_ok buf)); reflexivity.
Qed.

Ltac stage_cases :=
  unfold request_fails, handshake_fails, frame_fails, assembles in *;
  repeat match goal with
         | H : ex _ |- _ => destruct H
         | H : _ /\ _ |- _ => destruct H
         | H : _ \/ _ |- _ => destruct H
         end.

Ltac stage_solve :=
  intros;
  first [ solve [tauto]
        | stage_cases;
          solve [ congruence | tauto | eauto 12 | left; eauto 12 | right; eauto 12 ] ].

Lemma assembles_frame E fuel dht s buf s' :
  assembles E fuel dht s buf s' ->
  length buf = 5%nat /\ Forall (fun b => 0 <= b < 256) buf.
Proof.
  intros (s1 & s2 & b & _ & _ & H). rewrite dht_read_frame_bits in H.
  destruct (read_bits E fuel dht 40 false s2) as [[[r bits] s3]|]; [|discriminate].
  inversion H; subst. split; [apply frame_of_bits_length|apply frame_of_bits_range].
Qed.

Lemma assembles_dht_read E fuel dht rd0 s buf s' :
  assembles E fuel dht s buf s' ->
  dht_read E fuel dht rd0 s =
  Some (if checksum_ok buf
        then (DHT_OK, parse_buffer buf reading_zero)
        else (DHT_ERR_BADCHECKSUM, reading_zero), s').
Proof.
  intros (s1 & s2 & b & H1 & H2 & H3).
  rewrite dht_read_unfold, H1. cbn [retval_eqb negb]. rewrite H2. cbn [retval_eqb negb].
  rewrite H3. cbn [retval_eqb negb]. destruct (checksum_ok buf); reflexivity.
Qed.

Lemma checksum_ok_mod buf :
  checksum_ok buf = true <->
  buf !!! 4%nat =
    (buf !!! 0%nat + buf !!! 1%nat + buf !!! 2%nat + buf !!! 3%nat) mod 256.
Proof.
  unfold checksum_ok. change 255 with (Z.ones 8).
  rewrite Z.land_ones by lia. change (2 ^ 8) with 256. apply Z.eqb_eq.
Qed.

(** More fuel does not change what a read returns. *)
Lemma dht_read_fuel E dht fuel fuel' rd0 s x :
  dht_read E fuel dht rd0 s = Some x -> (fuel <= fuel')%nat ->
  dht_read E fuel' dht rd0 s = Some x.
Proof.
  rewrite !dht_read_unfold. intros H Hle.
  destruct (dht_request_readings E dht s) as [[r1 s1]|]; [|discriminate].
  destruct (negb (retval_eqb r1 DHT_OK)); [exact H|].
  destruct (dht_await_data E fuel dht s1) as [[r2 s2]|] eqn:H2; [|discriminate].
  rewrite (dht_await_data_fuel _ _ _ _ _ _ H2 Hle).
  destruct (negb (retval_eqb r2 DHT_OK)); [exact H|].
  rewrite !dht_read_frame_bits in *.
  destruct (read_bits E fuel dht 40 false s2) as [[[r3 bits] s3]|] eqn:H3; [|discriminate].
  rewrite (read_bits_fuel _ _ _ _ Hle _ _ _ _ H3). exact H.
Qed.

(* ------------------------------------------------------------------ *)
(** ** Decoding *)

Lemma F32_eqb_eq x y : F32.eqb x y = true -> x = y.
Proof.
  destruct x as [a|a| |a m e], y as [b|b| |b m' e']; cbn; try discriminate;
    try reflexivity.
  - intros H. apply Bool.eqb_prop in H. congruence.
  - intros H. apply Bool.eqb_prop in H. congruence.
  - intros H. apply andb_true_iff in H as [H He]. apply andb_true_iff in H as [Hs Hm].
    apply Bool.eqb_prop in Hs. apply Pos.eqb_eq in Hm. apply Z.eqb_eq in He.
    congruence.
Qed.

Lemma all_bytes_spec P b : all_bytes P = true -> 0 <= b < 256 -> P b = true.
Proof.
  unfold all_bytes. intros H Hb. rewrite forallb_forall in H. apply H.
  apply in_map_iff. exists (Z.to_nat b). split; [lia|]. apply in_seq. lia.
Qed.

Lemma values_ok_with_spec c256 c10 cm1 b0 b1 :
  values_ok_with c256 c10 cm1 = true ->
  0 <= b0 < 256 -> 0 <= b1 < 256 ->
  value_ok_with c256 c10 cm1 (F32.mul (F32.of_int b0) c256) b0 b1 = true.
Proof.
  unfold values_ok_with. intros H H0 H1.
  apply all_bytes_spec with (b := b0) in H; [|exact H0]. cbv beta in H.
  apply all_bytes_spec with (b := b1) in H; [|exact H1]. exact H.
Qed.

Lemma values_checked :
  values_ok_with (F32.of_int 256) (F32.of_int 10) (F32.of_int (-1)) = true.
Proof. vm_compute. reflexivity. Qed.

Lemma value_ok_all b0 b1 :
  0 <= b0 < 256 -> 0 <= b1 < 256 -> value_ok b0 b1 = true.
Proof. intros H0 H1. exact (values_ok_with_spec _ _ _ b0 b1 values_checked H0 H1). Qed.

Lemma nearest_to_opp x n d :
  F32.nearest_to x n d = true -> F32.nearest_to (F32.opp x) (- n) d = true.
Proof.
  unfold F32.nearest_to. destruct x as [s|s| |s m e]; cbn; try discriminate.
  - rewrite Z.eqb_eq. intros ->. reflexivity.
  - intros H. apply andb_true_iff in H as [Hv H]. rewrite Hv. cbn.
    apply andb_true_iff in H as [He H]. rewrite He. cbn.
    rewrite Z.leb_le in *.
    destruct s; cbn in *; lia.
Qed.

Lemma signbit_opp x n d :
  F32.nearest_to x n d = true -> F32.signbit x = false ->
  F32.signbit (F32.opp x) = true.
Proof.
  unfold F32.nearest_to.
  destruct x as [sg|sg| |sg m e]; cbn; intros H1 H2; subst;
    try reflexivity; discriminate.
Qed.

Lemma tenths_sign x n :
  F32.nearest_to x n 10 = true -> F32.signbit x = false ->
  F32.ltb x F32.zero = false /\
  F32.ltb (F32.opp x) F32.zero = negb (n =? 0).
Proof.
  unfold F32.nearest_to, F32.ltb, SFltb.
  destruct x as [sg|sg| |sg m e]; cbn; intros H Hs; subst; try discriminate.
  - rewrite H. split; reflexivity.
  - split; [reflexivity|].
    apply andb_true_iff in H as [_ H]. apply andb_true_iff in H as [_ H].
    apply Z.leb_le in H.
    destruct (Z.eqb_spec n 0) as [->|Hn]; [|reflexivity]. exfalso. lia.
Qed.

Lemma testbit7_land b : 0 <= b < 256 ->
  negb (Z.land b 128 =? 0) = Z.testbit b 7 /\ 0 <= Z.land b 127 < 128.
Proof.
  intros Hb.
  pose (P := fun b => Bool.eqb (negb (Z.land b 128 =? 0)) (Z.testbit b 7)
                      && (0 <=? Z.land b 127) && (Z.land b 127 <? 128)).
  assert (H : P b = true) by (apply all_bytes_spec; [vm_compute; reflexivity|exact Hb]).
  unfold P in H. apply andb_true_iff in H as [H H3]. apply andb_true_iff in H as [H1 H2].
  apply Bool.eqb_prop in H1. apply Z.leb_le in H2. apply Z.ltb_lt in H3. auto.
Qed.

Lemma parse_buffer_values buf rd :
  Forall (fun b => 0 <= b < 256) buf -> length buf = 5%nat ->
  let h := buf !!! 0%nat * 256 + buf !!! 1%nat in
  let m := Z.land (buf !!! 2%nat) 127 * 256 + buf !!! 3%nat in
  let neg := Z.testbit (buf !!! 2%nat) 7 in
  humidity (parse_buffer buf rd) = tenths h /\
  temperature (parse_buffer buf rd) =
    (if neg then F32.opp (tenths m) else tenths m) /\
  checksum (parse_buffer buf rd) = buf !!! 4%nat /\
  F32.nearest_to (tenths h) h 10 = true /\
  F32.nearest_to (tenths m) m 10 = true /\
  F32.signbit (tenths m) = false.
Proof.
  intros Hrange Hlen h m neg.
  destruct buf as [|b0 [|b1 [|b2 [|b3 [|b4 [|]]]]]]; try discriminate.
  repeat match goal with H : Forall _ (_ :: _) |- _ => apply Forall_cons in H as [? H] end.
  subst h m neg. unfold parse_buffer. cbn [humidity temperature checksum].
  change ([b0; b1; b2; b3; b4] !!! 0%nat) with b0.
  change ([b0; b1; b2; b3; b4] !!! 1%nat) with b1.
  change ([b0; b1; b2; b3; b4] !!! 2%nat) with b2.
  change ([b0; b1; b2; b3; b4] !!! 3%nat) with b3.
  change ([b0; b1; b2; b3; b4] !!! 4%nat) with b4.
  destruct (testbit7_land b2 ltac:(assumption)) as [Hbit Hlow]. rewrite Hbit.
  pose proof (value_ok_all b0 b1 ltac:(lia) ltac:(lia)) as Hh.
  pose proof (value_ok_all (Z.land b2 127) b3 ltac:(lia) ltac:(lia)) as Ht.
  unfold value_ok, value_ok_with in Hh, Ht. cbv zeta in Hh, Ht.
  apply andb_true_iff in Hh as [Hh _]. apply andb_true_iff in Hh as [Hh _].
  apply andb_true_iff in Hh as [Hh1 Hh2]. apply F32_eqb_eq in Hh1.
  apply andb_true_iff in Ht as [Ht Ht4]. apply andb_true_iff in Ht as [Ht Ht3].
  apply andb_true_iff in Ht as [Ht1 Ht2]. apply F32_eqb_eq in Ht1, Ht4.
  apply negb_true_iff in Ht3.
  rewrite Hh1, Ht1. fold (tenths (b0 * 256 + b1)).
  fold (tenths (Z.land b2 127 * 256 + b3)) in *.
  split; [reflexivity|]. split; [destruct (Z.testbit b2 7); [exact Ht4|reflexivity]|].
  auto.
Qed.

(* ------------------------------------------------------------------ *)
(** ** Runs of the scripted sensor *)

Lemma steady_clock_increasing step gpio levels idle :
  0 < step -> clock_increasing (scripted gpio levels idle (steady_clock step)).
Proof. intros H k. unfold scripted, steady_clock; cbn [uptime]. lia. Qed.

Lemma sensor_ok_assembles :
  assembles (sensor frame_ok) 100 22 hw0 frame_ok
            (state_after (dht_read (sensor frame_ok) 100 22 reading_zero)).
Proof.
  exists (state_after (dht_request_readings (sensor frame_ok) 22)),
         (state_after (let* _ := dht_request_readings (sensor frame_ok) 22 in
                       dht_await_data (sensor frame_ok) 100 22)),
         true.
  split; [vm_compute; reflexivity|]. split; vm_compute; reflexivity.
Qed.

Lemma sensor_neg_assembles :
  assembles (sensor frame_neg) 100 22 hw0 frame_neg
            (state_after (dht_read (sensor frame_neg) 100 22 reading_zero)).
Proof.
  exists (state_after (dht_request_readings (sensor frame_neg) 22)),
         (state_after (let* _ := dht_request_readings (sensor frame_neg) 22 in
                       dht_await_data (sensor frame_neg) 100 22)),
         true.
  split; [vm_compute; reflexivity|]. split; vm_compute; reflexivity.
Qed.

Lemma sensor_bad_assembles :
  assembles (sensor frame_bad) 100 22 hw0 frame_bad
            (state_after (dht_read (sensor frame_bad) 100 22 reading_zero)).
Proof.
  exists (state_after (dht_request_readings (sensor frame_bad) 22)),
         (state_after (let* _ := dht_request_readings (sensor frame_bad) 22 in
                       dht_await_data (sensor frame_bad) 100 22)),
         false.
  split; [vm_compute; reflexivity|]. split; vm_compute; reflexivity.
Qed.

(* ------------------------------------------------------------------ *)
(** ** The claims *)

(** C1: the status of [dht_read] is that of the first stage that fails, in
    the order request, handshake, frame assembly, checksum.  The request
    fails exactly when one of its four GPIO calls fails, at the first that
    does and without making another call, and [dht_read] then returns
    [DHT_ERR_GPIO]; when the request succeeds and the handshake or a bit
    read times out it returns [DHT_ERR_TIMEOUT]; when a frame is assembled
    it returns [DHT_ERR_BADCHECKSUM] if the fifth byte is not the sum of
    the first four modulo 256 and [DHT_OK] with the decoded reading if it
    is.  Each of these results is returned in the state the deciding stage
    left, with a zero reading on an error, and [dht_read] returns nothing
    else. *)
Theorem dht_read_first_failing_stage E fuel dht rd0 s :
  (exists r s1,
     dht_request_readings E dht s = Some (r, s1) /\
     (r = DHT_OK \/ r = DHT_ERR_GPIO) /\
     (r <> DHT_OK <->
      exists k, (k < 4)%nat /\ gpio_result E (n_gpio s + k) <> ESP_OK) /\
     (r <> DHT_OK ->
      exists k, (k < 4)%nat /\
        (forall i, (i < k)%nat -> gpio_result E (n_gpio s + i) = ESP_OK) /\
        gpio_result E (n_gpio s + k) <> ESP_OK /\
        n_gpio s1 = (n_gpio s + S k)%nat /\
        exists ev tr, trace s1 = ev :: tr /\ failed_gpio_call ev)) /\
  (forall s',
     request_fails E dht s s' ->
     dht_read E fuel dht rd0 s = Some (DHT_ERR_GPIO, reading_zero, s')) /\
  (forall s',
     handshake_fails E fuel dht s s' \/ frame_fails E fuel dht s s' ->
     dht_read E fuel dht rd0 s = Some (DHT_ERR_TIMEOUT, reading_zero, s')) /\
  (forall buf s',
     assembles E fuel dht s buf s' ->
     let sum := buf !!! 0%nat + buf !!! 1%nat + buf !!! 2%nat + buf !!! 3%nat in
     (buf !!! 4%nat <> sum mod 256 ->
      dht_read E fuel dht rd0 s = Some (DHT_ERR_BADCHECKSUM, reading_zero, s')) /\
     (buf !!! 4%nat = sum mod 256 ->
      dht_read E fuel dht rd0 s = Some (DHT_OK, parse_buffer buf reading_zero, s'))) /\
  (forall st rd s',
     dht_read E fuel dht rd0 s = Some (st, rd, s') ->
     (st = DHT_ERR_GPIO <-> request_fails E dht s s') /\
     (st = DHT_ERR_TIMEOUT <->
      handshake_fails E fuel dht s s' \/ frame_fails E fuel dht s s') /\
     (st = DHT_ERR_BADCHECKSUM <->
      exists buf, assembles E fuel dht s buf s' /\
        buf !!! 4%nat <>
          (buf !!! 0%nat + buf !!! 1%nat + buf !!! 2%nat + buf !!! 3%nat) mod 256) /\
     (st = DHT_OK <->
      exists buf, assembles E fuel dht s buf s' /\
        buf !!! 4%nat =
          (buf !!! 0%nat + buf !!! 1%nat + buf !!! 2%nat + buf !!! 3%nat) mod 256) /\
     (st <> DHT_OK -> rd = reading_zero) /\
     (forall buf, assembles E fuel dht s buf s' -> st = DHT_OK ->
                  rd = parse_buffer buf reading_zero)).
Proof.
  split; [|split; [|split; [|split]]].
  - destruct (dht_request_readings_inv E dht s) as (r1 & s1 & Hreq & _ & _ & Hcase).
    exists r1, s1. split; [exact Hreq|].
    destruct Hcase as [(-> & Hall & _ & _) | (-> & k & Hk & Hbefore & Hfail & Hn & Hev)].
    + split; [left; reflexivity|]. split; [split|]; try congruence.
      intros (k & Hk & Hne). exfalso. apply Hne, Hall, Hk.
    + split; [right; reflexivity|]. split; [split; [|discriminate]|]; eauto 10.
  - intros s' (r & Hreq & Hr). rewrite dht_read_unfold, Hreq.
    apply retval_neqb_OK in Hr. rewrite Hr. reflexivity.
  - intros s' [(s1 & r & Hreq & Hhs & Hr)|(s1 & s2 & r & buf & b & Hreq & Hhs & Hfr & Hr)];
      rewrite dht_read_unfold, Hreq; cbn [retval_eqb negb]; rewrite Hhs;
      apply retval_neqb_OK in Hr.
    + rewrite Hr. reflexivity.
    + cbn [retval_eqb negb]. rewrite Hfr, Hr. reflexivity.
  - intros buf s' Hasm sum. pose proof (checksum_ok_mod buf) as Hck. fold sum in Hck.
    rewrite (assembles_dht_read _ _ _ rd0 _ _ _ Hasm). split; intros H.
    + destruct (checksum_ok buf); [|reflexivity]. exfalso. apply H, Hck. reflexivity.
    + apply Hck in H. rewrite H. reflexivity.
  - intros st rd s'. rewrite dht_read_unfold.
    destruct (dht_request_readings_inv E dht s) as (r1 & s1 & Hreq & _ & _ & Hcase).
    rewrite Hreq. intros H.
    assert (Hmod : forall buf, checksum_ok buf = true <->
              buf !!! 4%nat =
                (buf !!! 0%nat + buf !!! 1%nat + buf !!! 2%nat + buf !!! 3%nat) mod 256)
      by exact checksum_ok_mod.
    assert (Hmodf : forall buf, checksum_ok buf = false <->
              buf !!! 4%nat <>
                (buf !!! 0%nat + buf !!! 1%nat + buf !!! 2%nat + buf !!! 3%nat) mod 256).
    { intros buf. rewrite <- Hmod. destruct (checksum_ok buf); split; congruence. }
    assert (Hone : forall buf buf', assembles E fuel dht s buf s' ->
                                    assembles E fuel dht s buf' s' -> buf = buf').
    { intros buf buf' (a1 & a2 & a3 & A1 & A2 & A3) (b1 & b2 & b3 & B1 & B2 & B3).
      congruence. }
    destruct Hcase as [(-> & _) | (-> & _)]; cbn [retval_eqb negb] in H.
    2:{ inversion H; subst st rd s'; clear H.
        assert (DHT_ERR_GPIO <> DHT_OK) by discriminate.
        repeat split; stage_solve. }
    destruct (dht_await_data E fuel dht s1) as [[r2 s2]|] eqn:Hhs; [|discriminate].
    destruct (negb (retval_eqb r2 DHT_OK)) eqn:Hr2.
    { apply retval_neqb_OK in Hr2. inversion H; subst st rd s'; clear H.
      repeat split; stage_solve. }
    apply retval_eqb_OK in Hr2; subst r2.
    destruct (dht_read_frame E fuel dht s2) as [[[[r3 buf] b] s3]|] eqn:Hfr; [|discriminate].
    destruct (negb (retval_eqb r3 DHT_OK)) eqn:Hr3.
    { apply retval_neqb_OK in Hr3. inversion H; subst st rd s'; clear H.
      repeat split; stage_solve. }
    apply retval_eqb_OK in Hr3; subst r3.
    assert (Hasm : assembles E fuel dht s buf s3) by (exists s1, s2, b; auto).
    destruct (checksum_ok buf) eqn:Hck; cbn [negb] in H;
      inversion H; subst st rd s'; clear H.
    + apply Hmod in Hck.
      split; [split; [discriminate|stage_solve]|].
      split; [split; [discriminate|stage_solve]|].
      split; [split; [discriminate|]|].
      { intros (buf' & Hasm' & Hne). rewrite (Hone _ _ Hasm Hasm') in Hck. contradiction. }
      split; [split; [intros _; eauto|reflexivity]|].
      split; [congruence|].
      intros buf' Hasm' _. rewrite (Hone _ _ Hasm' Hasm). reflexivity.
    + apply Hmodf in Hck.
      split; [split; [discriminate|stage_solve]|].
      split; [split; [discriminate|stage_solve]|].
      split; [split; [intros _; eauto|reflexivity]|].
      split; [split; [discriminate|]|split; [reflexivity|discriminate]].
      intros (buf' & Hasm' & Heq). rewrite (Hone _ _ Hasm Hasm') in Hck. contradiction.
Qed.

Lemma dht_read_first_failing_stage_witness :
  let sg := state_after (dht_read failing_gpio 100 22 reading_zero) in
  let st := state_after (dht_read (stuck 0) 100 22 reading_zero) in
  let sb := state_after (dht_read (sensor frame_bad) 100 22 reading_zero) in
  let so := state_after (dht_read (sensor frame_ok) 100 22 reading_zero) in
  request_fails failing_gpio 22 hw0 sg /\
  dht_read failing_gpio 100 22 reading_zero hw0
    = Some (DHT_ERR_GPIO, reading_zero, sg) /\
  handshake_fails (stuck 0) 100 22 hw0 st /\
  dht_read (stuck 0) 100 22 reading_zero hw0
    = Some (DHT_ERR_TIMEOUT, reading_zero, st) /\
  assembles (sensor frame_bad) 100 22 hw0 frame_bad sb /\
  146 <> (2 + 140 + 1 + 2) mod 256 /\
  dht_read (sensor frame_bad) 100 22 reading_zero hw0
    = Some (DHT_ERR_BADCHECKSUM, reading_zero, sb) /\
  assembles (sensor frame_ok) 100 22 hw0 frame_ok so /\
  145 = (2 + 140 + 1 + 2) mod 256 /\
  dht_read (sensor frame_ok) 100 22 reading_zero hw0
    = Some (DHT_OK, parse_buffer frame_ok reading_zero, so).
Proof.
  cbv zeta.
  assert (Hg : request_fails failing_gpio 22 hw0
                 (state_after (dht_read failing_gpio 100 22 reading_zero))).
  { exists DHT_ERR_GPIO. split; [vm_compute; reflexivity|discriminate]. }
  assert (Ht : handshake_fails (stuck 0) 100 22 hw0
                 (state_after (dht_read (stuck 0) 100 22 reading_zero))).
  { exists (state_after (dht_request_readings (stuck 0) 22)), DHT_ERR_TIMEOUT.
    split; [vm_compute; reflexivity|]. split; [vm_compute; reflexivity|discriminate]. }
  assert (Hb : 146 <> (2 + 140 + 1 + 2) mod 256) by discriminate.
  assert (Ho : 145 = (2 + 140 + 1 + 2) mod 256) by reflexivity.
  split; [exact Hg|]. split.
  { exact (proj1 (proj2 (dht_read_first_failing_stage failing_gpio 100 22 reading_zero hw0))
             _ Hg). }
  split; [exact Ht|]. split.
  { exact (proj1 (proj2 (proj2
             (dht_read_first_failing_stage (stuck 0) 100 22 reading_zero hw0)))
             _ (or_introl Ht)). }
  split; [exact sensor_bad_assembles|]. split; [exact Hb|]. split.
  { exact (proj1 (proj1 (proj2 (proj2 (proj2
             (dht_read_first_failing_stage (sensor frame_bad) 100 22 reading_zero hw0))))
             _ _ sensor_bad_assembles) Hb). }
  split; [exact sensor_ok_assembles|]. split; [exact Ho|].
  exact (proj2 (proj1 (proj2 (proj2 (proj2
           (dht_read_first_failing_stage (sensor frame_ok) 100 22 reading_zero hw0))))
           _ _ sensor_ok_assembles) Ho).
Defined.

(** C2: on an assembled frame [dht_read] passes the checksum test exactly
    when the fifth byte is the sum of the first four modulo 256, and
    returns [DHT_ERR_BADCHECKSUM] for every frame that is not so. *)
Theorem checksum_validation E fuel dht rd0 s buf s' :
  assembles E fuel dht s buf s' ->
  let sum := buf !!! 0%nat + buf !!! 1%nat + buf !!! 2%nat + buf !!! 3%nat in
  length buf = 5%nat /\
  (checksum_ok buf = true <-> buf !!! 4%nat = sum mod 256) /\
  (buf !!! 4%nat = sum mod 256 ->
   dht_read E fuel dht rd0 s = Some (DHT_OK, parse_buffer buf reading_zero, s')) /\
  (buf !!! 4%nat <> sum mod 256 ->
   dht_read E fuel dht rd0 s = Some (DHT_ERR_BADCHECKSUM, reading_zero, s')).
Proof.
  intros Hasm sum. pose proof (checksum_ok_mod buf) as Hck. fold sum in Hck.
  split; [apply (assembles_frame _ _ _ _ _ _ Hasm)|]. split; [exact Hck|].
  rewrite (assembles_dht_read _ _ _ rd0 _ _ _ Hasm).
  split; intros H.
  - apply Hck in H. rewrite H. reflexivity.
  - destruct (checksum_ok buf); [|reflexivity]. exfalso. apply H, Hck. reflexivity.
Qed.

Lemma checksum_validation_witness :
  let E := sensor frame_ok in
  let s' := state_after (dht_read E 100 22 reading_zero) in
  assembles E 100 22 hw0 frame_ok s' /\
  (checksum_ok frame_ok = true <-> 145 = (2 + 140 + 1 + 2) mod 256).
Proof.
  cbv zeta. split; [exact sensor_ok_assembles|].
  exact (proj1 (proj2 (checksum_validation _ _ _ reading_zero _ _ _ sensor_ok_assembles))).
Defined.

(** C3: for a frame that passes the checksum test the reading holds
    humidity [(b0 * 256 + b1) / 10] and temperature
    [((b2 & 0x7F) * 256 + b3) / 10] with sign bit set exactly when bit 7 of
    [b2] is, each the binary32 quotient and within half an ulp of the
    decimal; the temperature compares below zero when bit 7 is set and the
    magnitude is not 0 (bytes 80 00 give -0.0); bytes 02 8C give 65.2,
    bytes 01 02 give 25.8 and bytes 81 02 give -25.8. *)
Theorem reading_decode E fuel dht rd0 s buf s' :
  assembles E fuel dht s buf s' ->
  checksum_ok buf = true ->
  exists rd,
    dht_read E fuel dht rd0 s = Some (DHT_OK, rd, s') /\
    let h := buf !!! 0%nat * 256 + buf !!! 1%nat in
    let m := Z.land (buf !!! 2%nat) 127 * 256 + buf !!! 3%nat in
    let neg := Z.testbit (buf !!! 2%nat) 7 in
    humidity rd = tenths h /\
    F32.nearest_to (humidity rd) h 10 = true /\
    temperature rd = (if neg then F32.opp (tenths m) else tenths m) /\
    F32.nearest_to (temperature rd) (if neg then - m else m) 10 = true /\
    F32.signbit (temperature rd) = neg /\
    F32.ltb (temperature rd) F32.zero = neg && negb (m =? 0) /\
    (buf !!! 0%nat = 2 -> buf !!! 1%nat = 140 -> humidity rd = F32.lit_65_2) /\
    (buf !!! 2%nat = 1 -> buf !!! 3%nat = 2 -> temperature rd = F32.lit_25_8) /\
    (buf !!! 2%nat = 129 -> buf !!! 3%nat = 2 -> temperature rd = F32.lit_m25_8).
Proof.
  intros Hasm Hck. exists (parse_buffer buf reading_zero).
  rewrite (assembles_dht_read _ _ _ rd0 _ _ _ Hasm), Hck.
  split; [reflexivity|].
  destruct (assembles_frame _ _ _ _ _ _ Hasm) as [Hlen Hrange].
  destruct (parse_buffer_values buf reading_zero Hrange Hlen)
    as (Hh & Ht & _ & Hnh & Hnm & Hsm).
  cbv zeta. rewrite Hh, Ht.
  split; [reflexivity|]. split; [exact Hnh|]. split; [reflexivity|].
  split; [destruct (Z.testbit _ 7); [apply nearest_to_opp|]; exact Hnm|].
  split.
  { destruct (Z.testbit _ 7); [|exact Hsm].
    exact (signbit_opp _ _ _ Hnm Hsm). }
  split.
  { destruct (tenths_sign _ _ Hnm Hsm) as [Hpos Hneg].
    destruct (Z.testbit _ 7); [exact Hneg|exact Hpos]. }
  split; [intros -> ->; reflexivity|].
  split; intros -> ->; reflexivity.
Qed.

Lemma reading_decode_witness :
  let E := sensor frame_neg in
  let s' := state_after (dht_read E 100 22 reading_zero) in
  assembles E 100 22 hw0 frame_neg s' /\
  checksum_ok frame_neg = true /\
  exists rd,
    dht_read E 100 22 reading_zero hw0 = Some (DHT_OK, rd, s') /\
    humidity rd = F32.lit_65_2 /\ temperature rd = F32.lit_m25_8.
Proof.
  cbv zeta. split; [exact sensor_neg_assembles|]. split; [reflexivity|].
  destruct (reading_decode _ _ _ reading_zero _ _ _ sensor_neg_assembles eq_refl)
    as (rd & Hrd & _ & _ & _ & _ & _ & _ & Hh & _ & Ht).
  exists rd. split; [exact Hrd|]. split; [apply Hh|apply Ht]; reflexivity.
Defined.

(** C4 as the code has it: when a complete frame was assembled the
    [checksum] field of the reading is the received fifth byte if the
    checksum test passed, and 0 as zeroed on entry if it did not. *)
Theorem checksum_field_on_success E fuel dht rd0 s buf s' :
  assembles E fuel dht s buf s' ->
  exists st rd,
    dht_read E fuel dht rd0 s = Some (st, rd, s') /\
    (checksum_ok buf = true -> st = DHT_OK /\ checksum rd = buf !!! 4%nat) /\
    (checksum_ok buf = false -> st = DHT_ERR_BADCHECKSUM /\ checksum rd = 0).
Proof.
  intros Hasm. rewrite (assembles_dht_read _ _ _ rd0 _ _ _ Hasm).
  destruct (checksum_ok buf); do 2 eexists; (split; [reflexivity|]);
    split; intros H; try discriminate; split; reflexivity.
Qed.

Lemma checksum_field_counterexample :
  let E := sensor frame_bad in
  let s' := state_after (dht_read E 100 22 reading_zero) in
  assembles E 100 22 hw0 frame_bad s' /\
  exists rd,
    dht_read E 100 22 reading_zero hw0 = Some (DHT_ERR_BADCHECKSUM, rd, s') /\
    frame_bad !!! 4%nat = 146 /\
    checksum rd = 0 /\
    checksum rd <> frame_bad !!! 4%nat.
Proof.
  cbv zeta. split; [exact sensor_bad_assembles|].
  exists reading_zero. split; [vm_compute; reflexivity|].
  split; [reflexivity|]. split; [reflexivity|]. discriminate.
Qed.

Lemma checksum_field_on_success_witness :
  let E := sensor frame_ok in
  let s' := state_after (dht_read E 100 22 reading_zero) in
  assembles E 100 22 hw0 frame_ok s' /\
  exists st rd,
    dht_read E 100 22 reading_zero hw0 = Some (st, rd, s') /\
    st = DHT_OK /\ checksum rd = 145.
Proof.
  cbv zeta. split; [exact sensor_ok_assembles|].
  destruct (checksum_field_on_success _ _ _ reading_zero _ _ _ sensor_ok_assembles)
    as (st & rd & Hrd & Hok & _).
  exists st, rd. split; [exact Hrd|]. exact (Hok eq_refl).
Defined.

(** C5: [dht_read_bit] waits out the low phase against a bound of 70us and
    the high phase against a bound of 90us.  A check made while the line is
    still at the level waited on that finds the bound reached makes it
    return [DHT_ERR_TIMEOUT] and leave the bit untouched; when neither wait
    ends so, it returns [DHT_OK] and the bit is 0 when the measured high
    time is below 40us and 1 when it is not, so 30us reads as 0 and 70us as
    1.  Each run the line and the clock allow is what the call returns,
    given fuel for its samples, and every return is such a run. *)
Theorem dht_read_bit_decodes E fuel dht b0 s :
  spec_us_in_data_bit_low + 20 = 70 /\
  spec_us_in_data_bit_high + 20 = 90 /\
  (forall st t_high nl nt,
     bit_run E (n_level s) (n_time s) st t_high nl nt ->
     (nl < fuel)%nat ->
     exists b s',
       dht_read_bit E fuel dht b0 s = Some (st, b, s') /\
       n_level s' = (n_level s + nl)%nat /\
       n_time s' = (n_time s + nt)%nat /\
       match t_high with
       | None => st = DHT_ERR_TIMEOUT /\ b = b0
       | Some t =>
           st = DHT_OK /\ b = negb (t <? 40) /\
           (t = 30 -> b = false) /\ (t = 70 -> b = true)
       end) /\
  (forall st b s',
     dht_read_bit E fuel dht b0 s = Some (st, b, s') ->
     exists t_high nl nt,
       bit_run E (n_level s) (n_time s) st t_high nl nt /\
       n_level s' = (n_level s + nl)%nat /\
       n_time s' = (n_time s + nt)%nat /\
       match t_high with
       | None => st = DHT_ERR_TIMEOUT /\ b = b0
       | Some t =>
           st = DHT_OK /\ b = negb (t <? 40) /\
           (t = 30 -> b = false) /\ (t = 70 -> b = true)
       end).
Proof.
  split; [reflexivity|]. split; [reflexivity|].
  assert (Hbit : forall st t_high nl nt,
            bit_run E (n_level s) (n_time s) st t_high nl nt ->
            match t_high with
            | None => st = DHT_ERR_TIMEOUT /\ bit_after b0 t_high = b0
            | Some t =>
                st = DHT_OK /\ bit_after b0 t_high = negb (t <? 40) /\
                (t = 30 -> bit_after b0 t_high = false) /\
                (t = 70 -> bit_after b0 t_high = true)
            end).
  { intros st th nl nt Hrun.
    pose proof (bit_run_status _ _ _ _ _ _ _ Hrun) as [[-> Hth]|[-> ->]].
    - destruct th as [t|]; [|congruence]. split; [reflexivity|].
      split; [reflexivity|]. split; intros ->; reflexivity.
    - split; reflexivity. }
  split.
  - intros st th nl nt Hrun Hf.
    destruct (dht_read_bit_run E fuel dht b0 s st th nl nt Hrun Hf)
      as (s' & H & _ & Hnl & Hnt).
    exists (bit_after b0 th), s'.
    split; [exact H|]. split; [exact Hnl|]. split; [exact Hnt|].
    exact (Hbit st th nl nt Hrun).
  - intros st b s' H.
    pose proof (dht_read_bit_inv _ _ _ _ _ _ _ _ H)
      as (th & nl & nt & Hrun & _ & Hnl & Hnt & _ & Hb).
    exists th, nl, nt. split; [exact Hrun|]. split; [exact Hnl|]. split; [exact Hnt|].
    assert (b = bit_after b0 th) as ->.
    { rewrite Hb. destruct th as [t|]; [|reflexivity].
      unfold bit_after. destruct (t <? _); reflexivity. }
    exact (Hbit st th nl nt Hrun).
Qed.

Lemma dht_read_bit_decodes_witness :
  bit_run (one_bit 30) (n_level hw0) (n_time hw0) DHT_OK (Some 30) (0 + 0 + 2) (0 + 0 + 3) /\
  bit_run (one_bit 70) (n_level hw0) (n_time hw0) DHT_OK (Some 70) (0 + 0 + 2) (0 + 0 + 3) /\
  bit_run (stuck 0) (n_level hw0) (n_time hw0) DHT_ERR_TIMEOUT None 70 71 /\
  (0 + 0 + 2 < 100)%nat /\ (70 < 100)%nat /\
  (exists s', dht_read_bit (one_bit 30) 100 22 true hw0 = Some (DHT_OK, false, s')) /\
  (exists s', dht_read_bit (one_bit 70) 100 22 false hw0 = Some (DHT_OK, true, s')) /\
  (exists s', dht_read_bit (stuck 0) 100 22 true hw0 = Some (DHT_ERR_TIMEOUT, true, s')).
Proof.
  assert (H30 : bit_run (one_bit 30) (n_level hw0) (n_time hw0) DHT_OK (Some 30)
                        (0 + 0 + 2) (0 + 0 + 3)).
  { apply (high_phase_measured (one_bit 30) 0 0 0 0);
      try discriminate; intros i Hi; lia. }
  assert (H70 : bit_run (one_bit 70) (n_level hw0) (n_time hw0) DHT_OK (Some 70)
                        (0 + 0 + 2) (0 + 0 + 3)).
  { apply (high_phase_measured (one_bit 70) 0 0 0 0);
      try discriminate; intros i Hi; lia. }
  assert (Hto : bit_run (stuck 0) (n_level hw0) (n_time hw0) DHT_ERR_TIMEOUT None 70 71).
  { apply (low_phase_timeout (stuck 0) 0 0 69).
    - intros i Hi. split; [cbn; destruct i; reflexivity|].
      cbn [stuck scripted uptime]. unfold steady_clock, spec_us_in_data_bit_low. lia.
    - reflexivity.
    - vm_compute. discriminate. }
  assert (Hf2 : (0 + 0 + 2 < 100)%nat) by lia.
  assert (Hf70 : (70 < 100)%nat) by lia.
  split; [exact H30|]. split; [exact H70|]. split; [exact Hto|].
  split; [exact Hf2|]. split; [exact Hf70|].
  split; [|split].
  - destruct (proj1 (proj2 (proj2 (dht_read_bit_decodes (one_bit 30) 100 22 true hw0)))
                _ _ _ _ H30 Hf2) as (b & s' & H & _ & _ & _ & _ & Hb & _).
    exists s'. rewrite (Hb eq_refl) in H. exact H.
  - destruct (proj1 (proj2 (proj2 (dht_read_bit_decodes (one_bit 70) 100 22 false hw0)))
                _ _ _ _ H70 Hf2) as (b & s' & H & _ & _ & _ & _ & _ & Hb).
    exists s'. rewrite (Hb eq_refl) in H. exact H.
  - destruct (proj1 (proj2 (proj2 (dht_read_bit_decodes (stuck 0) 100 22 true hw0)))
                _ _ _ _ Hto Hf70) as (b & s' & H & _ & _ & _ & Hb).
    exists s'. rewrite Hb in H. exact H.
Defined.

(** C6: the two loops of [dht_read] are forty bit reads taken in order.
    Bit [k] of byte [i] in reading order lands at position [7 - k], most
    significant first, and forty bits give the five bytes of the frame.  A
    bit read that fails after fewer than forty good ones ends the stage
    there, with [DHT_ERR_TIMEOUT] and in the state that read left, and
    [dht_read] returns [DHT_ERR_TIMEOUT] from it; every byte not yet
    completed is still zero.  Each bit that was read is followed by one
    delay of 10us. *)
Theorem dht_read_frame_assembly E fuel dht s :
  dht_read_frame E fuel dht s =
    match read_bits E fuel dht 40 false s with
    | None => None
    | Some (r, bits, s') =>
        Some (r, frame_of_bits bits, List.last bits false, s')
    end /\
  (forall n bits s1 r b s',
     (n < 40)%nat ->
     read_bits E fuel dht n false s = Some (DHT_OK, bits, s1) ->
     dht_read_bit E fuel dht (List.last bits false) s1 = Some (r, b, s') ->
     r <> DHT_OK ->
     dht_read_frame E fuel dht s =
       Some (DHT_ERR_TIMEOUT, frame_of_bits bits, List.last bits false, s') /\
     forall rd0 s0 s00,
       dht_request_readings E dht s00 = Some (DHT_OK, s0) ->
       dht_await_data E fuel dht s0 = Some (DHT_OK, s) ->
       dht_read E fuel dht rd0 s00 = Some (DHT_ERR_TIMEOUT, reading_zero, s')) /\
  (forall r buf bit_in s',
     dht_read_frame E fuel dht s = Some (r, buf, bit_in, s') ->
     exists bits,
       read_bits E fuel dht 40 false s = Some (r, bits, s') /\
       buf = frame_of_bits bits /\
       length buf = 5%nat /\
       ((r = DHT_OK /\ length bits = 40%nat) \/
        (r = DHT_ERR_TIMEOUT /\ (length bits < 40)%nat /\
         exists s1 r' b,
           read_bits E fuel dht (length bits) false s = Some (DHT_OK, bits, s1) /\
           dht_read_bit E fuel dht (List.last bits false) s1 = Some (r', b, s') /\
           r' <> DHT_OK)) /\
       (forall i k, (8 * S i <= length bits)%nat -> (k < 8)%nat ->
          Z.testbit (buf !!! i) (7 - Z.of_nat k) = nth (8 * i + k) bits false) /\
       (forall i, (i < 5)%nat -> (length bits < 8 * S i)%nat -> buf !!! i = 0) /\
       delays (trace s') = replicate (length bits) 10 ++ delays (trace s)).
Proof.
  split; [apply dht_read_frame_bits|]. split.
  - intros n bits s1 r b s' Hn Hgood Hbad Hr.
    assert (Hstop : read_bits E fuel dht 40 false s = Some (DHT_ERR_TIMEOUT, bits, s')).
    { replace 40%nat with (n + S (39 - n))%nat by lia.
      exact (read_bits_stops _ _ _ _ _ _ _ _ _ _ _ _ Hgood Hbad Hr). }
    assert (Hfr : dht_read_frame E fuel dht s =
                  Some (DHT_ERR_TIMEOUT, frame_of_bits bits, List.last bits false, s'))
      by (rewrite dht_read_frame_bits, Hstop; reflexivity).
    split; [exact Hfr|].
    intros rd0 s0 s00 Hreq Hhs.
    rewrite dht_read_unfold, Hreq. cbn [retval_eqb negb].
    rewrite Hhs. cbn [retval_eqb negb]. rewrite Hfr. reflexivity.
  - rewrite dht_read_frame_bits. intros r buf bit_in s' H.
    destruct (read_bits E fuel dht 40 false s) as [[[r' bits] s1]|] eqn:Hbits; [|discriminate].
    inversion H; subst r' buf bit_in s1; clear H.
    pose proof (read_bits_inv _ _ _ _ _ _ _ _ _ Hbits) as (Hcase & _ & Hd & _).
    exists bits. split; [reflexivity|]. split; [reflexivity|].
    split; [apply frame_of_bits_length|].
    assert (Hlen : (length bits <= 40)%nat) by (destruct Hcase as [[_ ?]|[_ ?]]; lia).
    split.
    { destruct Hcase as [Hok|[-> Hlt]]; [left; exact Hok|right].
      split; [reflexivity|]. split; [exact Hlt|].
      destruct (read_bits_stopped _ _ _ _ _ _ _ _ _ Hbits) as (_ & Hst); [discriminate|].
      exact Hst. }
    split; [|split; [intros i Hi5 Hi; apply frame_of_bits_rest; assumption|exact Hd]].
    intros i k Hi Hk. rewrite frame_of_bits_byte by assumption.
    rewrite byte_of_bits_testbit; [|rewrite length_take, length_drop; lia|exact Hk].
    rewrite !nth_lookup, lookup_take_lt by exact Hk. rewrite lookup_drop. reflexivity.
Qed.

Lemma dht_read_frame_assembly_witness :
  let s1 := state_after (read_bits cut_short 100 22 3 false) in
  let s' := state_after (dht_read_frame cut_short 100 22) in
  (3 < 40)%nat /\
  read_bits cut_short 100 22 3 false hw0 = Some (DHT_OK, [true; false; true], s1) /\
  dht_read_bit cut_short 100 22 (List.last [true; false; true] false) s1
    = Some (DHT_ERR_TIMEOUT, true, s') /\
  DHT_ERR_TIMEOUT <> DHT_OK /\
  dht_read_frame cut_short 100 22 hw0
    = Some (DHT_ERR_TIMEOUT, [0; 0; 0; 0; 0], true, s') /\
  dht_read_frame (bits_only frame_ok) 100 22 hw0
    = Some (DHT_OK, frame_ok, true, state_after (dht_read_frame (bits_only frame_ok) 100 22)).
Proof.
  cbv zeta.
  assert (Hn : (3 < 40)%nat) by lia.
  assert (Hgood : read_bits cut_short 100 22 3 false hw0
                  = Some (DHT_OK, [true; false; true],
                          state_after (read_bits cut_short 100 22 3 false)))
    by (vm_compute; reflexivity).
  assert (Hbad : dht_read_bit cut_short 100 22 (List.last [true; false; true] false)
                   (state_after (read_bits cut_short 100 22 3 false))
                 = Some (DHT_ERR_TIMEOUT, true,
                         state_after (dht_read_frame cut_short 100 22)))
    by (vm_compute; reflexivity).
  assert (Hr : DHT_ERR_TIMEOUT <> DHT_OK) by discriminate.
  split; [exact Hn|]. split; [exact Hgood|]. split; [exact Hbad|]. split; [exact Hr|].
  split.
  - exact (proj1 (proj1 (proj2 (dht_read_frame_assembly cut_short 100 22 hw0))
                    _ _ _ _ _ _ Hn Hgood Hbad Hr)).
  - vm_compute. reflexivity.
Defined.

(** C7: a polling loop that has gone round [j] times falls out with no
    timeout as soon as a level sample differs from the level polled,
    without reading the clock again, whatever the clock says; and returns
    [DHT_ERR_TIMEOUT] as soon as a sample still at that level meets an
    elapsed time that has reached the bound, the bound itself included. *)
Theorem busy_wait_level_before_timeout E fuel dht level entry timeout s j :
  spinning E level entry timeout (n_level s) (n_time s) j ->
  (j < fuel)%nat ->
  (line_level E (n_level s + j) <> level ->
   exists s', busy_wait E fuel dht level entry timeout s = Some (DHT_OK, s') /\
              n_level s' = (n_level s + S j)%nat /\
              n_time s' = (n_time s + j)%nat) /\
  (line_level E (n_level s + j) = level ->
   timeout <= uptime E (n_time s + j) - entry ->
   exists s', busy_wait E fuel dht level entry timeout s = Some (DHT_ERR_TIMEOUT, s') /\
              n_level s' = (n_level s + S j)%nat /\
              n_time s' = (n_time s + S j)%nat).
Proof.
  intros Hspin Hfuel. split.
  - intros Hl.
    destruct (busy_wait_falls_out E dht level entry timeout j fuel s Hspin Hl Hfuel)
      as (s' & H & _ & Hnl & Hnt).
    exists s'. auto.
  - intros Hl Ht.
    destruct (busy_wait_times_out E dht level entry timeout j fuel s Hspin Hl Ht Hfuel)
      as (s' & H & _ & Hnl & Hnt).
    exists s'. auto.
Qed.

Lemma busy_wait_level_before_timeout_witness :
  spinning rising 0 0 70 0 0 2 /\
  (2 < 100)%nat /\
  exists s', busy_wait rising 100 22 0 0 70 hw0 = Some (DHT_OK, s') /\
             n_level s' = 3%nat /\ n_time s' = 2%nat.
Proof.
  assert (Hspin : spinning rising 0 0 70 (n_level hw0) (n_time hw0) 2).
  { intros i Hi. destruct i as [|[|i]]; [split; reflexivity..|lia]. }
  assert (Hfuel : (2 < 100)%nat) by lia.
  split; [exact Hspin|]. split; [exact Hfuel|].
  apply (busy_wait_level_before_timeout rising 100 22 0 0 70 hw0 2 Hspin Hfuel).
  discriminate.
Defined.

(** C8: after a successful [dht_init], a [dht_read] whose GPIO calls all
    succeed on a line that does not move returns [DHT_ERR_TIMEOUT] from the
    handshake, never [DHT_ERR_GPIO], each half of the handshake being
    bounded by 90us.  The line is low at every sample until a check of the
    first wait finds 90us elapsed, or high at every sample until a check of
    the second wait does, the first wait then being over at once.  Nothing
    more is asked of the clock than that check number [j] finds the bound
    reached. *)
Theorem init_then_read_stuck_line E fuel dht rd0 s j :
  (forall k, (k < 6)%nat -> gpio_result E (n_gpio s + k) = ESP_OK) ->
  (j < fuel)%nat ->
  spec_us_in_ready_signal_half + 10 = 90 /\
  exists s1,
    dht_init E dht s = Some (DHT_OK, s1) /\
    ((forall i, (i <= j)%nat -> line_level E (n_level s + i) = 0) ->
     90 <= uptime E (S (n_time s) + j) - uptime E (n_time s) ->
     exists s2,
       dht_read E fuel dht rd0 s1 = Some (DHT_ERR_TIMEOUT, reading_zero, s2) /\
       handshake_fails E fuel dht s1 s2) /\
    ((forall i, (i <= S j)%nat -> line_level E (n_level s + i) = 1) ->
     90 <= uptime E (S (S (n_time s)) + j) - uptime E (S (n_time s)) ->
     exists s2,
       dht_read E fuel dht rd0 s1 = Some (DHT_ERR_TIMEOUT, reading_zero, s2) /\
       handshake_fails E fuel dht s1 s2).
Proof.
  intros Hgpio Hf. split; [reflexivity|].
  pose proof (Hgpio 0%nat ltac:(lia)) as G0. pose proof (Hgpio 1%nat ltac:(lia)) as G1.
  rewrite Nat.add_0_r in G0. rewrite Nat.add_1_r in G1.
  destruct (dht_init_succeeds E dht s G0 G1) as (s1 & Hinit & Hg1 & Hl1 & Ht1).
  exists s1. split; [exact Hinit|].
  assert (Hreq : exists s1', dht_request_readings E dht s1 = Some (DHT_OK, s1') /\
                             n_level s1' = n_level s /\ n_time s1' = n_time s).
  { destruct (dht_request_readings_inv E dht s1) as (r1 & s1' & Hr & Hnl & Hnt & Hcase).
    destruct Hcase as [(-> & _)|(_ & k & Hk & _ & Hfail & _)].
    - exists s1'. split; [exact Hr|]. split; congruence.
    - exfalso. apply Hfail. rewrite Hg1.
      replace (S (S (n_gpio s)) + k)%nat with (n_gpio s + (2 + k))%nat by lia.
      apply Hgpio. lia. }
  destruct Hreq as (s1' & Hreq & Hnl & Hnt).
  assert (Hread : forall s2,
            dht_await_data E fuel dht s1' = Some (DHT_ERR_TIMEOUT, s2) ->
            dht_read E fuel dht rd0 s1 = Some (DHT_ERR_TIMEOUT, reading_zero, s2) /\
            handshake_fails E fuel dht s1 s2).
  { intros s2 Hhs. split.
    - rewrite dht_read_unfold, Hreq. cbn [retval_eqb negb]. rewrite Hhs. reflexivity.
    - exists s1', DHT_ERR_TIMEOUT. split; [exact Hreq|]. split; [exact Hhs|discriminate]. }
  split; intros Hlvl Hclock;
    cut (exists s2, dht_await_data E fuel dht s1' = Some (DHT_ERR_TIMEOUT, s2));
    try (intros [s2 Hhs]; exists s2; apply Hread, Hhs);
    rewrite dht_await_data_unfold; unfold spec_us_in_ready_signal_half;
    change (80 + 10) with 90.
  - destruct (busy_wait_stuck_until E dht 0 (uptime E (n_time s1')) 90 j fuel
                (after_time E s1')) as (s2 & ->).
    + intros i Hi. unfold after_time; cbn [n_level]. rewrite Hnl. apply Hlvl, Hi.
    + unfold after_time; cbn [n_time]. rewrite Hnt. exact Hclock.
    + exact Hf.
    + cbn [retval_eqb negb]. eauto.
  - destruct (busy_wait_falls_out E dht 0 (uptime E (n_time s1')) 90 0 fuel
                (after_time E s1')) as (s2 & -> & _ & Hnl2 & Hnt2).
    + intros i Hi. lia.
    + unfold after_time; cbn [n_level]. rewrite Nat.add_0_r, Hnl.
      pose proof (Hlvl 0%nat ltac:(lia)) as H0. rewrite Nat.add_0_r in H0.
      rewrite H0. discriminate.
    + lia.
    + cbn [retval_eqb negb].
      unfold after_time in Hnl2, Hnt2; cbn [n_level n_time] in Hnl2, Hnt2.
      destruct (busy_wait_stuck_until E dht 1 (uptime E (n_time s2)) 90 j fuel
                  (after_time E s2)) as (s3 & ->).
      * intros i Hi. unfold after_time; cbn [n_level]. rewrite Hnl2, Hnl.
        replace (n_level s + 1 + i)%nat with (n_level s + S i)%nat by lia.
        apply Hlvl. lia.
      * unfold after_time; cbn [n_time].
        replace (n_time s2) with (S (n_time s)) by lia. exact Hclock.
      * exact Hf.
      * cbn [retval_eqb negb]. eauto.
Qed.

Lemma init_then_read_stuck_line_witness :
  (forall k, (k < 6)%nat -> gpio_result (stuck_slow 0) (n_gpio hw0 + k) = ESP_OK) /\
  (179 < 200)%nat /\
  (forall i, (i <= 179)%nat -> line_level (stuck_slow 0) (n_level hw0 + i) = 0) /\
  90 <= uptime (stuck_slow 0) (S (n_time hw0) + 179) - uptime (stuck_slow 0) (n_time hw0) /\
  (forall i, (i <= 180)%nat -> line_level (stuck_slow 1) (n_level hw0 + i) = 1) /\
  90 <= uptime (stuck_slow 1) (S (S (n_time hw0)) + 179)
        - uptime (stuck_slow 1) (S (n_time hw0)) /\
  (exists s1 s2,
     dht_init (stuck_slow 0) 22 hw0 = Some (DHT_OK, s1) /\
     dht_read (stuck_slow 0) 200 22 reading_zero s1
       = Some (DHT_ERR_TIMEOUT, reading_zero, s2)) /\
  (exists s1 s2,
     dht_init (stuck_slow 1) 22 hw0 = Some (DHT_OK, s1) /\
     dht_read (stuck_slow 1) 200 22 reading_zero s1
       = Some (DHT_ERR_TIMEOUT, reading_zero, s2)).
Proof.
  assert (Hg : forall level k, (k < 6)%nat ->
                 gpio_result (stuck_slow level) (n_gpio hw0 + k) = ESP_OK).
  { intros level k _. cbn. destruct k; reflexivity. }
  assert (Hl : forall level n i, (i <= n)%nat ->
                 line_level (stuck_slow level) (n_level hw0 + i) = level).
  { intros level n i _. cbn. destruct i; reflexivity. }
  assert (Hf : (179 < 200)%nat) by lia.
  assert (Hc0 : 90 <= uptime (stuck_slow 0) (S (n_time hw0) + 179)
                      - uptime (stuck_slow 0) (n_time hw0)) by (vm_compute; discriminate).
  assert (Hc1 : 90 <= uptime (stuck_slow 1) (S (S (n_time hw0)) + 179)
                      - uptime (stuck_slow 1) (S (n_time hw0))) by (vm_compute; discriminate).
  split; [exact (Hg 0)|]. split; [exact Hf|]. split; [exact (Hl 0 179%nat)|].
  split; [exact Hc0|]. split; [exact (Hl 1 180%nat)|]. split; [exact Hc1|].
  split.
  - destruct (proj2 (init_then_read_stuck_line (stuck_slow 0) 200 22 reading_zero hw0 179
                       (Hg 0) Hf)) as (s1 & Hinit & Hlow & _).
    destruct (Hlow (Hl 0 179%nat) Hc0) as (s2 & Hrd & _).
    exists s1, s2. split; [exact Hinit|exact Hrd].
  - destruct (proj2 (init_then_read_stuck_line (stuck_slow 1) 200 22 reading_zero hw0 179
                       (Hg 1) Hf)) as (s1 & Hinit & _ & Hhigh).
    destruct (Hhigh (Hl 1 180%nat) Hc1) as (s2 & Hrd & _).
    exists s1, s2. split; [exact Hinit|exact Hrd].
Defined.

(** C9 as the code has it: with a clock that gives a larger value at every
    reading, every polling loop ends, within as many clock readings as its
    bound has microseconds, and [dht_read] returns a status, the same for
    any larger fuel, after at most as many timeout checks as the sum of all
    timeout bounds and the 2 + 40 * 3 clock readings that are not checks.
    The bound is on the polls, not on the time they take. *)
Theorem dht_read_terminates E fuel dht rd0 s :
  clock_increasing E ->
  (90 <= fuel)%nat ->
  (forall level entry timeout s0,
     entry < uptime E (n_time s0) -> 0 < timeout <= Z.of_nat fuel ->
     exists r s1,
       busy_wait E fuel dht level entry timeout s0 = Some (r, s1) /\
       Z.of_nat (n_time s1) <= Z.of_nat (n_time s0) + timeout) /\
  exists st rd s',
    dht_read E fuel dht rd0 s = Some (st, rd, s') /\
    (forall fuel', (fuel <= fuel')%nat ->
                   dht_read E fuel' dht rd0 s = Some (st, rd, s')) /\
    Z.of_nat (n_time s') <= Z.of_nat (n_time s) + sum_of_timeout_bounds + (2 + 40 * 3).
Proof.
  intros Hc Hf. split.
  { intros level entry timeout s0 He Ht.
    destruct (busy_wait_terminates E dht level entry timeout Hc fuel s0) as (r & s1 & H);
      [lia|].
    exists r, s1. split; [exact H|].
    eapply busy_wait_polls; eauto. lia. }
  cut (exists st rd s',
         dht_read E fuel dht rd0 s = Some (st, rd, s') /\
         Z.of_nat (n_time s') <= Z.of_nat (n_time s) + 6702).
  { intros (st & rd & s' & H & Hb). exists st, rd, s'.
    split; [exact H|]. split.
    - intros fuel' Hle. exact (dht_read_fuel _ _ _ _ _ _ _ H Hle).
    - unfold sum_of_timeout_bounds, spec_us_in_ready_signal_half,
        spec_us_in_data_bit_low, spec_us_in_data_bit_high. lia. }
  rewrite dht_read_unfold.
  destruct (dht_request_readings_inv E dht s) as (r1 & s1 & -> & _ & Ht1 & _).
  destruct (negb (retval_eqb r1 DHT_OK)); [do 3 eexists; split; [reflexivity|lia]|].
  destruct (dht_await_data_terminates E fuel dht s1 Hc Hf) as (r2 & s2 & Hhs).
  rewrite Hhs. apply dht_await_data_inv in Hhs as (_ & _ & _ & Ht2).
  specialize (Ht2 Hc).
  destruct (negb (retval_eqb r2 DHT_OK)); [do 3 eexists; split; [reflexivity|lia]|].
  rewrite dht_read_frame_bits.
  destruct (read_bits_terminates E fuel dht Hc Hf 40 false s2) as (r3 & bits & s3 & Hb).
  rewrite Hb. apply read_bits_inv in Hb as (_ & _ & _ & Ht3). specialize (Ht3 Hc).
  destruct (negb (retval_eqb r3 DHT_OK)); [do 3 eexists; split; [reflexivity|lia]|].
  destruct (negb (checksum_ok _)); do 3 eexists; (split; [reflexivity|lia]).
Qed.

(** With a clock that advances a second per reading the first wait of the
    handshake is left a second after it was entered: neither its bound of
    90us nor the sum of all the bounds limits the time a read takes. *)
Lemma dht_read_elapsed_counterexample :
  clock_increasing stuck_jumping /\
  sum_of_timeout_bounds = 6580 /\
  exists s',
    dht_read stuck_jumping 100 22 reading_zero hw0
      = Some (DHT_ERR_TIMEOUT, reading_zero, s') /\
    clock_readings (trace s') = [1000000; 0] /\
    elapsed (trace s') = 1000000 /\
    ~ elapsed (trace s') <= spec_us_in_ready_signal_half + 10 /\
    ~ elapsed (trace s') <= sum_of_timeout_bounds.
Proof.
  split; [apply steady_clock_increasing; lia|]. split; [reflexivity|].
  exists (state_after (dht_read stuck_jumping 100 22 reading_zero)).
  split; [vm_compute; reflexivity|].
  split; [vm_compute; reflexivity|].
  split; [vm_compute; reflexivity|].
  split; vm_compute; intros H; apply H; reflexivity.
Qed.

Lemma dht_read_terminates_witness :
  clock_increasing (sensor frame_ok) /\
  (90 <= 100)%nat /\
  exists st rd s',
    dht_read (sensor frame_ok) 100 22 reading_zero hw0 = Some (st, rd, s') /\
    Z.of_nat (n_time s') <= Z.of_nat (n_time hw0) + sum_of_timeout_bounds + (2 + 40 * 3).
Proof.
  assert (Hc : clock_increasing (sensor frame_ok)) by (apply steady_clock_increasing; lia).
  assert (Hf : (90 <= 100)%nat) by lia.
  split; [exact Hc|]. split; [exact Hf|].
  destruct (proj2 (dht_read_terminates (sensor frame_ok) 100 22 reading_zero hw0 Hc Hf))
    as (st & rd & s' & H & _ & Hb).
  exists st, rd, s'. split; [exact H|exact Hb].
Defined.

(** C10: whenever [dht_read] returns a status other than [DHT_OK] the
    reading handed back is all zero, whatever the caller's struct held. *)
Theorem dht_read_error_leaves_zero E fuel dht rd0 s st rd s' :
  dht_read E fuel dht rd0 s = Some (st, rd, s') ->
  st <> DHT_OK ->
  rd = reading_zero /\
  temperature rd = F32.zero /\ humidity rd = F32.zero /\ checksum rd = 0.
Proof.
  rewrite dht_read_unfold. intros H Hst.
  assert (rd = reading_zero) as ->; [|repeat split].
  destruct (dht_request_readings E dht s) as [[r1 s1]|]; [|discriminate].
  destruct (negb (retval_eqb r1 DHT_OK)); [congruence|].
  destruct (dht_await_data E fuel dht s1) as [[r2 s2]|]; [|discriminate].
  destruct (negb (retval_eqb r2 DHT_OK)); [congruence|].
  destruct (dht_read_frame E fuel dht s2) as [[[[r3 buf] b] s3]|]; [|discriminate].
  destruct (negb (retval_eqb r3 DHT_OK)); [congruence|].
  destruct (negb (checksum_ok buf)); congruence.
Qed.

Lemma dht_read_error_leaves_zero_witness :
  let E := sensor frame_bad in
  let s' := state_after (dht_read E 100 22 (Reading F32.lit_25_8 F32.lit_65_2 145)) in
  dht_read E 100 22 (Reading F32.lit_25_8 F32.lit_65_2 145) hw0
    = Some (DHT_ERR_BADCHECKSUM, reading_zero, s') /\
  DHT_ERR_BADCHECKSUM <> DHT_OK /\
  reading_zero = reading_zero /\
  temperature reading_zero = F32.zero /\ humidity reading_zero = F32.zero /\
  checksum reading_zero = 0.
Proof.
  cbv zeta.
  assert (H : dht_read (sensor frame_bad) 100 22 (Reading F32.lit_25_8 F32.lit_65_2 145) hw0
              = Some (DHT_ERR_BADCHECKSUM, reading_zero,
                      state_after (dht_read (sensor frame_bad) 100 22
                                            (Reading F32.lit_25_8 F32.lit_65_2 145))))
    by (vm_compute; reflexivity).
  split; [exact H|]. split; [discriminate|].
  apply (dht_read_error_leaves_zero _ _ _ _ _ _ _ _ H). discriminate.
Defined.

(* ------------------------------------------------------------------ *)
(** ** Further properties: the GPIO side of the driver *)

Ltac no_failed_call := repeat constructor; cbn; intuition congruence.

Ltac stops_at pre ev rest H :=
  exists rest; split; [reflexivity|]; right; exists pre, ev;
  split; [reflexivity|]; split; [exact H|no_failed_call].

(** X1: [dht_init] sets the pin to output and then drives it high, stops at
    the first of the two calls that fails, and touches nothing else: it
    returns [DHT_OK] exactly when neither call failed, and it neither samples
    the line, reads the clock nor delays. *)
Theorem dht_init_steps E dht s :
  exists r s' done,
    dht_init E dht s = Some (r, s') /\
    trace s' = rev done ++ trace s /\
    runs_until_failure (init_steps E dht (n_gpio s)) done /\
    (r = DHT_OK <-> done = init_steps E dht (n_gpio s) /\
                    Forall (fun ev => ~ failed_gpio_call ev) done) /\
    (r = DHT_OK \/ r = DHT_ERR_GPIO) /\
    n_gpio s' = (n_gpio s + length done)%nat /\
    n_level s' = n_level s /\ n_time s' = n_time s /\
    delays (trace s') = delays (trace s).
Proof.
  unfold dht_init, bind, gpio_set_direction, gpio_set_level, ret, init_steps;
    cbn [n_gpio n_level n_time trace].
  set (e0 := EvSetDirection dht GPIO_MODE_OUTPUT (gpio_result E (n_gpio s))).
  set (e1 := EvSetLevel dht 1 (gpio_result E (S (n_gpio s)))).
  destruct (Z.eqb_spec (gpio_result E (n_gpio s)) ESP_OK) as [H0|H0];
    cbn [negb n_gpio n_level n_time trace].
  2:{ exists DHT_ERR_GPIO. eexists. exists [e0].
      split; [reflexivity|]. split; [reflexivity|].
      split; [stops_at (@nil event) e0 [e1] H0|].
      split; [split; [discriminate|intros [? _]; discriminate]|].
      split; [auto|]. cbn. repeat split; lia. }
  destruct (Z.eqb_spec (gpio_result E (S (n_gpio s))) ESP_OK) as [H1|H1];
    cbn [negb n_gpio n_level n_time trace].
  2:{ exists DHT_ERR_GPIO. eexists. exists [e0; e1].
      split; [reflexivity|]. split; [reflexivity|].
      split; [stops_at [e0] e1 (@nil event) H1|].
      split.
      { split; [discriminate|]. intros [_ Hall]. exfalso.
        apply Forall_cons in Hall as [_ Hall]. apply Forall_cons in Hall as [Hx _].
        apply Hx. exact H1. }
      split; [auto|]. cbn. repeat split; lia. }
  exists DHT_OK. eexists. exists [e0; e1].
  split; [reflexivity|]. split; [reflexivity|].
  assert (Hall : Forall (fun ev => ~ failed_gpio_call ev) [e0; e1]) by no_failed_call.
  split.
  { exists []. split; [reflexivity|]. left. split; [reflexivity|exact Hall]. }
  split; [split; [intros _; split; [reflexivity|exact Hall]|reflexivity]|].
  split; [auto|]. cbn. repeat split; lia.
Qed.

(** X2: [dht_request_readings] makes its six calls in the order output,
    low, 3000us, high, 20us, input, up to and including the first GPIO
    call that fails; it returns [DHT_OK] exactly when it ran them all and
    none failed, and it never samples the line or reads the clock. *)
Theorem dht_request_readings_steps E dht s :
  exists r s' done,
    dht_request_readings E dht s = Some (r, s') /\
    trace s' = rev done ++ trace s /\
    runs_until_failure (request_steps E dht (n_gpio s)) done /\
    (r = DHT_OK <-> done = request_steps E dht (n_gpio s) /\
                    Forall (fun ev => ~ failed_gpio_call ev) done) /\
    (r = DHT_OK \/ r = DHT_ERR_GPIO) /\
    n_gpio s' = (n_gpio s + length (gpio_calls done))%nat /\
    n_level s' = n_level s /\ n_time s' = n_time s.
Proof.
  unfold dht_request_readings, bind, gpio_set_direction, gpio_set_level,
    ets_delay_us, ret, request_steps; cbn [n_gpio n_level n_time trace].
  set (e0 := EvSetDirection dht GPIO_MODE_OUTPUT (gpio_result E (n_gpio s))).
  set (e1 := EvSetLevel dht 0 (gpio_result E (S (n_gpio s)))).
  set (d1 := EvDelay spec_us_out_request_low).
  set (e2 := EvSetLevel dht 1 (gpio_result E (S (S (n_gpio s))))).
  set (d2 := EvDelay spec_us_out_request_high).
  set (e3 := EvSetDirection dht GPIO_MODE_INPUT (gpio_result E (S (S (S (n_gpio s)))))).
  assert (Hlast : forall (pre : list event) ev,
             failed_gpio_call ev ->
             ~ (Forall (fun ev => ~ failed_gpio_call ev) (pre ++ [ev]))).
  { intros pre ev Hf Hall. apply Forall_app in Hall as [_ Hall].
    apply Forall_cons in Hall as [Hx _]. exact (Hx Hf). }
  destruct (Z.eqb_spec (gpio_result E (n_gpio s)) ESP_OK) as [H0|H0];
    cbn [negb n_gpio n_level n_time trace].
  2:{ exists DHT_ERR_GPIO. eexists. exists [e0].
      split; [reflexivity|]. split; [reflexivity|].
      split; [stops_at (@nil event) e0 [e1; d1; e2; d2; e3] H0|].
      split; [split; [discriminate|intros [? _]; discriminate]|].
      split; [auto|]. cbn. repeat split; lia. }
  destruct (Z.eqb_spec (gpio_result E (S (n_gpio s))) ESP_OK) as [H1|H1];
    cbn [negb n_gpio n_level n_time trace].
  2:{ exists DHT_ERR_GPIO. eexists. exists [e0; e1].
      split; [reflexivity|]. split; [reflexivity|].
      split; [stops_at [e0] e1 [d1; e2; d2; e3] H1|].
      split; [split; [discriminate|intros [? _]; discriminate]|].
      split; [auto|]. cbn. repeat split; lia. }
  destruct (Z.eqb_spec (gpio_result E (S (S (n_gpio s)))) ESP_OK) as [H2|H2];
    cbn [negb n_gpio n_level n_time trace].
  2:{ exists DHT_ERR_GPIO. eexists. exists [e0; e1; d1; e2].
      split; [reflexivity|]. split; [reflexivity|].
      split; [stops_at [e0; e1; d1] e2 [d2; e3] H2|].
      split; [split; [discriminate|intros [? _]; discriminate]|].
      split; [auto|]. cbn. repeat split; lia. }
  destruct (Z.eqb_spec (gpio_result E (S (S (S (n_gpio s))))) ESP_OK) as [H3|H3];
    cbn [negb n_gpio n_level n_time trace].
  2:{ exists DHT_ERR_GPIO. eexists. exists [e0; e1; d1; e2; d2; e3].
      split; [reflexivity|]. split; [reflexivity|].
      split; [stops_at [e0; e1; d1; e2; d2] e3 (@nil event) H3|].
      split.
      { split; [discriminate|]. intros [_ Hall]. exfalso.
        exact (Hlast [e0; e1; d1; e2; d2] e3 H3 Hall). }
      split; [auto|]. cbn. repeat split; lia. }
  exists DHT_OK. eexists. exists [e0; e1; d1; e2; d2; e3].
  split; [reflexivity|]. split; [reflexivity|].
  assert (Hall : Forall (fun ev => ~ failed_gpio_call ev) [e0; e1; d1; e2; d2; e3])
    by no_failed_call.
  split.
  { exists []. split; [reflexivity|]. left. split; [reflexivity|exact Hall]. }
  split; [split; [intros _; split; [reflexivity|exact Hall]|reflexivity]|].
  split; [auto|]. cbn. repeat split; lia.
Qed.

Lemma busy_wait_gpio_calls E dht level entry timeout :
  forall fuel s r s',
    busy_wait E fuel dht level entry timeout s = Some (r, s') ->
    gpio_calls (trace s') = gpio_calls (trace s).
Proof.
  induction fuel as [|fuel IH]; intros s r s' H; [discriminate|].
  rewrite busy_wait_unfold in H.
  destruct (_ =? level).
  - destruct (_ >=? timeout).
    + inversion H; subst. reflexivity.
    + apply IH in H. exact H.
  - inversion H; subst. reflexivity.
Qed.

Lemma dht_await_data_gpio_calls E fuel dht s r s' :
  dht_await_data E fuel dht s = Some (r, s') ->
  gpio_calls (trace s') = gpio_calls (trace s).
Proof.
  rewrite dht_await_data_unfold.
  destruct (busy_wait E fuel dht 0 _ _ _) as [[r1 s1]|] eqn:H1; [|discriminate].
  apply busy_wait_gpio_calls in H1.
  destruct (negb _); [intros H; inversion H; subst; exact H1|].
  destruct (busy_wait E fuel dht 1 _ _ _) as [[r2 s2]|] eqn:H2; [|discriminate].
  apply busy_wait_gpio_calls in H2.
  destruct (negb _); intros H; inversion H; subst; rewrite H2; exact H1.
Qed.

Lemma dht_read_bit_gpio_calls E fuel dht b0 s r b s' :
  dht_read_bit E fuel dht b0 s = Some (r, b, s') ->
  gpio_calls (trace s') = gpio_calls (trace s).
Proof.
  rewrite dht_read_bit_unfold.
  destruct (busy_wait E fuel dht 0 _ _ _) as [[r1 s1]|] eqn:H1; [|discriminate].
  apply busy_wait_gpio_calls in H1.
  destruct (negb _); [intros H; inversion H; subst; exact H1|].
  destruct (busy_wait E fuel dht 1 _ _ _) as [[r2 s2]|] eqn:H2; [|discriminate].
  apply busy_wait_gpio_calls in H2.
  destruct (negb _); intros H; inversion H; subst.
  - rewrite H2. exact H1.
  - unfold after_time; cbn [trace].
    change (gpio_calls (trace s2) = gpio_calls (trace s)). rewrite H2. exact H1.
Qed.

Lemma read_bits_gpio_calls E fuel dht :
  forall n b0 s r bits s',
    read_bits E fuel dht n b0 s = Some (r, bits, s') ->
    gpio_calls (trace s') = gpio_calls (trace s).
Proof.
  induction n as [|n IH]; intros b0 s r bits s' H; cbn [read_bits] in H.
  - inversion H; subst. reflexivity.
  - unfold bind in H.
    destruct (dht_read_bit E fuel dht b0 s) as [[[st b] s1]|] eqn:Hbit; [|discriminate].
    apply dht_read_bit_gpio_calls in Hbit.
    destruct (negb _); [inversion H; subst; exact Hbit|].
    unfold ets_delay_us in H.
    destruct (read_bits E fuel dht n b _) as [[[r' bs] s2]|] eqn:Hrec; [|discriminate].
    apply IH in Hrec. inversion H; subst. rewrite Hrec. exact Hbit.
Qed.

Lemma dht_request_readings_ok_calls E dht s s1 :
  dht_request_readings E dht s = Some (DHT_OK, s1) ->
  gpio_calls (trace s1) =
    EvSetDirection dht GPIO_MODE_INPUT ESP_OK :: EvSetLevel dht 1 ESP_OK
    :: EvSetLevel dht 0 ESP_OK :: EvSetDirection dht GPIO_MODE_OUTPUT ESP_OK
    :: gpio_calls (trace s).
Proof.
  unfold dht_request_readings, bind, gpio_set_direction, gpio_set_level,
    ets_delay_us, ret; cbn [n_gpio n_level n_time trace].
  destruct (Z.eqb_spec (gpio_result E (n_gpio s)) ESP_OK) as [H0|H0];
    cbn [negb n_gpio n_level n_time trace]; [|discriminate].
  destruct (Z.eqb_spec (gpio_result E (S (n_gpio s))) ESP_OK) as [H1|H1];
    cbn [negb n_gpio n_level n_time trace]; [|discriminate].
  destruct (Z.eqb_spec (gpio_result E (S (S (n_gpio s)))) ESP_OK) as [H2|H2];
    cbn [negb n_gpio n_level n_time trace]; [|discriminate].
  destruct (Z.eqb_spec (gpio_result E (S (S (S (n_gpio s))))) ESP_OK) as [H3|H3];
    cbn [negb n_gpio n_level n_time trace]; [|discriminate].
  intros H. inversion H; subst s1; clear H. cbn [trace].
  rewrite H0, H1, H2, H3. reflexivity.
Qed.

(** X3: a [dht_read] that fails on the GPIO never samples the line or reads
    the clock; any other [dht_read] makes exactly four GPIO calls, all at
    the start and all successful, the last of them switching the pin to
    input: it never drives the line again afterwards and leaves the pin an
    input when it returns. *)
Theorem dht_read_gpio_footprint E fuel dht rd0 s st rd s' :
  dht_read E fuel dht rd0 s = Some (st, rd, s') ->
  (st = DHT_ERR_GPIO ->
   n_level s' = n_level s /\ n_time s' = n_time s /\
   exists ev tr, trace s' = ev :: tr /\ failed_gpio_call ev) /\
  (st <> DHT_ERR_GPIO ->
   n_gpio s' = (n_gpio s + 4)%nat /\
   gpio_calls (trace s') =
     EvSetDirection dht GPIO_MODE_INPUT ESP_OK :: EvSetLevel dht 1 ESP_OK
     :: EvSetLevel dht 0 ESP_OK :: EvSetDirection dht GPIO_MODE_OUTPUT ESP_OK
     :: gpio_calls (trace s)).
Proof.
  rewrite dht_read_unfold.
  destruct (dht_request_readings_inv E dht s)
    as (r1 & s1 & Hreq & Hl1 & Ht1 & Hcase).
  rewrite Hreq.
  destruct Hcase as [(-> & _ & Hg1 & _) | (-> & k & _ & _ & _ & _ & Hev)];
    cbn [retval_eqb negb].
  2:{ intros H; inversion H; subst. split; [auto|]. intros Hne. congruence. }
  apply dht_request_readings_ok_calls in Hreq.
  destruct (dht_await_data E fuel dht s1) as [[r2 s2]|] eqn:Hhs; [|discriminate].
  pose proof (dht_await_data_gpio_calls _ _ _ _ _ _ Hhs) as Hc2.
  apply dht_await_data_inv in Hhs as (_ & Hg2 & _).
  destruct (negb (retval_eqb r2 DHT_OK)).
  { intros H; inversion H; subst. split; [discriminate|]. intros _.
    split; [lia|congruence]. }
  rewrite dht_read_frame_bits.
  destruct (read_bits E fuel dht 40 false s2) as [[[r3 bits] s3]|] eqn:Hb; [|discriminate].
  pose proof (read_bits_gpio_calls _ _ _ _ _ _ _ _ _ Hb) as Hc3.
  apply read_bits_inv in Hb as (_ & Hg3 & _).
  assert (Hfin : n_gpio s3 = (n_gpio s + 4)%nat /\
                 gpio_calls (trace s3) =
                   EvSetDirection dht GPIO_MODE_INPUT ESP_OK :: EvSetLevel dht 1 ESP_OK
                   :: EvSetLevel dht 0 ESP_OK
                   :: EvSetDirection dht GPIO_MODE_OUTPUT ESP_OK
                   :: gpio_calls (trace s)) by (split; [lia|congruence]).
  destruct (negb (retval_eqb r3 DHT_OK));
    [|destruct (negb (checksum_ok _))];
    intros H; inversion H; subst; (split; [discriminate|intros _; exact Hfin]).
Qed.

Lemma dht_read_gpio_footprint_witness :
  let E := sensor frame_bad in
  let s' := state_after (dht_read E 100 22 reading_zero) in
  dht_read E 100 22 reading_zero hw0 = Some (DHT_ERR_BADCHECKSUM, reading_zero, s') /\
  DHT_ERR_BADCHECKSUM <> DHT_ERR_GPIO /\
  n_gpio s' = 4%nat /\
  gpio_calls (trace s') =
    [EvSetDirection 22 GPIO_MODE_INPUT ESP_OK; EvSetLevel 22 1 ESP_OK;
     EvSetLevel 22 0 ESP_OK; EvSetDirection 22 GPIO_MODE_OUTPUT ESP_OK].
Proof.
  cbv zeta.
  assert (H : dht_read (sensor frame_bad) 100 22 reading_zero hw0
              = Some (DHT_ERR_BADCHECKSUM, reading_zero,
                      state_after (dht_read (sensor frame_bad) 100 22 reading_zero)))
    by (vm_compute; reflexivity).
  assert (Hne : DHT_ERR_BADCHECKSUM <> DHT_ERR_GPIO) by discriminate.
  split; [exact H|]. split; [exact Hne|].
  exact (proj2 (dht_read_gpio_footprint _ _ _ _ _ _ _ _ H) Hne).
Defined.

(** X4: a [dht_read] that gets past the request asks for the delays 3000us
    and 20us and then for one 10us delay per bit it read, and for no other:
    fewer than forty 10us delays exactly when it returns
    [DHT_ERR_TIMEOUT], forty exactly when a frame was assembled. *)
Theorem dht_read_delays E fuel dht rd0 s st rd s' :
  dht_read E fuel dht rd0 s = Some (st, rd, s') ->
  st <> DHT_ERR_GPIO ->
  exists k,
    delays (trace s') =
      replicate k 10 ++ 20 :: 3000 :: delays (trace s) /\
    (st = DHT_ERR_TIMEOUT <-> (k < 40)%nat) /\
    (st = DHT_OK \/ st = DHT_ERR_BADCHECKSUM <-> k = 40%nat).
Proof.
  rewrite dht_read_unfold.
  destruct (dht_request_readings_inv E dht s)
    as (r1 & s1 & Hreq & _ & _ & Hcase).
  rewrite Hreq.
  destruct Hcase as [(-> & _ & _ & Hd1) | (-> & _)]; cbn [retval_eqb negb].
  2:{ intros H; inversion H; subst. congruence. }
  destruct (dht_await_data E fuel dht s1) as [[r2 s2]|] eqn:Hhs; [|discriminate].
  apply dht_await_data_inv in Hhs as (_ & _ & Hd2 & _).
  destruct (negb (retval_eqb r2 DHT_OK)).
  { intros H _; inversion H; subst. exists 0%nat. cbn [replicate app].
    split; [rewrite Hd2, Hd1; reflexivity|]. split; [split; [lia|reflexivity]|].
    split; [intros [?|?]; discriminate|lia]. }
  rewrite dht_read_frame_bits.
  destruct (read_bits E fuel dht 40 false s2) as [[[r3 bits] s3]|] eqn:Hb; [|discriminate].
  apply read_bits_inv in Hb as (Hk & _ & Hd3 & _).
  assert (Hd : delays (trace s3) =
               replicate (length bits) 10 ++ 20 :: 3000 :: delays (trace s))
    by (rewrite Hd3, Hd2, Hd1; reflexivity).
  destruct Hk as [[-> Hlen]|[-> Hlen]]; cbn [retval_eqb negb].
  - destruct (negb (checksum_ok _)); intros H _; inversion H; subst;
      exists (length bits); (split; [exact Hd|]);
      (split; [split; [discriminate|lia]|split; [auto|auto]]).
  - intros H _; inversion H; subst. exists (length bits). split; [exact Hd|].
    split; [split; [intros _; exact Hlen|reflexivity]|].
    split; [intros [?|?]; discriminate|lia].
Qed.

Lemma dht_read_delays_witness :
  let E := sensor frame_ok in
  let s' := state_after (dht_read E 100 22 reading_zero) in
  dht_read E 100 22 reading_zero hw0
    = Some (DHT_OK, Reading F32.lit_25_8 F32.lit_65_2 145, s') /\
  DHT_OK <> DHT_ERR_GPIO /\
  exists k, delays (trace s') = replicate k 10 ++ 20 :: 3000 :: delays (trace hw0) /\
            (DHT_OK = DHT_OK \/ DHT_OK = DHT_ERR_BADCHECKSUM <-> k = 40%nat).
Proof.
  cbv zeta.
  assert (H : dht_read (sensor frame_ok) 100 22 reading_zero hw0
              = Some (DHT_OK, Reading F32.lit_25_8 F32.lit_65_2 145,
                      state_after (dht_read (sensor frame_ok) 100 22 reading_zero)))
    by (vm_compute; reflexivity).
  assert (Hne : DHT_OK <> DHT_ERR_GPIO) by discriminate.
  split; [exact H|]. split; [exact Hne|].
  destruct (dht_read_delays _ _ _ _ _ _ _ _ H Hne) as (k & Hd & _ & Hk).
  exists k. split; [exact Hd|exact Hk].
Defined.

(* ------------------------------------------------------------------ *)
(** ** Further properties: what the line decides *)

Lemma dht_await_data_sound E fuel dht s r s' :
  dht_await_data E fuel dht s = Some (r, s') ->
  exists nl nt,
    handshake_run E (n_level s) (n_time s) r nl nt /\
    n_level s' = (n_level s + nl)%nat /\ n_time s' = (n_time s + nt)%nat.
Proof.
  rewrite dht_await_data_unfold. intros H.
  destruct (busy_wait E fuel dht 0 _ _ _) as [[r1 s1]|] eqn:H1; [|discriminate].
  apply busy_wait_inv in H1 as (j1 & _ & Hs1 & _ & Hl1 & _ & Hc1).
  unfold after_time in Hs1, Hl1, Hc1; cbn [n_level n_time] in *.
  destruct Hc1 as [(-> & Hv1 & Ht1)|(-> & Hv1 & Hb1 & Ht1)]; cbn [retval_eqb negb] in H.
  - revert H.
    destruct (busy_wait E fuel dht 1 _ _ _) as [[r2 s2]|] eqn:H2; [|discriminate].
    apply busy_wait_inv in H2 as (j2 & _ & Hs2 & _ & Hl2 & _ & Hc2).
    unfold after_time in Hs2, Hl2, Hc2; cbn [n_level n_time] in *.
    rewrite Hl1, Ht1 in Hs2, Hc2.
    replace (n_level s + S j1)%nat with (S (n_level s) + j1)%nat in Hs2, Hc2 by lia.
    destruct Hc2 as [(-> & Hv2 & Ht2)|(-> & Hv2 & Hb2 & Ht2)]; cbn [retval_eqb negb];
      intros H; inversion H; subst r s'; clear H.
    + exists (j1 + j2 + 2)%nat, (j1 + j2 + 2)%nat.
      split; [apply ready_seen; assumption|lia].
    + exists (j1 + j2 + 2)%nat, (j1 + j2 + 3)%nat.
      split; [apply ready_high_timeout; assumption|lia].
  - inversion H; subst r s'; clear H. exists (S j1), (S (S j1)).
    split; [apply ready_low_timeout; assumption|lia].
Qed.

Lemma dht_await_data_complete E fuel dht s r nl nt :
  handshake_run E (n_level s) (n_time s) r nl nt ->
  (nl <= fuel)%nat ->
  exists s',
    dht_await_data E fuel dht s = Some (r, s') /\
    n_level s' = (n_level s + nl)%nat /\ n_time s' = (n_time s + nt)%nat.
Proof.
  intros Hrun Hf. rewrite dht_await_data_unfold.
  destruct Hrun as [j1 Hs1 Hl1 Ht1|j1 j2 Hs1 Hl1 Hs2 Hl2 Ht2|j1 j2 Hs1 Hl1 Hs2 Hl2].
  - destruct (busy_wait_times_out E dht 0 (uptime E (n_time s))
                (spec_us_in_ready_signal_half + 10) j1 fuel (after_time E s))
      as (s1 & -> & _ & Hnl1 & Hnt1); try assumption; try lia.
    cbn [retval_eqb negb]. eexists. split; [reflexivity|].
    unfold after_time in *; cbn [n_level n_time] in *. lia.
  - destruct (busy_wait_falls_out E dht 0 (uptime E (n_time s))
                (spec_us_in_ready_signal_half + 10) j1 fuel (after_time E s))
      as (s1 & -> & _ & Hnl1 & Hnt1); try assumption; try lia.
    cbn [retval_eqb negb].
    unfold after_time in Hnl1, Hnt1; cbn [n_level n_time] in Hnl1, Hnt1.
    destruct (busy_wait_times_out E dht 1 (uptime E (n_time s1))
                (spec_us_in_ready_signal_half + 10) j2 fuel (after_time E s1))
      as (s2 & -> & _ & Hnl2 & Hnt2).
    + unfold after_time; cbn [n_level n_time]. rewrite Hnl1, Hnt1.
      replace (n_level s + S j1)%nat with (S (n_level s) + j1)%nat by lia. exact Hs2.
    + unfold after_time; cbn [n_level n_time]. rewrite Hnl1.
      replace (n_level s + S j1 + j2)%nat with (S (n_level s) + j1 + j2)%nat by lia.
      exact Hl2.
    + unfold after_time; cbn [n_level n_time]. rewrite Hnt1. exact Ht2.
    + lia.
    + cbn [retval_eqb negb]. eexists. split; [reflexivity|].
      unfold after_time in *; cbn [n_level n_time] in *. lia.
  - destruct (busy_wait_falls_out E dht 0 (uptime E (n_time s))
                (spec_us_in_ready_signal_half + 10) j1 fuel (after_time E s))
      as (s1 & -> & _ & Hnl1 & Hnt1); try assumption; try lia.
    cbn [retval_eqb negb].
    unfold after_time in Hnl1, Hnt1; cbn [n_level n_time] in Hnl1, Hnt1.
    destruct (busy_wait_falls_out E dht 1 (uptime E (n_time s1))
                (spec_us_in_ready_signal_half + 10) j2 fuel (after_time E s1))
      as (s2 & -> & _ & Hnl2 & Hnt2).
    + unfold after_time; cbn [n_level n_time]. rewrite Hnl1, Hnt1.
      replace (n_level s + S j1)%nat with (S (n_level s) + j1)%nat by lia. exact Hs2.
    + unfold after_time; cbn [n_level n_time]. rewrite Hnl1.
      replace (n_level s + S j1 + j2)%nat with (S (n_level s) + j1 + j2)%nat by lia.
      exact Hl2.
    + lia.
    + cbn [retval_eqb negb]. eexists. split; [reflexivity|].
      unfold after_time in *; cbn [n_level n_time] in *. lia.
Qed.

(** X5: [dht_await_data] returns [DHT_OK] exactly on the runs in which the
    line leaves 0 before a check of the first wait finds 90us elapsed and
    then leaves 1 before a check of the second wait does; it checks no
    minimum length of either phase, so a line already high on entry passes
    the first wait with one sample.  Every return is such a run, and every
    such run is what it returns, given fuel for its samples. *)
Theorem dht_await_data_runs E fuel dht s :
  (forall r s',
     dht_await_data E fuel dht s = Some (r, s') ->
     exists nl nt,
       handshake_run E (n_level s) (n_time s) r nl nt /\
       n_level s' = (n_level s + nl)%nat /\ n_time s' = (n_time s + nt)%nat) /\
  (forall r nl nt,
     handshake_run E (n_level s) (n_time s) r nl nt -> (nl <= fuel)%nat ->
     exists s',
       dht_await_data E fuel dht s = Some (r, s') /\
       n_level s' = (n_level s + nl)%nat /\ n_time s' = (n_time s + nt)%nat).
Proof.
  split.
  - intros r s' H. exact (dht_await_data_sound E fuel dht s r s' H).
  - intros r nl nt Hrun Hf. exact (dht_await_data_complete E fuel dht s r nl nt Hrun Hf).
Qed.

Lemma dht_await_data_runs_witness :
  handshake_run (sensor frame_ok) 0 0 DHT_OK 2 2 /\
  (2 <= 100)%nat /\
  exists s', dht_await_data (sensor frame_ok) 100 22 hw0 = Some (DHT_OK, s') /\
             n_level s' = 2%nat /\ n_time s' = 2%nat.
Proof.
  assert (Hrun : handshake_run (sensor frame_ok) (n_level hw0) (n_time hw0) DHT_OK
                               (0 + 0 + 2) (0 + 0 + 2)).
  { apply ready_seen; try discriminate; intros i Hi; lia. }
  assert (Hf : (0 + 0 + 2 <= 100)%nat) by lia.
  split; [exact Hrun|]. split; [exact Hf|].
  exact (proj2 (dht_await_data_runs (sensor frame_ok) 100 22 hw0) _ _ _ Hrun Hf).
Defined.

(** X6: whenever the line and the clock allow a run of the bit decoder, a
    low phase checked against 70us and then a high phase checked against
    90us, [dht_read_bit] with fuel for its samples returns that run's
    status without a GPIO call and leaves the bit the run measures, or the
    bit it found when the run is a timeout. *)
Theorem dht_read_bit_follows_run E fuel dht b0 s st t_high nl nt :
  bit_run E (n_level s) (n_time s) st t_high nl nt ->
  (nl < fuel)%nat ->
  exists s',
    dht_read_bit E fuel dht b0 s = Some (st, bit_after b0 t_high, s') /\
    n_gpio s' = n_gpio s /\
    n_level s' = (n_level s + nl)%nat /\ n_time s' = (n_time s + nt)%nat.
Proof. exact (dht_read_bit_run E fuel dht b0 s st t_high nl nt). Qed.

Lemma dht_read_bit_follows_run_witness :
  bit_run (one_bit 70) 0 0 DHT_OK (Some 70) 2 3 /\
  (2 < 100)%nat /\
  exists s', dht_read_bit (one_bit 70) 100 22 false hw0 = Some (DHT_OK, true, s').
Proof.
  assert (Hrun : bit_run (one_bit 70) (n_level hw0) (n_time hw0) DHT_OK (Some 70)
                         (0 + 0 + 2) (0 + 0 + 3)).
  { apply (high_phase_measured (one_bit 70) 0 0 0 0);
      try discriminate; intros i Hi; lia. }
  assert (Hf : (0 + 0 + 2 < 100)%nat) by lia.
  split; [exact Hrun|]. split; [exact Hf|].
  destruct (dht_read_bit_follows_run (one_bit 70) 100 22 false hw0 _ _ _ _ Hrun Hf)
    as (s' & H & _).
  exists s'. exact H.
Defined.

(* ------------------------------------------------------------------ *)
(** ** Further properties: a sensor that transmits a frame *)

Lemma byte_of_bits_byte_bits b : 0 <= b < 256 -> byte_of_bits (byte_bits b) = b.
Proof.
  intros Hb.
  pose (P := fun b => byte_of_bits (byte_bits b) =? b).
  assert (H : P b = true) by (apply all_bytes_spec; [vm_compute; reflexivity|exact Hb]).
  unfold P in H. apply Z.eqb_eq in H. exact H.
Qed.

Lemma byte_bits_length b : length (byte_bits b) = 8%nat.
Proof. reflexivity. Qed.

Lemma frame_of_bits_frame frame :
  length frame = 5%nat -> Forall (fun b => 0 <= b < 256) frame ->
  length (flat_map byte_bits frame) = 40%nat /\
  frame_of_bits (flat_map byte_bits frame) = frame.
Proof.
  intros Hlen Hr.
  destruct frame as [|b0 [|b1 [|b2 [|b3 [|b4 [|]]]]]]; try discriminate.
  repeat match goal with H : Forall _ (_ :: _) |- _ => apply Forall_cons in H as [? H] end.
  split; [reflexivity|].
  unfold frame_of_bits, DHT_BYTES_PER_READ. cbn [flat_map].
  rewrite (app_nil_r (byte_bits b4)).
  rewrite !bytes_of_bits_app by apply byte_bits_length.
  replace (bytes_of_bits 1 (byte_bits b4)) with [byte_of_bits (byte_bits b4)].
  - cbn [length Nat.sub replicate]. rewrite app_nil_r.
    rewrite !byte_of_bits_byte_bits by assumption. reflexivity.
  - rewrite <- (app_nil_r (byte_bits b4)) at 2.
    rewrite bytes_of_bits_app by apply byte_bits_length. reflexivity.
Qed.

Lemma dht_read_bit_scripted E fuel dht b0 s b :
  (forall k, uptime E k = 30 * Z.of_nat k) ->
  (3 < fuel)%nat ->
  (forall i, (i < length (bit_levels b))%nat ->
             line_level E (n_level s + i) = nth i (bit_levels b) 0) ->
  exists s',
    dht_read_bit E fuel dht b0 s = Some (DHT_OK, b, s') /\
    n_level s' = (n_level s + length (bit_levels b))%nat.
Proof.
  intros Hclk Hf Hlv.
  pose proof (Hlv 0%nat) as L0. pose proof (Hlv 1%nat) as L1.
  rewrite Nat.add_0_r in L0.
  assert (Hnone : forall level entry timeout l k, spinning E level entry timeout l k 0)
    by (intros; intros i Hi; lia).
  destruct b; cbn [bit_levels length nth] in *.
  - pose proof (Hlv 2%nat ltac:(lia)) as L2. cbn [nth] in L2.
    specialize (L0 ltac:(lia)). specialize (L1 ltac:(lia)).
    assert (Hrun : bit_run E (n_level s) (n_time s) DHT_OK
                     (Some (uptime E (S (S (n_time s) + 0) + 1)
                            - uptime E (S (n_time s) + 0))) (0 + 1 + 2) (0 + 1 + 3)).
    { apply high_phase_measured.
      - apply Hnone.
      - rewrite Nat.add_0_r, L0. discriminate.
      - intros i Hi. assert (i = 0%nat) as -> by lia.
        rewrite !Nat.add_0_r. split.
        + rewrite <- Nat.add_1_r. exact L1.
        + rewrite !Hclk. unfold spec_us_in_data_bit_high. lia.
      - replace (S (n_level s) + 0 + 1)%nat with (n_level s + 2)%nat by lia.
        rewrite L2. discriminate. }
    destruct (dht_read_bit_run E fuel dht b0 s _ _ _ _ Hrun ltac:(lia))
      as (s' & Hres & _ & Hnl & _).
    exists s'. split; [|lia]. rewrite Hres. f_equal. f_equal. f_equal.
    cbn [bit_after]. rewrite !Hclk. unfold spec_us_bit_length_threshold.
    apply negb_true_iff, Z.ltb_ge. lia.
  - specialize (L0 ltac:(lia)). specialize (L1 ltac:(lia)).
    assert (Hrun : bit_run E (n_level s) (n_time s) DHT_OK
                     (Some (uptime E (S (S (n_time s) + 0) + 0)
                            - uptime E (S (n_time s) + 0))) (0 + 0 + 2) (0 + 0 + 3)).
    { apply high_phase_measured.
      - apply Hnone.
      - rewrite Nat.add_0_r, L0. discriminate.
      - apply Hnone.
      - replace (S (n_level s) + 0 + 0)%nat with (n_level s + 1)%nat by lia.
        rewrite L1. discriminate. }
    destruct (dht_read_bit_run E fuel dht b0 s _ _ _ _ Hrun ltac:(lia))
      as (s' & Hres & _ & Hnl & _).
    exists s'. split; [|lia]. rewrite Hres. f_equal. f_equal. f_equal.
    cbn [bit_after]. rewrite !Hclk. unfold spec_us_bit_length_threshold.
    apply negb_false_iff, Z.ltb_lt. lia.
Qed.

Lemma read_bits_scripted E fuel dht :
  (forall k, uptime E k = 30 * Z.of_nat k) ->
  (3 < fuel)%nat ->
  forall bits b0 s,
    (forall i, (i < length (flat_map bit_levels bits))%nat ->
               line_level E (n_level s + i) = nth i (flat_map bit_levels bits) 0) ->
    exists s',
      read_bits E fuel dht (length bits) b0 s = Some (DHT_OK, bits, s').
Proof.
  intros Hclk Hf. induction bits as [|b bits IH]; intros b0 s Hlv.
  - eexists. reflexivity.
  - cbn [length read_bits flat_map] in *. unfold bind.
    rewrite length_app in Hlv.
    destruct (dht_read_bit_scripted E fuel dht b0 s b Hclk Hf) as (s1 & -> & Hnl).
    { intros i Hi. rewrite (Hlv i) by lia. apply app_nth1. exact Hi. }
    cbn [retval_eqb negb]. unfold ets_delay_us.
    destruct (IH b (Hw (n_gpio s1) (n_level s1) (n_time s1)
                       (EvDelay measured_us_max_transition_t :: trace s1)))
      as (s2 & ->).
    { intros i Hi. cbn [n_level]. rewrite Hnl, <- Nat.add_assoc.
      rewrite (Hlv (length (bit_levels b) + i)%nat) by lia.
      rewrite app_nth2_plus. reflexivity. }
    eexists. reflexivity.
Qed.

(** X7: a sensor that answers the handshake and then sends the forty bits
    of a frame, most significant bit first, holding the line high for 30us
    for a 0 and for 60us for a 1, is read back as exactly that frame,
    whatever its five bytes: [DHT_OK] with the parsed reading when the fifth
    byte is the checksum of the first four, [DHT_ERR_BADCHECKSUM] and a zero
    reading when it is not. *)
Theorem sensor_round_trip frame fuel dht rd0 s :
  length frame = 5%nat ->
  Forall (fun b => 0 <= b < 256) frame ->
  (3 < fuel)%nat ->
  n_level s = 0%nat ->
  exists s',
    assembles (sensor frame) fuel dht s frame s' /\
    dht_read (sensor frame) fuel dht rd0 s =
      Some (if checksum_ok frame
            then (DHT_OK, parse_buffer frame reading_zero)
            else (DHT_ERR_BADCHECKSUM, reading_zero), s').
Proof.
  intros Hlen Hr Hf Hs.
  set (E := sensor frame).
  assert (Hclk : forall k, uptime E k = 30 * Z.of_nat k) by reflexivity.
  assert (Hnone : forall level entry timeout l k, spinning E level entry timeout l k 0)
    by (intros; intros i Hi; lia).
  destruct (dht_request_readings_inv E dht s) as (r1 & s1 & Hreq & Hl1 & _ & Hcase).
  destruct Hcase as [(-> & _)|(_ & k & _ & _ & Hfail & _)].
  2:{ exfalso. apply Hfail. cbn. destruct (n_gpio s + k)%nat; reflexivity. }
  assert (Hrun : handshake_run E (n_level s1) (n_time s1) DHT_OK (0 + 0 + 2) (0 + 0 + 2)).
  { rewrite Hl1, Hs. apply ready_seen; [apply Hnone|discriminate|apply Hnone|discriminate]. }
  destruct (dht_await_data_complete E fuel dht s1 _ _ _ Hrun ltac:(lia))
    as (s2 & Hhs & Hl2 & _).
  destruct (frame_of_bits_frame frame Hlen Hr) as [Hbits Hframe].
  destruct (read_bits_scripted E fuel dht Hclk Hf (flat_map byte_bits frame) false s2)
    as (s3 & Hrd).
  { intros i Hi. rewrite Hl2, Hl1, Hs. reflexivity. }
  rewrite Hbits in Hrd.
  assert (Hasm : assembles E fuel dht s frame s3).
  { exists s1, s2, (List.last (flat_map byte_bits frame) false).
    split; [exact Hreq|]. split; [exact Hhs|].
    rewrite dht_read_frame_bits, Hrd, Hframe. reflexivity. }
  exists s3. split; [exact Hasm|].
  rewrite (assembles_dht_read _ _ _ rd0 _ _ _ Hasm).
  destruct (checksum_ok frame); reflexivity.
Qed.

Lemma sensor_round_trip_witness :
  length frame_neg = 5%nat /\
  Forall (fun b => 0 <= b < 256) frame_neg /\
  (3 < 100)%nat /\ n_level hw0 = 0%nat /\
  exists s',
    assembles (sensor frame_neg) 100 22 hw0 frame_neg s' /\
    dht_read (sensor frame_neg) 100 22 reading_zero hw0 =
      Some (DHT_OK, Reading F32.lit_m25_8 F32.lit_65_2 17, s').
Proof.
  assert (Hr : Forall (fun b => 0 <= b < 256) frame_neg) by (repeat constructor; lia).
  assert (Hf : (3 < 100)%nat) by lia.
  split; [reflexivity|]. split; [exact Hr|]. split; [exact Hf|]. split; [reflexivity|].
  destruct (sensor_round_trip frame_neg 100 22 reading_zero hw0 eq_refl Hr Hf eq_refl)
    as (s' & Hasm & Hrd).
  exists s'. split; [exact Hasm|]. rewrite Hrd. reflexivity.
Defined.

(* ------------------------------------------------------------------ *)
(** ** Further properties: what the checksum catches, what the floats keep *)

Lemma digits2_pos_lower m : 2 ^ (Z.pos (digits2_pos m) - 1) <= Z.pos m.
Proof.
  induction m as [p IH|p IH|]; cbn [digits2_pos].
  - rewrite Pos2Z.inj_succ. replace (Z.succ (Z.pos (digits2_pos p)) - 1)
      with (Z.succ (Z.pos (digits2_pos p) - 1)) by lia.
    rewrite Z.pow_succ_r by lia. lia.
  - rewrite Pos2Z.inj_succ. replace (Z.succ (Z.pos (digits2_pos p)) - 1)
      with (Z.succ (Z.pos (digits2_pos p) - 1)) by lia.
    rewrite Z.pow_succ_r by lia. lia.
  - reflexivity.
Qed.

(** A binary32 value within half an ulp of [n / 10], for a 16-bit [n],
    is nearer to [n / 10] than to any other tenth. *)
Lemma nearest_to_tenths x n :
  F32.nearest_to x n 10 = true -> -65535 <= n <= 65535 ->
  to_tenths x = Some n.
Proof.
  unfold F32.nearest_to, to_tenths.
  destruct x as [sg|sg| |sg m e]; cbn [valid_binary andb]; try discriminate.
  - intros H _. apply Z.eqb_eq in H. congruence.
  - intros H Hn. apply andb_true_iff in H as [Hv H].
    apply andb_true_iff in H as [He H]. rewrite He.
    apply Z.leb_le in He, H.
    unfold bounded, canonical_mantissa, fexp, emin, F32.prec, F32.emax in Hv.
    apply andb_true_iff in Hv as [Hc _]. apply Z.eqb_eq in Hc.
    pose proof (digits2_pos_lower m) as Hd.
    set (v := if sg then - Z.pos m else Z.pos m) in *.
    assert (Hm : Z.abs v = Z.pos m) by (subst v; destruct sg; lia).
    f_equal.
    destruct (Z_le_gt_dec e (-4)) as [Hlow|Hhigh].
    + assert (HP : 16 <= 2 ^ (- e)).
      { change 16 with (2 ^ 4). apply Z.pow_le_mono_r; lia. }
      set (P := 2 ^ (- e)) in *.
      symmetry. apply Z.div_unique with (r := 20 * v + P - 2 * (n * P)); lia.
    + exfalso.
      assert (Hdig : Z.pos (digits2_pos m) = 24) by lia.
      rewrite Hdig in Hd. change (2 ^ (24 - 1)) with 8388608 in Hd.
      assert (e = 0 \/ e = -1 \/ e = -2 \/ e = -3) as [-> | [-> | [-> | ->]]] by lia;
        cbn in H; lia.
Qed.

(** X8: the reading of a frame that passed the checksum keeps the sensor's
    tenths: ten times the humidity rounds to [b0 * 256 + b1], ten times the
    temperature to [(b2 & 0x7F) * 256 + b3], negated when bit 7 of [b2] is
    set, so nothing of the 16-bit values is lost in the floats. *)
Theorem reading_keeps_tenths E fuel dht rd0 s buf s' :
  assembles E fuel dht s buf s' ->
  checksum_ok buf = true ->
  exists rd,
    dht_read E fuel dht rd0 s = Some (DHT_OK, rd, s') /\
    to_tenths (humidity rd) = Some (buf !!! 0%nat * 256 + buf !!! 1%nat) /\
    to_tenths (temperature rd) =
      Some (let m := Z.land (buf !!! 2%nat) 127 * 256 + buf !!! 3%nat in
            if Z.testbit (buf !!! 2%nat) 7 then - m else m).
Proof.
  intros Hasm Hck. exists (parse_buffer buf reading_zero).
  rewrite (assembles_dht_read _ _ _ rd0 _ _ _ Hasm), Hck.
  split; [reflexivity|].
  destruct (assembles_frame _ _ _ _ _ _ Hasm) as [Hlen Hrange].
  destruct (parse_buffer_values buf reading_zero Hrange Hlen)
    as (Hh & Ht & _ & Hnh & Hnm & _).
  rewrite Hh, Ht. cbv zeta.
  destruct buf as [|b0 [|b1 [|b2 [|b3 [|b4 [|]]]]]]; try discriminate Hlen.
  repeat match goal with H : Forall _ (_ :: _) |- _ => apply Forall_cons in H as [? H] end.
  change ([b0; b1; b2; b3; b4] !!! 0%nat) with b0 in *.
  change ([b0; b1; b2; b3; b4] !!! 1%nat) with b1 in *.
  change ([b0; b1; b2; b3; b4] !!! 2%nat) with b2 in *.
  change ([b0; b1; b2; b3; b4] !!! 3%nat) with b3 in *.
  destruct (testbit7_land b2 ltac:(assumption)) as [_ Hlow].
  split; [apply nearest_to_tenths; [exact Hnh|lia]|].
  destruct (Z.testbit b2 7).
  - apply nearest_to_tenths; [apply nearest_to_opp; exact Hnm|lia].
  - apply nearest_to_tenths; [exact Hnm|lia].
Qed.

Lemma reading_keeps_tenths_witness :
  let E := sensor frame_neg in
  let s' := state_after (dht_read E 100 22 reading_zero) in
  assembles E 100 22 hw0 frame_neg s' /\
  checksum_ok frame_neg = true /\
  exists rd,
    dht_read E 100 22 reading_zero hw0 = Some (DHT_OK, rd, s') /\
    to_tenths (humidity rd) = Some 652 /\
    to_tenths (temperature rd) = Some (-258).
Proof.
  cbv zeta. split; [exact sensor_neg_assembles|]. split; [reflexivity|].
  destruct (reading_keeps_tenths _ _ _ reading_zero _ _ _ sensor_neg_assembles eq_refl)
    as (rd & Hrd & Hh & Ht).
  exists rd. split; [exact Hrd|]. split; [exact Hh|exact Ht].
Defined.

Lemma checksum_one_byte (buf : list Z) i v :
  length buf = 5%nat -> Forall (fun b => 0 <= b < 256) buf ->
  (i < 5)%nat -> 0 <= v < 256 -> v <> buf !!! i ->
  checksum_ok buf = true ->
  checksum_ok (<[i := v]> buf) = false.
Proof.
  intros Hlen Hr Hi Hv Hne Hok.
  destruct buf as [|b0 [|b1 [|b2 [|b3 [|b4 [|]]]]]]; try discriminate.
  repeat match goal with H : Forall _ (_ :: _) |- _ => apply Forall_cons in H as [? H] end.
  apply checksum_ok_mod in Hok.
  apply not_true_is_false. intros Hok'. apply checksum_ok_mod in Hok'.
  destruct i as [|[|[|[|[|i]]]]]; [| | | | |lia];
    cbn in Hne, Hok, Hok'; apply Hne; clear Hne.
  all: repeat match goal with
         | H : context [(?a) mod 256] |- _ =>
             let q := fresh "q" in let r := fresh "r" in
             pose proof (Z.div_mod a 256 ltac:(lia));
             pose proof (Z.mod_pos_bound a 256 ltac:(lia));
             generalize dependent (a mod 256); generalize dependent (a / 256);
             intros
         end; lia.
Qed.

(** X9: the checksum test catches every single-byte error: a frame that
    differs from a frame with a right checksum in exactly one of its five
    bytes makes [dht_read] return [DHT_ERR_BADCHECKSUM]. *)
Theorem single_byte_error_detected E fuel dht rd0 s (buf : list Z) i v s' :
  length buf = 5%nat ->
  Forall (fun b => 0 <= b < 256) buf ->
  checksum_ok buf = true ->
  (i < 5)%nat -> 0 <= v < 256 -> v <> buf !!! i ->
  assembles E fuel dht s (<[i := v]> buf) s' ->
  dht_read E fuel dht rd0 s = Some (DHT_ERR_BADCHECKSUM, reading_zero, s').
Proof.
  intros Hlen Hr Hok Hi Hv Hne Hasm.
  rewrite (assembles_dht_read _ _ _ rd0 _ _ _ Hasm).
  rewrite (checksum_one_byte buf i v Hlen Hr Hi Hv Hne Hok). reflexivity.
Qed.

Lemma single_byte_error_detected_witness :
  let E := sensor frame_bad in
  let s' := state_after (dht_read E 100 22 reading_zero) in
  length frame_ok = 5%nat /\
  Forall (fun b => 0 <= b < 256) frame_ok /\
  checksum_ok frame_ok = true /\
  (4 < 5)%nat /\ 0 <= 146 < 256 /\ 146 <> frame_ok !!! 4%nat /\
  assembles E 100 22 hw0 (<[4%nat := 146]> frame_ok) s' /\
  dht_read E 100 22 reading_zero hw0 = Some (DHT_ERR_BADCHECKSUM, reading_zero, s').
Proof.
  cbv zeta.
  assert (Hr : Forall (fun b => 0 <= b < 256) frame_ok) by (repeat constructor; lia).
  assert (Hv : 0 <= 146 < 256) by lia.
  assert (Hne : 146 <> frame_ok !!! 4%nat) by discriminate.
  assert (Hi : (4 < 5)%nat) by lia.
  split; [reflexivity|]. split; [exact Hr|]. split; [reflexivity|].
  split; [exact Hi|]. split; [exact Hv|]. split; [exact Hne|].
  split; [exact sensor_bad_assembles|].
  exact (single_byte_error_detected (sensor frame_bad) 100 22 reading_zero hw0
           frame_ok 4 146 _ eq_refl Hr eq_refl Hi Hv Hne sensor_bad_assembles).
Defined.

Lemma sum_permutation (l l' : list Z) :
  Permutation l l' -> foldr Z.add 0 l = foldr Z.add 0 l'.
Proof. induction 1; cbn; lia. Qed.

Lemma checksum_data_order (d d' : list Z) c :
  length d = 4%nat -> Permutation d d' ->
  checksum_ok (d ++ [c]) = checksum_ok (d' ++ [c]).
Proof.
  intros Hlen Hp. pose proof (Permutation_length Hp) as Hlen'. rewrite Hlen in Hlen'.
  apply sum_permutation in Hp.
  destruct d as [|a0 [|a1 [|a2 [|a3 [|]]]]]; try discriminate.
  destruct d' as [|b0 [|b1 [|b2 [|b3 [|]]]]]; try discriminate.
  unfold checksum_ok. cbn in *.
  replace (b0 + b1 + b2 + b3) with (a0 + a1 + a2 + a3) by lia. reflexivity.
Qed.

(** X10: the checksum does not see the order of the four data bytes: a
    frame whose data bytes are those of a frame with a right checksum, in
    any other order, is accepted, and [dht_read] returns [DHT_OK] with the
    reading of the reordered bytes. *)
Theorem reordered_data_accepted E fuel dht rd0 s (d d' : list Z) c s' :
  length d = 4%nat -> Permutation d d' ->
  checksum_ok (d ++ [c]) = true ->
  assembles E fuel dht s (d' ++ [c]) s' ->
  dht_read E fuel dht rd0 s =
    Some (DHT_OK, parse_buffer (d' ++ [c]) reading_zero, s').
Proof.
  intros Hlen Hp Hok Hasm.
  rewrite (assembles_dht_read _ _ _ rd0 _ _ _ Hasm).
  rewrite <- (checksum_data_order d d' c Hlen Hp), Hok. reflexivity.
Qed.

Lemma sensor_swapped_assembles :
  assembles (sensor frame_swapped) 100 22 hw0 frame_swapped
            (state_after (dht_read (sensor frame_swapped) 100 22 reading_zero)).
Proof.
  exists (state_after (dht_request_readings (sensor frame_swapped) 22)),
         (state_after (let* _ := dht_request_readings (sensor frame_swapped) 22 in
                       dht_await_data (sensor frame_swapped) 100 22)),
         true.
  split; [vm_compute; reflexivity|]. split; vm_compute; reflexivity.
Qed.

Lemma reordered_data_accepted_witness :
  let E := sensor frame_swapped in
  let s' := state_after (dht_read E 100 22 reading_zero) in
  length [2; 140; 1; 2] = 4%nat /\
  Permutation [2; 140; 1; 2] [140; 2; 1; 2] /\
  checksum_ok ([2; 140; 1; 2] ++ [145]) = true /\
  assembles E 100 22 hw0 ([140; 2; 1; 2] ++ [145]) s' /\
  exists rd, dht_read E 100 22 reading_zero hw0 = Some (DHT_OK, rd, s') /\
             to_tenths (humidity rd) = Some 35842.
Proof.
  cbv zeta.
  assert (Hp : Permutation [2; 140; 1; 2] [140; 2; 1; 2]) by apply Permutation_swap.
  split; [reflexivity|]. split; [exact Hp|]. split; [reflexivity|].
  split; [exact sensor_swapped_assembles|].
  eexists. split.
  - exact (reordered_data_accepted (sensor frame_swapped) 100 22 reading_zero hw0
             [2; 140; 1; 2] [140; 2; 1; 2] 145 _ eq_refl Hp eq_refl
             sensor_swapped_assembles).
  - reflexivity.
Defined.

(* ------------------------------------------------------------------ *)
(** ** Further properties: only elapsed time matters *)

Lemma same_calls_after_level E c dht s s2 :
  same_calls s s2 ->
  same_calls (after_level E dht s) (after_level (shifted E c) dht s2).
Proof. intros (Hg & Hl & Ht). unfold same_calls; cbn. auto. Qed.

Lemma same_calls_after_time E c s s2 :
  same_calls s s2 ->
  same_calls (after_time E s) (after_time (shifted E c) s2).
Proof. intros (Hg & Hl & Ht). unfold same_calls; cbn. auto. Qed.

Lemma busy_wait_shifted E c dht level entry timeout :
  forall fuel s s2 r s',
    same_calls s s2 ->
    busy_wait E fuel dht level entry timeout s = Some (r, s') ->
    exists s2',
      busy_wait (shifted E c) fuel dht level (entry + c) timeout s2 = Some (r, s2') /\
      same_calls s' s2'.
Proof.
  induction fuel as [|fuel IH]; intros s s2 r s' Hs H; [discriminate|].
  rewrite busy_wait_unfold in *.
  pose proof Hs as (Hg & Hl & Ht).
  change (line_level (shifted E c) (n_level s2)) with (line_level E (n_level s2)).
  change (uptime (shifted E c) (n_time s2)) with (uptime E (n_time s2) + c).
  rewrite <- Hl, <- Ht.
  replace (uptime E (n_time s) + c - (entry + c)) with (uptime E (n_time s) - entry) by lia.
  destruct (_ =? level).
  - destruct (_ >=? timeout).
    + inversion H; subst. eexists. split; [reflexivity|].
      apply same_calls_after_time, same_calls_after_level, Hs.
    + apply (IH _ _ _ _ (same_calls_after_time E c _ _ (same_calls_after_level E c dht _ _ Hs)) H).
  - inversion H; subst. eexists. split; [reflexivity|].
    apply same_calls_after_level, Hs.
Qed.

Lemma dht_await_data_shifted E c fuel dht s s2 r s' :
  same_calls s s2 ->
  dht_await_data E fuel dht s = Some (r, s') ->
  exists s2', dht_await_data (shifted E c) fuel dht s2 = Some (r, s2') /\
              same_calls s' s2'.
Proof.
  intros Hs. rewrite !dht_await_data_unfold.
  destruct (busy_wait E fuel dht 0 _ _ _) as [[r1 s1]|] eqn:H1; [|discriminate].
  pose proof Hs as (_ & _ & Ht).
  change (uptime (shifted E c) (n_time s2)) with (uptime E (n_time s2) + c).
  rewrite <- Ht.
  destruct (busy_wait_shifted E c _ _ _ _ _ _ _ _ _ (same_calls_after_time E c _ _ Hs) H1)
    as (s1' & -> & Hs1).
  destruct (negb _); [intros H; inversion H; subst; eauto|].
  destruct (busy_wait E fuel dht 1 _ _ _) as [[r2 s2a]|] eqn:H2; [|discriminate].
  pose proof Hs1 as (_ & _ & Ht1).
  change (uptime (shifted E c) (n_time s1')) with (uptime E (n_time s1') + c).
  rewrite <- Ht1.
  destruct (busy_wait_shifted E c _ _ _ _ _ _ _ _ _ (same_calls_after_time E c _ _ Hs1) H2)
    as (s2' & -> & Hs2).
  destruct (negb _); intros H; inversion H; subst; eauto.
Qed.

Lemma dht_read_bit_shifted E c fuel dht b0 s s2 r b s' :
  same_calls s s2 ->
  dht_read_bit E fuel dht b0 s = Some (r, b, s') ->
  exists s2', dht_read_bit (shifted E c) fuel dht b0 s2 = Some (r, b, s2') /\
              same_calls s' s2'.
Proof.
  intros Hs. rewrite !dht_read_bit_unfold.
  destruct (busy_wait E fuel dht 0 _ _ _) as [[r1 s1]|] eqn:H1; [|discriminate].
  pose proof Hs as (_ & _ & Ht).
  change (uptime (shifted E c) (n_time s2)) with (uptime E (n_time s2) + c).
  rewrite <- Ht.
  destruct (busy_wait_shifted E c _ _ _ _ _ _ _ _ _ (same_calls_after_time E c _ _ Hs) H1)
    as (s1' & -> & Hs1).
  destruct (negb _); [intros H; inversion H; subst; eauto|].
  destruct (busy_wait E fuel dht 1 _ _ _) as [[r2 s2a]|] eqn:H2; [|discriminate].
  pose proof Hs1 as (_ & _ & Ht1).
  change (uptime (shifted E c) (n_time s1')) with (uptime E (n_time s1') + c).
  rewrite <- Ht1.
  destruct (busy_wait_shifted E c _ _ _ _ _ _ _ _ _ (same_calls_after_time E c _ _ Hs1) H2)
    as (s2' & -> & Hs2).
  destruct (negb _); intros H; inversion H; subst; [eauto|].
  pose proof Hs2 as (_ & _ & Ht2).
  change (uptime (shifted E c) (n_time s2')) with (uptime E (n_time s2') + c).
  rewrite <- Ht2.
  replace (uptime E (n_time s2a) + c - (uptime E (n_time s1) + c))
    with (uptime E (n_time s2a) - uptime E (n_time s1)) by lia.
  eexists. split; [reflexivity|]. apply same_calls_after_time, Hs2.
Qed.

Lemma read_bits_shifted E c fuel dht :
  forall n b0 s s2 r bits s',
    same_calls s s2 ->
    read_bits E fuel dht n b0 s = Some (r, bits, s') ->
    exists s2', read_bits (shifted E c) fuel dht n b0 s2 = Some (r, bits, s2') /\
                same_calls s' s2'.
Proof.
  induction n as [|n IH]; intros b0 s s2 r bits s' Hs H; cbn [read_bits] in *.
  - inversion H; subst. eexists. split; [reflexivity|exact Hs].
  - unfold bind in *.
    destruct (dht_read_bit E fuel dht b0 s) as [[[st b] s1]|] eqn:Hbit; [|discriminate].
    destruct (dht_read_bit_shifted E c _ _ _ _ _ _ _ _ Hs Hbit) as (s1' & -> & Hs1).
    destruct (negb _); [inversion H; subst; eauto|].
    unfold ets_delay_us in *.
    destruct (read_bits E fuel dht n b _) as [[[r' bs] s3]|] eqn:Hrec; [|discriminate].
    assert (Hs1d : same_calls
              (Hw (n_gpio s1) (n_level s1) (n_time s1)
                  (EvDelay measured_us_max_transition_t :: trace s1))
              (Hw (n_gpio s1') (n_level s1') (n_time s1')
                  (EvDelay measured_us_max_transition_t :: trace s1')))
      by exact Hs1.
    destruct (IH b _ _ _ _ _ Hs1d Hrec) as (s3' & -> & Hs3).
    inversion H; subst. eauto.
Qed.

Lemma dht_request_readings_shifted E c dht s s2 r s' :
  same_calls s s2 ->
  dht_request_readings E dht s = Some (r, s') ->
  exists s2', dht_request_readings (shifted E c) dht s2 = Some (r, s2') /\
              same_calls s' s2'.
Proof.
  intros (Hg & Hl & Ht).
  unfold dht_request_readings, bind, gpio_set_direction, gpio_set_level,
    ets_delay_us, ret; cbn [n_gpio n_level n_time trace gpio_result shifted].
  rewrite <- Hg, <- Hl, <- Ht.
  destruct (gpio_result E (n_gpio s) =? ESP_OK); cbn [negb n_gpio n_level n_time trace];
    [|intros H; inversion H; subst; eexists; split; [reflexivity|]; unfold same_calls; cbn; auto].
  destruct (gpio_result E (S (n_gpio s)) =? ESP_OK); cbn [negb n_gpio n_level n_time trace];
    [|intros H; inversion H; subst; eexists; split; [reflexivity|]; unfold same_calls; cbn; auto].
  destruct (gpio_result E (S (S (n_gpio s))) =? ESP_OK); cbn [negb n_gpio n_level n_time trace];
    [|intros H; inversion H; subst; eexists; split; [reflexivity|]; unfold same_calls; cbn; auto].
  destruct (gpio_result E (S (S (S (n_gpio s)))) =? ESP_OK); cbn [negb n_gpio n_level n_time trace];
    intros H; inversion H; subst; eexists; (split; [reflexivity|]); unfold same_calls; cbn; auto.
Qed.

(** X11: [dht_read] uses the clock only for elapsed times: with every
    clock reading moved by the same amount it makes the same calls and
    returns the same status and the same reading. *)
Theorem dht_read_clock_shift E c fuel dht rd0 s st rd s' :
  dht_read E fuel dht rd0 s = Some (st, rd, s') ->
  exists s2',
    dht_read (shifted E c) fuel dht rd0 s = Some (st, rd, s2') /\
    same_calls s' s2'.
Proof.
  rewrite !dht_read_unfold.
  assert (Hs : same_calls s s) by (unfold same_calls; auto).
  destruct (dht_request_readings E dht s) as [[r1 s1]|] eqn:Hreq; [|discriminate].
  destruct (dht_request_readings_shifted E c _ _ _ _ _ Hs Hreq) as (s1' & -> & Hs1).
  destruct (negb (retval_eqb r1 DHT_OK)); [intros H; inversion H; subst; eauto|].
  destruct (dht_await_data E fuel dht s1) as [[r2 s2]|] eqn:Hhs; [|discriminate].
  destruct (dht_await_data_shifted E c _ _ _ _ _ _ Hs1 Hhs) as (s2' & -> & Hs2).
  destruct (negb (retval_eqb r2 DHT_OK)); [intros H; inversion H; subst; eauto|].
  rewrite !dht_read_frame_bits.
  destruct (read_bits E fuel dht 40 false s2) as [[[r3 bits] s3]|] eqn:Hb; [|discriminate].
  destruct (read_bits_shifted E c _ _ _ _ _ _ _ _ _ Hs2 Hb) as (s3' & -> & Hs3).
  destruct (negb (retval_eqb r3 DHT_OK)); [intros H; inversion H; subst; eauto|].
  destruct (negb (checksum_ok _)); intros H; inversion H; subst; eauto.
Qed.

Lemma dht_read_clock_shift_witness :
  let E := sensor frame_ok in
  let s' := state_after (dht_read E 100 22 reading_zero) in
  dht_read E 100 22 reading_zero hw0
    = Some (DHT_OK, Reading F32.lit_25_8 F32.lit_65_2 145, s') /\
  exists s2',
    dht_read (shifted E 1000000) 100 22 reading_zero hw0
      = Some (DHT_OK, Reading F32.lit_25_8 F32.lit_65_2 145, s2') /\
    same_calls s' s2'.
Proof.
  cbv zeta.
  assert (H : dht_read (sensor frame_ok) 100 22 reading_zero hw0
              = Some (DHT_OK, Reading F32.lit_25_8 F32.lit_65_2 145,
                      state_after (dht_read (sensor frame_ok) 100 22 reading_zero)))
    by (vm_compute; reflexivity).
  split; [exact H|].
  exact (dht_read_clock_shift (sensor frame_ok) 1000000 _ _ _ _ _ _ _ H).
Defined.
